(** * WASM decoder wrappers (AV1 / HEVC / VP9): a shallow embedding

    The three files [decoders/av1/wrapper.c], [decoders/hevc/wrapper.c] and
    [decoders/vp9/wrapper.c] adapt dav1d, libde265 and libvpx to one
    handle-based ABI.  This development embeds the three wrappers as
    functions over an explicit heap and an abstract library state, and proves
    the properties of the frame extractor and of the handle protocol. *)

From Stdlib Require Import ZArith List Lia Bool.
From stdpp Require Import base option list gmap.

Local Open Scope Z_scope.

(** ** Machine integers of the wasm32 target *)

Module Int32.

Definition modulus : Z := 2 ^ 32.
Definition INT_MAX : Z := 2 ^ 31 - 1.
Definition INT_MIN : Z := - 2 ^ 31.

(** [int] / [int32_t] / [ptrdiff_t]: two's complement wrap-around. *)
Definition wrap (z : Z) : Z := (z + 2 ^ 31) mod modulus - 2 ^ 31.

(** [unsigned] / [size_t] / [uintptr_t]. *)
Definition uwrap (z : Z) : Z := z mod modulus.

Definition add (a b : Z) : Z := wrap (a + b).
Definition mul (a b : Z) : Z := wrap (a * b).
(** C division truncates towards zero. *)
Definition div (a b : Z) : Z := wrap (Z.quot a b).

Definition umul (a b : Z) : Z := uwrap (a * b).

Definition in_range (z : Z) : Prop := INT_MIN <= z <= INT_MAX.

(** [uwrap] never yields a negative size. *)
Definition uwrap_range_nonneg (z : Z) : 0 <= uwrap z :=
  proj1 (Z.mod_pos_bound z modulus eq_refl).

End Int32.

(** ** Outcomes and the state monad of the embedding

    A C call either returns, or its behaviour is undefined (a load, store or
    [free] through a pointer that is not live, a [memcpy] outside its
    buffers), or, for dav1d's resend loop, it is still running when the fuel
    of the model is spent. *)

Inductive outcome (A : Type) : Type :=
  | Ok (a : A)
  | Undefined
  | OutOfFuel.
Arguments Ok {A} a.
Arguments Undefined {A}.
Arguments OutOfFuel {A}.

Definition M (S A : Type) : Type := S -> outcome (A * S).

Definition ret {S A} (a : A) : M S A := fun s => Ok (a, s).

Definition bind {S A B} (m : M S A) (k : A -> M S B) : M S B :=
  fun s => match m s with
           | Ok (a, s') => k a s'
           | Undefined => Undefined
           | OutOfFuel => OutOfFuel
           end.

Definition undefined {S A} : M S A := fun _ => Undefined.
Definition out_of_fuel {S A} : M S A := fun _ => OutOfFuel.

(** The wrappers are written with stdpp's monadic notation
    [x ← m; k]. *)
Global Instance M_ret {S} : MRet (M S) := fun A a => ret a.
Global Instance M_bind {S} : MBind (M S) := fun A B k m => bind m k.

(** ** The output record shared by the three wrappers

    [DecodedFrame] of each [wrapper.c]; the three declarations are the same
    nine [int32_t] fields. *)

Record DecodedFrame : Type := {
  width : Z;
  height : Z;
  chromaFormat : Z;
  bitDepth : Z;
  yPtr : Z;
  uPtr : Z;
  vPtr : Z;
  ySize : Z;
  uvSize : Z
}.

Definition sizeof_DecodedFrame : Z := 36.

Abbreviation bytes := (list Byte.byte).

(** ** The C heap

    The allocator is an external collaborator of the wrappers: [malloc]
    returns NULL on failure and [free] accepts NULL.  It is modelled as a bump
    allocator whose successes and failures are scripted by [allocs], so that
    every pattern of allocation failure can be exercised; a fresh block holds
    unspecified bytes ([junk]).  [D] is the adapter's session struct. *)

Inductive alloc_result : Type :=
  | AllocFail
  | AllocOk (junk : nat -> Byte.byte).

Inductive object (D : Type) : Type :=
  | Bytes (bs : bytes)
  | Frame (f : DecodedFrame)
  | Session (d : D).
Arguments Bytes {D} bs.
Arguments Frame {D} f.
Arguments Session {D} d.

Record heap (D : Type) : Type := {
  live : gmap Z (object D);
  brk : Z;
  allocs : list alloc_result
}.
Arguments live {D} h.
Arguments brk {D} h.
Arguments allocs {D} h.

Definition NULL : Z := 0.

(** [(int32_t)(uintptr_t)p] and [(T * )(uintptr_t)token]. *)
Definition token_of_ptr (p : Z) : Z := Int32.wrap p.
Definition ptr_of_token (t : Z) : Z := Int32.uwrap t.

Section Heap.
Context {D : Type}.

Definition fresh_block (junk : nat -> Byte.byte) (n : Z) : bytes :=
  map junk (seq 0 (Z.to_nat n)).

(** [malloc(n)], [n] already converted to [size_t]. *)
Definition malloc (n : Z) : M (heap D) Z := fun h =>
  match allocs h with
  | [] => Ok (NULL, h)
  | AllocFail :: rest =>
      Ok (NULL, {| live := live h; brk := brk h; allocs := rest |})
  | AllocOk junk :: rest =>
      if brk h + Z.max n 1 <=? Int32.modulus then
        Ok (brk h,
            {| live := <[brk h := Bytes (fresh_block junk n)]> (live h);
               brk := brk h + Z.max n 1;
               allocs := rest |})
      else Ok (NULL, {| live := live h; brk := brk h; allocs := rest |})
  end.

(** [free(p)]: a no-op on NULL, undefined on a pointer that is not live. *)
Definition free (p : Z) : M (heap D) unit := fun h =>
  if p =? NULL then Ok (tt, h)
  else match live h !! p with
       | Some _ =>
           Ok (tt, {| live := delete p (live h); brk := brk h;
                      allocs := allocs h |})
       | None => Undefined
       end.

Definition load (p : Z) : M (heap D) (object D) := fun h =>
  match live h !! p with
  | Some o => Ok (o, h)
  | None => Undefined
  end.

Definition store (p : Z) (o : object D) : M (heap D) unit := fun h =>
  match live h !! p with
  | Some _ =>
      Ok (tt, {| live := <[p := o]> (live h); brk := brk h;
                 allocs := allocs h |})
  | None => Undefined
  end.

Definition load_frame (p : Z) : M (heap D) DecodedFrame :=
  o ← load p;
  match o with
  | Frame f => mret f
  | _ => undefined
  end.

Definition load_session (p : Z) : M (heap D) D :=
  o ← load p;
  match o with
  | Session d => mret d
  | _ => undefined
  end.

(** [n] bytes of a library-owned plane starting at byte offset [off];
    [None] is a read outside the plane. *)
Definition read_bytes (src : bytes) (off n : Z) : option bytes :=
  if (0 <=? off) && (0 <=? n) && (off + n <=? Z.of_nat (length src))
  then Some (take (Z.to_nat n) (drop (Z.to_nat off) src))
  else None.

Definition write_bytes (dst : bytes) (off : Z) (bs : bytes) : option bytes :=
  if (0 <=? off) && (off + Z.of_nat (length bs) <=? Z.of_nat (length dst))
  then Some (take (Z.to_nat off) dst ++ bs
             ++ drop (Z.to_nat off + length bs) dst)
  else None.

(** [memcpy(dst + doff, src + soff, n)] from a library plane ([None] is a
    NULL plane pointer) into the heap block [dst].  A copy of no byte
    touches neither pointer and does nothing. *)
Definition memcpy (dst doff : Z) (src : option bytes) (soff n : Z)
  : M (heap D) unit :=
  if n =? 0 then mret tt else
  o ← load dst;
  match o, src with
  | Bytes d, Some s =>
      match read_bytes s soff n with
      | Some bs =>
          match write_bytes d doff bs with
          | Some d' => store dst (Bytes d')
          | None => undefined
          end
      | None => undefined
      end
  | _, _ => undefined
  end.

(** [for (row = 0; row < n; row++) body] *)
Fixpoint for_rows (n : nat) (row : Z) (body : Z -> M (heap D) unit)
  : M (heap D) unit :=
  match n with
  | O => mret tt
  | S n' => body row;; for_rows n' (row + 1) body
  end.

(** Every live block lies strictly between NULL and the break. *)
Definition heap_wf (h : heap D) : Prop :=
  0 < brk h /\ forall p, is_Some (live h !! p) -> 0 < p < brk h.

End Heap.

(** The wrapper's view of the world: its own heap and the state of the
    wrapped library, which is a black box reached only through calls. *)
Record world (D L : Type) : Type := {
  mem : heap D;
  lib : L
}.
Arguments mem {D L} w.
Arguments lib {D L} w.

Section World.
Context {D L : Type}.

Definition in_heap {A} (m : M (heap D) A) : M (world D L) A := fun w =>
  match m (mem w) with
  | Ok (a, h) => Ok (a, {| mem := h; lib := lib w |})
  | Undefined => Undefined
  | OutOfFuel => OutOfFuel
  end.

(** A call into the library. *)
Definition call {A} (f : L -> A * L) : M (world D L) A := fun w =>
  let '(a, l) := f (lib w) in Ok (a, {| mem := mem w; lib := l |}).

(** [memcpy(buf, data, size)] from the host's chunk into a library buffer:
    the bytes handed to the library. *)
Definition read_chunk (data : option bytes) (size : Z) : M (world D L) bytes :=
  match data with
  | Some bs =>
      match read_bytes bs 0 size with
      | Some c => mret c
      | None => undefined
      end
  | None => undefined
  end.

End World.

Definition is_null {A} (p : option A) : bool :=
  match p with
  | None => true
  | Some _ => false
  end.

(** ** AV1: [decoders/av1/wrapper.c] over dav1d *)

Module Av1.

(** [enum Dav1dPixelLayout] of dav1d's headers. *)
Inductive Dav1dPixelLayout : Type :=
  | DAV1D_PIXEL_LAYOUT_I400
  | DAV1D_PIXEL_LAYOUT_I420
  | DAV1D_PIXEL_LAYOUT_I422
  | DAV1D_PIXEL_LAYOUT_I444.

(** The fields of [Dav1dPicture] the wrapper reads: [p.w], [p.h],
    [p.layout], [p.bpc], [data[0..2]] and [stride[0..1]].  A plane is the
    byte contents found at its pointer, [None] for a NULL pointer. *)
Record Dav1dPicture : Type := {
  p_w : Z;
  p_h : Z;
  p_layout : Dav1dPixelLayout;
  p_bpc : Z;
  data0 : option bytes;
  data1 : option bytes;
  data2 : option bytes;
  stride0 : Z;
  stride1 : Z
}.

(** [Dav1dSettings]: the two fields the wrapper assigns, and the others,
    which keep the values [dav1d_default_settings] gave them. *)
Record Dav1dSettings : Type := {
  n_threads : Z;
  max_frame_delay : Z;
  other_settings : list Z
}.

Record Av1Decoder : Type := {
  ctx : Z;
  settings : Dav1dSettings
}.

Definition layout_to_format (layout : Dav1dPixelLayout) : Z :=
  match layout with
  | DAV1D_PIXEL_LAYOUT_I444 => 444
  | DAV1D_PIXEL_LAYOUT_I422 => 422
  | _ => 420
  end.

(** Lines 54-60 of [extract_picture]. *)
Definition chroma_dims (layout : Dav1dPixelLayout) (width height : Z) : Z * Z :=
  match layout with
  | DAV1D_PIXEL_LAYOUT_I420 =>
      (Int32.div (Int32.add width 1) 2, Int32.div (Int32.add height 1) 2)
  | DAV1D_PIXEL_LAYOUT_I422 =>
      (Int32.div (Int32.add width 1) 2, height)
  | _ => (width, height)
  end.

Definition extract_picture (pic : option Dav1dPicture) : M (heap Av1Decoder) Z :=
  match pic with
  | None => mret NULL
  | Some pic =>
    if is_null (data0 pic) then mret NULL else
    let width := p_w pic in
    let height := p_h pic in
    let bpc := p_bpc pic in
    let layout := p_layout pic in
    let '(chromaW, chromaH) := chroma_dims layout width height in
    let bytesPerSample := if 8 <? bpc then 2 else 1 in
    let ySize := Int32.mul (Int32.mul width height) bytesPerSample in
    let uvSize := Int32.mul (Int32.mul chromaW chromaH) bytesPerSample in
    yOut ← malloc (Int32.uwrap ySize);
    uOut ← malloc (Int32.uwrap uvSize);
    vOut ← malloc (Int32.uwrap uvSize);
    frame ← malloc sizeof_DecodedFrame;
    if (yOut =? NULL) || (uOut =? NULL) || (vOut =? NULL) || (frame =? NULL)
    then
      free yOut;; free uOut;; free vOut;; free frame;;
      mret NULL
    else
      let yStride := stride0 pic in
      let yRowBytes := Int32.mul width bytesPerSample in
      let ySrc := data0 pic in
      for_rows (Z.to_nat height) 0 (fun row =>
        memcpy yOut (Int32.mul row yRowBytes)
               ySrc (Int32.mul row yStride) (Int32.uwrap yRowBytes));;
      let uvStride := stride1 pic in
      let uvRowBytes := Int32.mul chromaW bytesPerSample in
      let uSrc := data1 pic in
      let vSrc := data2 pic in
      for_rows (Z.to_nat chromaH) 0 (fun row =>
        memcpy uOut (Int32.mul row uvRowBytes)
               uSrc (Int32.mul row uvStride) (Int32.uwrap uvRowBytes);;
        memcpy vOut (Int32.mul row uvRowBytes)
               vSrc (Int32.mul row uvStride) (Int32.uwrap uvRowBytes));;
      store frame (Frame {|
        width := width;
        height := height;
        chromaFormat := layout_to_format layout;
        bitDepth := bpc;
        yPtr := token_of_ptr yOut;
        uPtr := token_of_ptr uOut;
        vPtr := token_of_ptr vOut;
        ySize := ySize;
        uvSize := uvSize |});;
      mret frame
  end.

(** [memset(&pic, 0, sizeof(pic))] *)
Definition zero_picture : Dav1dPicture := {|
  p_w := 0; p_h := 0; p_layout := DAV1D_PIXEL_LAYOUT_I400; p_bpc := 0;
  data0 := None; data1 := None; data2 := None;
  stride0 := 0; stride1 := 0 |}.

(** The calls into dav1d the wrapper makes, over the library's state [L].
    A context pointer is a [Z]; [dav1d_open] returns its result code and
    the pointer it wrote, [dav1d_send_data] its result code and what is
    left of the [Dav1dData], [dav1d_get_picture] its result code and the
    picture it filled in.  [EAGAIN] is the target's errno value and
    [sizeof_Av1Decoder] the size of the session struct. *)
Class Dav1d (L : Type) : Type := {
  sizeof_Av1Decoder : Z;
  EAGAIN : Z;
  dav1d_default_settings : L -> Dav1dSettings * L;
  dav1d_open : Dav1dSettings -> L -> (Z * Z) * L;
  dav1d_data_create : Z -> L -> bool * L;
  dav1d_send_data : Z -> bytes -> L -> (Z * bytes) * L;
  dav1d_get_picture : Z -> Dav1dPicture -> L -> (Z * Dav1dPicture) * L;
  dav1d_picture_unref : Dav1dPicture -> L -> unit * L;
  dav1d_flush : Z -> L -> unit * L;
  dav1d_close : Z -> L -> unit * L
}.

Section Wrapper.
Context {L : Type} `{Dav1d L}.

Definition DAV1D_ERR (e : Z) : Z := - e.

Definition av1_create_decoder : M (world Av1Decoder L) Z :=
  dec ← in_heap (malloc sizeof_Av1Decoder);
  if dec =? NULL then mret 0 else
  s ← call dav1d_default_settings;
  let s := {| n_threads := 1; max_frame_delay := 1;
              other_settings := other_settings s |} in
  '(r, c) ← call (dav1d_open s);
  if r <? 0 then in_heap (free dec);; mret 0
  else
    in_heap (store dec (Session {| ctx := c; settings := s |}));;
    mret (token_of_ptr dec).

Definition av1_configure (handle : Z) (config : option bytes) (size : Z)
  : M (world Av1Decoder L) unit :=
  mret tt.

(** [do { ret = dav1d_send_data(...); } while (ret == DAV1D_ERR(EAGAIN));] *)
Fixpoint send_loop (fuel : nat) (c : Z) (d : bytes)
  : M (world Av1Decoder L) Z :=
  match fuel with
  | O => out_of_fuel
  | S fuel' =>
      '(r, d') ← call (dav1d_send_data c d);
      if r =? DAV1D_ERR EAGAIN then send_loop fuel' c d' else mret r
  end.

Definition av1_decode (fuel : nat) (handle : Z) (data : option bytes)
    (size : Z) (is_keyframe : Z) : M (world Av1Decoder L) Z :=
  let dec := ptr_of_token handle in
  if dec =? NULL then mret 0 else
  d ← in_heap (load_session dec);
  if (ctx d =? NULL) || is_null data || (size <=? 0) then mret 0 else
  buf ← call (dav1d_data_create size);
  if negb buf then mret 0 else
  chunk ← read_chunk data size;
  send_loop fuel (ctx d) chunk;;
  '(r, pic) ← call (dav1d_get_picture (ctx d) zero_picture);
  if r <? 0 then mret 0 else
  frame ← in_heap (extract_picture (Some pic));
  call (dav1d_picture_unref pic);;
  mret (token_of_ptr frame).

Definition av1_flush (handle : Z) : M (world Av1Decoder L) Z :=
  let dec := ptr_of_token handle in
  if dec =? NULL then mret 0 else
  d ← in_heap (load_session dec);
  if ctx d =? NULL then mret 0 else
  call (dav1d_flush (ctx d));;
  '(r, pic) ← call (dav1d_get_picture (ctx d) zero_picture);
  if r <? 0 then mret 0 else
  frame ← in_heap (extract_picture (Some pic));
  call (dav1d_picture_unref pic);;
  mret (token_of_ptr frame).

Definition av1_destroy (handle : Z) : M (world Av1Decoder L) unit :=
  let dec := ptr_of_token handle in
  if dec =? NULL then mret tt else
  d ← in_heap (load_session dec);
  (if negb (ctx d =? NULL) then
     call (dav1d_close (ctx d));;
     in_heap (store dec (Session {| ctx := NULL; settings := settings d |}))
   else mret tt);;
  in_heap (free dec).

Definition free_frame (ptr : Z) : M (world Av1Decoder L) unit :=
  let frame := ptr_of_token ptr in
  if frame =? NULL then mret tt else
  f ← in_heap (load_frame frame);
  in_heap (free (ptr_of_token (yPtr f)));;
  in_heap (free (ptr_of_token (uPtr f)));;
  in_heap (free (ptr_of_token (vPtr f)));;
  in_heap (free frame).

End Wrapper.

End Av1.

(** ** HEVC: [decoders/hevc/wrapper.c] over libde265 *)

Module Hevc.

(** [enum de265_chroma] of libde265's header. *)
Inductive de265_chroma : Type :=
  | de265_chroma_mono
  | de265_chroma_420
  | de265_chroma_422
  | de265_chroma_444.

(** A [struct de265_image] as its accessors show it: per channel the
    width, height, bits per pixel and the plane with its stride. *)
Record de265_image : Type := {
  image_width : Z -> Z;
  image_height : Z -> Z;
  bits_per_pixel : Z -> Z;
  chroma_format : de265_chroma;
  image_plane : Z -> option bytes * Z
}.

Definition de265_get_image_width (img : de265_image) (channel : Z) : Z :=
  image_width img channel.
Definition de265_get_image_height (img : de265_image) (channel : Z) : Z :=
  image_height img channel.
Definition de265_get_bits_per_pixel (img : de265_image) (channel : Z) : Z :=
  bits_per_pixel img channel.
Definition de265_get_chroma_format (img : de265_image) : de265_chroma :=
  chroma_format img.
Definition de265_get_image_plane (img : de265_image) (channel : Z)
  : option bytes * Z :=
  image_plane img channel.

Record HevcDecoder : Type := {
  ctx : Z
}.

Definition sizeof_HevcDecoder : Z := 4.

Definition chroma_to_format (c : de265_chroma) : Z :=
  match c with
  | de265_chroma_444 => 444
  | de265_chroma_422 => 422
  | _ => 420
  end.

(** Lines 61-67 of [extract_picture]. *)
Definition chroma_dims (chroma : de265_chroma) (width height : Z) : Z * Z :=
  match chroma with
  | de265_chroma_420 =>
      (Int32.div (Int32.add width 1) 2, Int32.div (Int32.add height 1) 2)
  | de265_chroma_422 =>
      (Int32.div (Int32.add width 1) 2, height)
  | _ => (width, height)
  end.

Definition extract_picture (img : option de265_image) : M (heap HevcDecoder) Z :=
  match img with
  | None => mret NULL
  | Some img =>
    let width := de265_get_image_width img 0 in
    let height := de265_get_image_height img 0 in
    let bpp := de265_get_bits_per_pixel img 0 in
    let chroma := de265_get_chroma_format img in
    let '(yPlane, yStride) := de265_get_image_plane img 0 in
    let '(uPlane, uStride) := de265_get_image_plane img 1 in
    let '(vPlane, vStride) := de265_get_image_plane img 2 in
    if is_null yPlane || is_null uPlane || is_null vPlane then mret NULL else
    let '(chromaW, chromaH) := chroma_dims chroma width height in
    let bytesPerSample := if 8 <? bpp then 2 else 1 in
    let ySize := Int32.mul (Int32.mul width height) bytesPerSample in
    let uvSize := Int32.mul (Int32.mul chromaW chromaH) bytesPerSample in
    yOut ← malloc (Int32.uwrap ySize);
    uOut ← malloc (Int32.uwrap uvSize);
    vOut ← malloc (Int32.uwrap uvSize);
    frame ← malloc sizeof_DecodedFrame;
    if (yOut =? NULL) || (uOut =? NULL) || (vOut =? NULL) || (frame =? NULL)
    then
      free yOut;; free uOut;; free vOut;; free frame;;
      mret NULL
    else
      let yRowBytes := Int32.mul width bytesPerSample in
      for_rows (Z.to_nat height) 0 (fun row =>
        memcpy yOut (Int32.mul row yRowBytes)
               yPlane (Int32.mul row yStride) (Int32.uwrap yRowBytes));;
      let uvRowBytes := Int32.mul chromaW bytesPerSample in
      for_rows (Z.to_nat chromaH) 0 (fun row =>
        memcpy uOut (Int32.mul row uvRowBytes)
               uPlane (Int32.mul row uStride) (Int32.uwrap uvRowBytes);;
        memcpy vOut (Int32.mul row uvRowBytes)
               vPlane (Int32.mul row vStride) (Int32.uwrap uvRowBytes));;
      store frame (Frame {|
        width := width;
        height := height;
        chromaFormat := chroma_to_format chroma;
        bitDepth := bpp;
        yPtr := token_of_ptr yOut;
        uPtr := token_of_ptr uOut;
        vPtr := token_of_ptr vOut;
        ySize := ySize;
        uvSize := uvSize |});;
      mret frame
  end.

(** The calls into libde265 the wrapper makes, over the library's state
    [L].  Result codes the wrapper discards are not modelled. *)
Class De265 (L : Type) : Type := {
  de265_new_decoder : L -> Z * L;
  de265_start_worker_threads : Z -> Z -> L -> unit * L;
  de265_push_NAL : Z -> bytes -> L -> unit * L;
  de265_decode : Z -> L -> unit * L;
  de265_get_next_picture : Z -> L -> option de265_image * L;
  de265_release_next_picture : Z -> L -> unit * L;
  de265_flush_data : Z -> L -> unit * L;
  de265_free_decoder : Z -> L -> unit * L
}.

Section Wrapper.
Context {L : Type} `{De265 L}.

Definition hevc_create_decoder : M (world HevcDecoder L) Z :=
  dec ← in_heap (malloc sizeof_HevcDecoder);
  if dec =? NULL then mret 0 else
  c ← call de265_new_decoder;
  if c =? NULL then in_heap (free dec);; mret 0 else
  in_heap (store dec (Session {| ctx := c |}));;
  call (de265_start_worker_threads c 0);;
  mret (token_of_ptr dec).

Definition hevc_configure (handle : Z) (config : option bytes) (size : Z)
  : M (world HevcDecoder L) unit :=
  let dec := ptr_of_token handle in
  if dec =? NULL then mret tt else
  d ← in_heap (load_session dec);
  if (ctx d =? NULL) || is_null config || (size <=? 0) then mret tt else
  nal ← read_chunk config size;
  call (de265_push_NAL (ctx d) nal);;
  call (de265_decode (ctx d)).

Definition hevc_decode (handle : Z) (data : option bytes) (size : Z)
    (is_keyframe : Z) : M (world HevcDecoder L) Z :=
  let dec := ptr_of_token handle in
  if dec =? NULL then mret 0 else
  d ← in_heap (load_session dec);
  if (ctx d =? NULL) || is_null data || (size <=? 0) then mret 0 else
  nal ← read_chunk data size;
  call (de265_push_NAL (ctx d) nal);;
  call (de265_decode (ctx d));;
  img ← call (de265_get_next_picture (ctx d));
  if is_null img then mret 0 else
  frame ← in_heap (extract_picture img);
  call (de265_release_next_picture (ctx d));;
  mret (token_of_ptr frame).

Definition hevc_flush (handle : Z) : M (world HevcDecoder L) Z :=
  let dec := ptr_of_token handle in
  if dec =? NULL then mret 0 else
  d ← in_heap (load_session dec);
  if ctx d =? NULL then mret 0 else
  call (de265_flush_data (ctx d));;
  call (de265_decode (ctx d));;
  img ← call (de265_get_next_picture (ctx d));
  if is_null img then mret 0 else
  frame ← in_heap (extract_picture img);
  call (de265_release_next_picture (ctx d));;
  mret (token_of_ptr frame).

Definition hevc_destroy (handle : Z) : M (world HevcDecoder L) unit :=
  let dec := ptr_of_token handle in
  if dec =? NULL then mret tt else
  d ← in_heap (load_session dec);
  (if negb (ctx d =? NULL) then call (de265_free_decoder (ctx d))
   else mret tt);;
  in_heap (free dec).

Definition free_frame (ptr : Z) : M (world HevcDecoder L) unit :=
  let frame := ptr_of_token ptr in
  if frame =? NULL then mret tt else
  f ← in_heap (load_frame frame);
  in_heap (free (ptr_of_token (yPtr f)));;
  in_heap (free (ptr_of_token (uPtr f)));;
  in_heap (free (ptr_of_token (vPtr f)));;
  in_heap (free frame).

End Wrapper.

End Hevc.

(** ** VP9: [decoders/vp9/wrapper.c] over libvpx *)

Module Vp9.

(** [vpx_img_fmt_t] of [vpx/vpx_image.h]: a format number with flag
    bits. *)
Definition VPX_IMG_FMT_PLANAR : Z := 0x100.
Definition VPX_IMG_FMT_UV_FLIP : Z := 0x200.
Definition VPX_IMG_FMT_HAS_ALPHA : Z := 0x400.
Definition VPX_IMG_FMT_HIGHBITDEPTH : Z := 0x800.

Definition VPX_IMG_FMT_NONE : Z := 0.
Definition VPX_IMG_FMT_YV12 : Z :=
  Z.lor (Z.lor VPX_IMG_FMT_PLANAR VPX_IMG_FMT_UV_FLIP) 1.
Definition VPX_IMG_FMT_I420 : Z := Z.lor VPX_IMG_FMT_PLANAR 2.
Definition VPX_IMG_FMT_I422 : Z := Z.lor VPX_IMG_FMT_PLANAR 5.
Definition VPX_IMG_FMT_I444 : Z := Z.lor VPX_IMG_FMT_PLANAR 6.
Definition VPX_IMG_FMT_I440 : Z := Z.lor VPX_IMG_FMT_PLANAR 7.
Definition VPX_IMG_FMT_NV12 : Z := Z.lor VPX_IMG_FMT_PLANAR 9.
Definition VPX_IMG_FMT_I42016 : Z :=
  Z.lor VPX_IMG_FMT_I420 VPX_IMG_FMT_HIGHBITDEPTH.
Definition VPX_IMG_FMT_I42216 : Z :=
  Z.lor VPX_IMG_FMT_I422 VPX_IMG_FMT_HIGHBITDEPTH.
Definition VPX_IMG_FMT_I44416 : Z :=
  Z.lor VPX_IMG_FMT_I444 VPX_IMG_FMT_HIGHBITDEPTH.
Definition VPX_IMG_FMT_I44016 : Z :=
  Z.lor VPX_IMG_FMT_I440 VPX_IMG_FMT_HIGHBITDEPTH.

Definition VPX_PLANE_Y : Z := 0.
Definition VPX_PLANE_U : Z := 1.
Definition VPX_PLANE_V : Z := 2.

Definition VPX_CODEC_OK : Z := 0.

(** The fields of [vpx_image_t] the wrapper reads, and [bit_depth], which
    it does not. *)
Record vpx_image_t : Type := {
  fmt : Z;
  bit_depth : Z;
  d_w : Z;
  d_h : Z;
  planes : Z -> option bytes;
  stride : Z -> Z
}.

(** [vpx_codec_ctx_t codec] is owned by libvpx: its contents belong to the
    library state and the wrapper only passes its address, which is the
    address of the session struct. *)
Record Vp9Decoder : Type := {
  initialized : Z
}.

Definition vpx_fmt_to_chroma (fmt : Z) : Z :=
  if (fmt =? VPX_IMG_FMT_I444) || (fmt =? VPX_IMG_FMT_I44416) then 444
  else if (fmt =? VPX_IMG_FMT_I422) || (fmt =? VPX_IMG_FMT_I42216) then 422
  else 420.

Definition vpx_fmt_bpc (fmt : Z) : Z :=
  if negb (Z.land fmt VPX_IMG_FMT_HIGHBITDEPTH =? 0) then 10 else 8.

(** Lines 64-70 of [extract_image]. *)
Definition chroma_dims (chromaFmt : Z) (width height : Z) : Z * Z :=
  if chromaFmt =? 420 then
    (Int32.div (Int32.add width 1) 2, Int32.div (Int32.add height 1) 2)
  else if chromaFmt =? 422 then
    (Int32.div (Int32.add width 1) 2, height)
  else (width, height).

Definition extract_image (img : option vpx_image_t) : M (heap Vp9Decoder) Z :=
  match img with
  | None => mret NULL
  | Some img =>
    let width := Int32.wrap (d_w img) in
    let height := Int32.wrap (d_h img) in
    let bpc := vpx_fmt_bpc (fmt img) in
    let chromaFmt := vpx_fmt_to_chroma (fmt img) in
    let '(chromaW, chromaH) := chroma_dims chromaFmt width height in
    let bytesPerSample := if 8 <? bpc then 2 else 1 in
    let ySize := Int32.mul (Int32.mul width height) bytesPerSample in
    let uvSize := Int32.mul (Int32.mul chromaW chromaH) bytesPerSample in
    yOut ← malloc (Int32.uwrap ySize);
    uOut ← malloc (Int32.uwrap uvSize);
    vOut ← malloc (Int32.uwrap uvSize);
    frame ← malloc sizeof_DecodedFrame;
    if (yOut =? NULL) || (uOut =? NULL) || (vOut =? NULL) || (frame =? NULL)
    then
      free yOut;; free uOut;; free vOut;; free frame;;
      mret NULL
    else
      let yRowBytes := Int32.mul width bytesPerSample in
      for_rows (Z.to_nat (Int32.uwrap height)) 0 (fun row =>
        memcpy yOut (Int32.umul row yRowBytes)
               (planes img VPX_PLANE_Y)
               (Int32.umul row (stride img VPX_PLANE_Y))
               (Int32.uwrap yRowBytes));;
      let uvRowBytes := Int32.mul chromaW bytesPerSample in
      for_rows (Z.to_nat (Int32.uwrap chromaH)) 0 (fun row =>
        memcpy uOut (Int32.umul row uvRowBytes)
               (planes img VPX_PLANE_U)
               (Int32.umul row (stride img VPX_PLANE_U))
               (Int32.uwrap uvRowBytes);;
        memcpy vOut (Int32.umul row uvRowBytes)
               (planes img VPX_PLANE_V)
               (Int32.umul row (stride img VPX_PLANE_V))
               (Int32.uwrap uvRowBytes));;
      store frame (Frame {|
        width := width;
        height := height;
        chromaFormat := chromaFmt;
        bitDepth := bpc;
        yPtr := token_of_ptr yOut;
        uPtr := token_of_ptr uOut;
        vPtr := token_of_ptr vOut;
        ySize := ySize;
        uvSize := uvSize |});;
      mret frame
  end.

(** The calls into libvpx the wrapper makes, over the library's state [L];
    the first argument is the address of the codec context.
    [vpx_codec_dec_init] takes the thread count of its configuration. *)
Class Vpx (L : Type) : Type := {
  sizeof_Vp9Decoder : Z;
  vpx_codec_dec_init : Z -> Z -> L -> Z * L;
  vpx_codec_decode : Z -> option bytes -> Z -> L -> Z * L;
  vpx_codec_get_frame : Z -> L -> option vpx_image_t * L;
  vpx_codec_destroy : Z -> L -> unit * L
}.

Section Wrapper.
Context {L : Type} `{Vpx L}.

Definition vp9_create_decoder : M (world Vp9Decoder L) Z :=
  dec ← in_heap (malloc sizeof_Vp9Decoder);
  if dec =? NULL then mret 0 else
  in_heap (store dec (Session {| initialized := 0 |}));;
  let threads := 1 in
  r ← call (vpx_codec_dec_init dec threads);
  if negb (r =? VPX_CODEC_OK) then in_heap (free dec);; mret 0 else
  in_heap (store dec (Session {| initialized := 1 |}));;
  mret (token_of_ptr dec).

Definition vp9_configure (handle : Z) (config : option bytes) (size : Z)
  : M (world Vp9Decoder L) unit :=
  mret tt.

Definition vp9_decode (handle : Z) (data : option bytes) (size : Z)
    (is_keyframe : Z) : M (world Vp9Decoder L) Z :=
  let dec := ptr_of_token handle in
  if dec =? NULL then mret 0 else
  d ← in_heap (load_session dec);
  if (initialized d =? 0) || is_null data || (size <=? 0) then mret 0 else
  chunk ← read_chunk data (Int32.uwrap size);
  r ← call (vpx_codec_decode dec (Some chunk) (Int32.uwrap size));
  if negb (r =? VPX_CODEC_OK) then mret 0 else
  img ← call (vpx_codec_get_frame dec);
  if is_null img then mret 0 else
  frame ← in_heap (extract_image img);
  mret (token_of_ptr frame).

Definition vp9_flush (handle : Z) : M (world Vp9Decoder L) Z :=
  let dec := ptr_of_token handle in
  if dec =? NULL then mret 0 else
  d ← in_heap (load_session dec);
  if initialized d =? 0 then mret 0 else
  call (vpx_codec_decode dec None 0);;
  img ← call (vpx_codec_get_frame dec);
  if is_null img then mret 0 else
  frame ← in_heap (extract_image img);
  mret (token_of_ptr frame).

Definition vp9_destroy (handle : Z) : M (world Vp9Decoder L) unit :=
  let dec := ptr_of_token handle in
  if dec =? NULL then mret tt else
  d ← in_heap (load_session dec);
  (if negb (initialized d =? 0) then call (vpx_codec_destroy dec)
   else mret tt);;
  in_heap (free dec).

Definition free_frame (ptr : Z) : M (world Vp9Decoder L) unit :=
  let frame := ptr_of_token ptr in
  if frame =? NULL then mret tt else
  f ← in_heap (load_frame frame);
  in_heap (free (ptr_of_token (yPtr f)));;
  in_heap (free (ptr_of_token (uPtr f)));;
  in_heap (free (ptr_of_token (vPtr f)));;
  in_heap (free frame).

End Wrapper.

End Vp9.

(** ** The copy-out the three extractors share

    After each extractor has read its picture, the three bodies coincide up
    to the arithmetic of the row offsets ([int] in AV1 and HEVC, [unsigned]
    in VP9) and the strides used for U and V.  [extract_planes] is that
    common body over the values read; [Av1.extract_picture],
    [Hevc.extract_picture] and [Vp9.extract_image] are shown equal to it
    below, and the heap reasoning is done once. *)

Record geometry : Type := {
  g_width : Z;
  g_height : Z;
  g_chromaW : Z;
  g_chromaH : Z;
  g_bytesPerSample : Z;
  g_chromaFormat : Z;
  g_bitDepth : Z;
  g_ySrc : option bytes;
  g_uSrc : option bytes;
  g_vSrc : option bytes;
  g_yStride : Z;
  g_uStride : Z;
  g_vStride : Z;
  g_offset : Z -> Z -> Z;
  g_count : Z -> nat
}.

Definition g_ySize (g : geometry) : Z :=
  Int32.mul (Int32.mul (g_width g) (g_height g)) (g_bytesPerSample g).
Definition g_uvSize (g : geometry) : Z :=
  Int32.mul (Int32.mul (g_chromaW g) (g_chromaH g)) (g_bytesPerSample g).
Definition g_yRowBytes (g : geometry) : Z :=
  Int32.mul (g_width g) (g_bytesPerSample g).
Definition g_uvRowBytes (g : geometry) : Z :=
  Int32.mul (g_chromaW g) (g_bytesPerSample g).

Definition extract_planes {D} (g : geometry) : M (heap D) Z :=
  yOut ← malloc (Int32.uwrap (g_ySize g));
  uOut ← malloc (Int32.uwrap (g_uvSize g));
  vOut ← malloc (Int32.uwrap (g_uvSize g));
  frame ← malloc sizeof_DecodedFrame;
  if (yOut =? NULL) || (uOut =? NULL) || (vOut =? NULL) || (frame =? NULL)
  then
    free yOut;; free uOut;; free vOut;; free frame;;
    mret NULL
  else
    for_rows (g_count g (g_height g)) 0 (fun row =>
      memcpy yOut (g_offset g row (g_yRowBytes g))
             (g_ySrc g) (g_offset g row (g_yStride g))
             (Int32.uwrap (g_yRowBytes g)));;
    for_rows (g_count g (g_chromaH g)) 0 (fun row =>
      memcpy uOut (g_offset g row (g_uvRowBytes g))
             (g_uSrc g) (g_offset g row (g_uStride g))
             (Int32.uwrap (g_uvRowBytes g));;
      memcpy vOut (g_offset g row (g_uvRowBytes g))
             (g_vSrc g) (g_offset g row (g_vStride g))
             (Int32.uwrap (g_uvRowBytes g)));;
    store frame (Frame {|
      width := g_width g;
      height := g_height g;
      chromaFormat := g_chromaFormat g;
      bitDepth := g_bitDepth g;
      yPtr := token_of_ptr yOut;
      uPtr := token_of_ptr uOut;
      vPtr := token_of_ptr vOut;
      ySize := g_ySize g;
      uvSize := g_uvSize g |});;
    mret frame.

Definition av1_geometry (pic : Av1.Dav1dPicture) : geometry := {|
  g_width := Av1.p_w pic;
  g_height := Av1.p_h pic;
  g_chromaW := fst (Av1.chroma_dims (Av1.p_layout pic) (Av1.p_w pic) (Av1.p_h pic));
  g_chromaH := snd (Av1.chroma_dims (Av1.p_layout pic) (Av1.p_w pic) (Av1.p_h pic));
  g_bytesPerSample := if 8 <? Av1.p_bpc pic then 2 else 1;
  g_chromaFormat := Av1.layout_to_format (Av1.p_layout pic);
  g_bitDepth := Av1.p_bpc pic;
  g_ySrc := Av1.data0 pic;
  g_uSrc := Av1.data1 pic;
  g_vSrc := Av1.data2 pic;
  g_yStride := Av1.stride0 pic;
  g_uStride := Av1.stride1 pic;
  g_vStride := Av1.stride1 pic;
  g_offset := Int32.mul;
  g_count := Z.to_nat |}.

Definition hevc_geometry (img : Hevc.de265_image) : geometry :=
  let width := Hevc.de265_get_image_width img 0 in
  let height := Hevc.de265_get_image_height img 0 in
  let chroma := Hevc.de265_get_chroma_format img in {|
  g_width := width;
  g_height := height;
  g_chromaW := fst (Hevc.chroma_dims chroma width height);
  g_chromaH := snd (Hevc.chroma_dims chroma width height);
  g_bytesPerSample := if 8 <? Hevc.de265_get_bits_per_pixel img 0 then 2 else 1;
  g_chromaFormat := Hevc.chroma_to_format chroma;
  g_bitDepth := Hevc.de265_get_bits_per_pixel img 0;
  g_ySrc := fst (Hevc.de265_get_image_plane img 0);
  g_uSrc := fst (Hevc.de265_get_image_plane img 1);
  g_vSrc := fst (Hevc.de265_get_image_plane img 2);
  g_yStride := snd (Hevc.de265_get_image_plane img 0);
  g_uStride := snd (Hevc.de265_get_image_plane img 1);
  g_vStride := snd (Hevc.de265_get_image_plane img 2);
  g_offset := Int32.mul;
  g_count := Z.to_nat |}.

Definition vp9_geometry (img : Vp9.vpx_image_t) : geometry :=
  let width := Int32.wrap (Vp9.d_w img) in
  let height := Int32.wrap (Vp9.d_h img) in
  let chromaFmt := Vp9.vpx_fmt_to_chroma (Vp9.fmt img) in {|
  g_width := width;
  g_height := height;
  g_chromaW := fst (Vp9.chroma_dims chromaFmt width height);
  g_chromaH := snd (Vp9.chroma_dims chromaFmt width height);
  g_bytesPerSample := if 8 <? Vp9.vpx_fmt_bpc (Vp9.fmt img) then 2 else 1;
  g_chromaFormat := chromaFmt;
  g_bitDepth := Vp9.vpx_fmt_bpc (Vp9.fmt img);
  g_ySrc := Vp9.planes img Vp9.VPX_PLANE_Y;
  g_uSrc := Vp9.planes img Vp9.VPX_PLANE_U;
  g_vSrc := Vp9.planes img Vp9.VPX_PLANE_V;
  g_yStride := Vp9.stride img Vp9.VPX_PLANE_Y;
  g_uStride := Vp9.stride img Vp9.VPX_PLANE_U;
  g_vStride := Vp9.stride img Vp9.VPX_PLANE_V;
  g_offset := Int32.umul;
  g_count := fun n => Z.to_nat (Int32.uwrap n) |}.

(** ** Reference definitions of the data model

    The chroma formula and the tightly packed plane, written from the
    description of the Frame Record rather than from the code. *)

Inductive subsampling : Type := S420 | S422 | S444.

Definition subsampling_code (s : subsampling) : Z :=
  match s with
  | S420 => 420
  | S422 => 422
  | S444 => 444
  end.

(** [ceil(n/2)], with [/] the flooring division of [Z]. *)
Definition ceil_half (n : Z) : Z := - ((- n) / 2).

Definition spec_chroma_dims (w h : Z) (s : subsampling) : Z * Z :=
  match s with
  | S420 => (ceil_half w, ceil_half h)
  | S422 => (ceil_half w, h)
  | S444 => (w, h)
  end.

Definition spec_bytes_per_sample (depth : Z) : Z :=
  if 8 <? depth then 2 else 1.

(** Row [r] of a plane of [rowBytes]-byte rows laid out with stride
    [stride]. *)
Definition plane_row (src : bytes) (stride rowBytes : Z) (r : Z) : bytes :=
  take (Z.to_nat rowBytes) (drop (Z.to_nat (r * stride)) src).

(** Rows [from], [from+1], ... ([n] of them) one after the other. *)
Fixpoint packed_rows (src : bytes) (stride rowBytes : Z) (from : Z) (n : nat)
  : bytes :=
  match n with
  | O => []
  | S n' => plane_row src stride rowBytes from
            ++ packed_rows src stride rowBytes (from + 1) n'
  end.

Definition packed_plane (src : bytes) (stride rowBytes rows : Z) : bytes :=
  packed_rows src stride rowBytes 0 (Z.to_nat rows).

(** The library's name for each subsampling. *)
Definition av1_layout (s : subsampling) : Av1.Dav1dPixelLayout :=
  match s with
  | S420 => Av1.DAV1D_PIXEL_LAYOUT_I420
  | S422 => Av1.DAV1D_PIXEL_LAYOUT_I422
  | S444 => Av1.DAV1D_PIXEL_LAYOUT_I444
  end.

Definition hevc_chroma (s : subsampling) : Hevc.de265_chroma :=
  match s with
  | S420 => Hevc.de265_chroma_420
  | S422 => Hevc.de265_chroma_422
  | S444 => Hevc.de265_chroma_444
  end.


(** The heap [h] with its blocks replaced by [m]. *)
Definition with_live {D} (h : heap D) (m : gmap Z (object D)) : heap D :=
  {| live := m; brk := brk h; allocs := allocs h |}.

(** The four allocations of an extraction (Y, U, V, record), in order. *)
Definition alloc4 {D} (g : geometry) : M (heap D) (Z * Z * Z * Z) :=
  yOut ← malloc (Int32.uwrap (g_ySize g));
  uOut ← malloc (Int32.uwrap (g_uvSize g));
  vOut ← malloc (Int32.uwrap (g_uvSize g));
  frame ← malloc sizeof_DecodedFrame;
  mret (yOut, uOut, vOut, frame).

(** What four successive allocations establish: each pointer is NULL or a
    fresh block above the old break, the blocks are laid out in order, and no
    other address changes. *)
Record allocated4 {D} (h : heap D) (sizes : Z * Z * Z * Z)
    (ptrs : Z * Z * Z * Z) (h4 : heap D) : Prop := {
  a4_wf : heap_wf h4;
  a4_allocs : allocs h4 = tail (tail (tail (tail (allocs h))));
  a4_frame : forall q,
    q <> ptrs.1.1.1 -> q <> ptrs.1.1.2 -> q <> ptrs.1.2 -> q <> ptrs.2 ->
    live h4 !! q = live h !! q;
  a4_fresh : forall q,
    q = ptrs.1.1.1 \/ q = ptrs.1.1.2 \/ q = ptrs.1.2 \/ q = ptrs.2 ->
    live h !! q = None;
  a4_range : forall q,
    q = ptrs.1.1.1 \/ q = ptrs.1.1.2 \/ q = ptrs.1.2 \/ q = ptrs.2 ->
    q = NULL \/ 0 < q < Int32.modulus;
  a4_order : forall p q,
    (p = ptrs.1.1.1 /\ (q = ptrs.1.1.2 \/ q = ptrs.1.2 \/ q = ptrs.2)) \/
    (p = ptrs.1.1.2 /\ (q = ptrs.1.2 \/ q = ptrs.2)) \/
    (p = ptrs.1.2 /\ q = ptrs.2) ->
    p <> NULL -> q <> NULL -> p < q;
  a4_y : ptrs.1.1.1 <> NULL -> exists junk,
    live h4 !! ptrs.1.1.1 = Some (Bytes (fresh_block junk sizes.1.1.1));
  a4_u : ptrs.1.1.2 <> NULL -> exists junk,
    live h4 !! ptrs.1.1.2 = Some (Bytes (fresh_block junk sizes.1.1.2));
  a4_v : ptrs.1.2 <> NULL -> exists junk,
    live h4 !! ptrs.1.2 = Some (Bytes (fresh_block junk sizes.1.2));
  a4_f : ptrs.2 <> NULL -> exists junk,
    live h4 !! ptrs.2 = Some (Bytes (fresh_block junk sizes.2))
}.

(** The two branches that follow the allocations. *)
Definition release4 {D} (yOut uOut vOut frame : Z) : M (heap D) Z :=
  free yOut;; free uOut;; free vOut;; free frame;;
  mret NULL.

Definition fill_frame {D} (g : geometry) (yOut uOut vOut frame : Z)
  : M (heap D) Z :=
  for_rows (g_count g (g_height g)) 0 (fun row =>
    memcpy yOut (g_offset g row (g_yRowBytes g))
           (g_ySrc g) (g_offset g row (g_yStride g))
           (Int32.uwrap (g_yRowBytes g)));;
  for_rows (g_count g (g_chromaH g)) 0 (fun row =>
    memcpy uOut (g_offset g row (g_uvRowBytes g))
           (g_uSrc g) (g_offset g row (g_uStride g))
           (Int32.uwrap (g_uvRowBytes g));;
    memcpy vOut (g_offset g row (g_uvRowBytes g))
           (g_vSrc g) (g_offset g row (g_vStride g))
           (Int32.uwrap (g_uvRowBytes g)));;
  store frame (Frame {|
    width := g_width g;
    height := g_height g;
    chromaFormat := g_chromaFormat g;
    bitDepth := g_bitDepth g;
    yPtr := token_of_ptr yOut;
    uPtr := token_of_ptr uOut;
    vPtr := token_of_ptr vOut;
    ySize := g_ySize g;
    uvSize := g_uvSize g |});;
  mret frame.

(** [h'] differs from [h] at most in the contents of the byte blocks at the
    addresses [ps]; no block changes size. *)
Definition overwrites {D} (ps : list Z) (h h' : heap D) : Prop :=
  brk h' = brk h /\ allocs h' = allocs h /\
  (forall q, q ∉ ps -> live h' !! q = live h !! q) /\
  (forall q d, live h !! q = Some (Bytes d) ->
     exists d', live h' !! q = Some (Bytes d') /\ length d' = length d).

(** A source plane the copy can read: a non-NULL pointer to at least
    [rows] rows of [rowBytes] bytes laid out with a stride no smaller than
    the row, inside the 32-bit address space. *)
Definition plane_ok (src : option bytes) (stride rowBytes rows : Z) : Prop :=
  exists s, src = Some s /\ rowBytes <= stride /\
            Z.of_nat (length s) <= Int32.INT_MAX /\
            forall r, 0 <= r < rows ->
                      r * stride + rowBytes <= Z.of_nat (length s).

(** A picture whose plane sizes are computed without overflow and whose
    planes can be read. *)
Record geometry_ok (g : geometry) : Prop := {
  ok_width : 0 <= g_width g;
  ok_height : 0 <= g_height g;
  ok_chromaW : 0 <= g_chromaW g;
  ok_chromaH : 0 <= g_chromaH g;
  ok_bps : 1 <= g_bytesPerSample g <= 2;
  ok_luma : g_width g * g_height g * g_bytesPerSample g <= Int32.INT_MAX;
  ok_luma_row : g_width g * g_bytesPerSample g <= Int32.INT_MAX;
  ok_luma_rows : g_height g <= Int32.INT_MAX;
  ok_chroma : g_chromaW g * g_chromaH g * g_bytesPerSample g <= Int32.INT_MAX;
  ok_chroma_row : g_chromaW g * g_bytesPerSample g <= Int32.INT_MAX;
  ok_chroma_rows : g_chromaH g <= Int32.INT_MAX;
  ok_offset : forall r x,
    0 <= r -> 0 <= x -> r * x <= Int32.INT_MAX -> g_offset g r x = r * x;
  ok_count : forall n,
    0 <= n <= Int32.INT_MAX -> g_count g n = Z.to_nat n;
  ok_y : plane_ok (g_ySrc g) (g_yStride g)
           (g_width g * g_bytesPerSample g) (g_height g);
  ok_u : plane_ok (g_uSrc g) (g_uStride g)
           (g_chromaW g * g_bytesPerSample g) (g_chromaH g);
  ok_v : plane_ok (g_vSrc g) (g_vStride g)
           (g_chromaW g * g_bytesPerSample g) (g_chromaH g)
}.

(** The record an extraction stores for the planes [yOut], [uOut], [vOut]. *)
Definition frame_of (g : geometry) (yOut uOut vOut : Z) : DecodedFrame := {|
  width := g_width g;
  height := g_height g;
  chromaFormat := g_chromaFormat g;
  bitDepth := g_bitDepth g;
  yPtr := token_of_ptr yOut;
  uPtr := token_of_ptr uOut;
  vPtr := token_of_ptr vOut;
  ySize := g_ySize g;
  uvSize := g_uvSize g |}.

(** The block behind a plane token of a record. *)
Definition plane_at {D} (h : heap D) (token : Z) : option bytes :=
  match live h !! ptr_of_token token with
  | Some (Bytes d) => Some d
  | _ => None
  end.

(** [p] is a fully populated record in [h']: all nine fields are set, the
    three plane tokens name distinct live blocks of the recorded sizes, none
    of which existed in [h]. *)
Definition populated {D} (g : geometry) (h h' : heap D) (p : Z) : Prop :=
  exists y u v,
    live h' !! p = Some (Frame (frame_of g y u v)) /\
    NoDup [y; u; v; p] /\
    (forall q, q ∈ [y; u; v; p] ->
               0 < q < Int32.modulus /\ live h !! q = None) /\
    (exists dy, live h' !! y = Some (Bytes dy) /\
                Z.of_nat (length dy) = Int32.uwrap (g_ySize g)) /\
    (exists du, live h' !! u = Some (Bytes du) /\
                Z.of_nat (length du) = Int32.uwrap (g_uvSize g)) /\
    (exists dv, live h' !! v = Some (Bytes dv) /\
                Z.of_nat (length dv) = Int32.uwrap (g_uvSize g)) /\
    (forall q, q ∉ [y; u; v; p] -> live h' !! q = live h !! q).



(** Luma dimensions of the data model (positive) whose plane sizes fit the
    [int] they are computed in. *)
Definition dims_ok (w h depth : Z) : Prop :=
  0 < w < Int32.INT_MAX /\ 0 < h < Int32.INT_MAX /\
  w * h * spec_bytes_per_sample depth <= Int32.INT_MAX.

(** A picture as a library hands it over: dimensions as above and three
    readable planes of the geometry its subsampling implies. *)
Definition picture_ok (w h depth : Z) (s : subsampling)
    (ySrc uSrc vSrc : option bytes) (yStride uStride vStride : Z) : Prop :=
  dims_ok w h depth /\
  plane_ok ySrc yStride (w * spec_bytes_per_sample depth) h /\
  plane_ok uSrc uStride
    ((spec_chroma_dims w h s).1 * spec_bytes_per_sample depth)
    (spec_chroma_dims w h s).2 /\
  plane_ok vSrc vStride
    ((spec_chroma_dims w h s).1 * spec_bytes_per_sample depth)
    (spec_chroma_dims w h s).2.



(** All or nothing.  With [y], [u], [v], [f] the results of the four
    allocations: if one of them is NULL the extraction returns NULL and the
    heap has the blocks it had before; if none is, whatever the extraction
    returns is [f] and a fully populated record, and it does return when the
    picture is [readable]; so a returned pointer is NULL with nothing
    allocated, or a populated record. *)
Definition all_or_nothing {D} (g : geometry) (readable : Prop)
    (extract : M (heap D) Z) (hp : heap D) : Prop :=
  exists y u v f h4,
    alloc4 g hp = Ok ((y, u, v, f), h4) /\
    (y = NULL \/ u = NULL \/ v = NULL \/ f = NULL ->
       exists hp', extract hp = Ok (NULL, hp') /\
                   live hp' = live hp /\ allocs hp' = allocs h4) /\
    (y <> NULL /\ u <> NULL /\ v <> NULL /\ f <> NULL ->
       (forall p hp', extract hp = Ok (p, hp') ->
                      p = f /\ populated g hp hp' p) /\
       (readable -> exists hp', extract hp = Ok (f, hp'))) /\
    (forall p hp', extract hp = Ok (p, hp') ->
       (p = NULL /\ live hp' = live hp) \/
       (p <> NULL /\ populated g hp hp' p)).

(** ** The host's side: sequences of calls *)

(** One [decode] call as the host issues it. *)
Record decode_call : Type := {
  dc_handle : Z;
  dc_data : option bytes;
  dc_size : Z;
  dc_is_keyframe : Z
}.

(** Issue the calls in order and collect the tokens returned. *)
Fixpoint decode_all {S} (decode : decode_call -> M S Z) (calls : list decode_call)
  : M S (list Z) :=
  match calls with
  | [] => mret []
  | c :: cs =>
      r ← decode c;
      rs ← decode_all decode cs;
      mret (r :: rs)
  end.

Definition av1_decode_call {L} `{Av1.Dav1d L} (fuel : nat) (c : decode_call)
  : M (world Av1.Av1Decoder L) Z :=
  Av1.av1_decode fuel (dc_handle c) (dc_data c) (dc_size c) (dc_is_keyframe c).

Definition vp9_decode_call {L} `{Vp9.Vpx L} (c : decode_call)
  : M (world Vp9.Vp9Decoder L) Z :=
  Vp9.vp9_decode (dc_handle c) (dc_data c) (dc_size c) (dc_is_keyframe c).

(** ** Sample pictures and scripted libraries

    Concrete inputs on which the theorems are exercised: a heap with room for
    eight allocations, small pictures with padded strides, and for each
    library an instance whose state is the queue of pictures it will hand
    out. *)

Definition sample_heap {D} : heap D := {|
  live := ∅;
  brk := 16;
  allocs := repeat (AllocOk (fun _ => Byte.xaa)) 8
|}.

(** The second allocation fails. *)
Definition failing_heap {D} : heap D := {|
  live := ∅;
  brk := 16;
  allocs := [AllocOk (fun _ => Byte.xaa); AllocFail;
             AllocOk (fun _ => Byte.xaa); AllocOk (fun _ => Byte.xaa)]
|}.

(** 4x2 luma, stride 6; 2x1 chroma, stride 4: the [xff] bytes are padding. *)
Definition sample_y : bytes :=
  [Byte.x01; Byte.x02; Byte.x03; Byte.x04; Byte.xff; Byte.xff;
   Byte.x05; Byte.x06; Byte.x07; Byte.x08; Byte.xff; Byte.xff].
Definition sample_u : bytes := [Byte.x11; Byte.x12; Byte.xff; Byte.xff].
Definition sample_v : bytes := [Byte.x21; Byte.x22; Byte.xff; Byte.xff].

Definition sample_av1_picture : Av1.Dav1dPicture := {|
  Av1.p_w := 4; Av1.p_h := 2;
  Av1.p_layout := Av1.DAV1D_PIXEL_LAYOUT_I420; Av1.p_bpc := 8;
  Av1.data0 := Some sample_y; Av1.data1 := Some sample_u;
  Av1.data2 := Some sample_v;
  Av1.stride0 := 6; Av1.stride1 := 4 |}.

(** A 12-bit picture, 2x1, two bytes per sample. *)
Definition deep_av1_picture : Av1.Dav1dPicture := {|
  Av1.p_w := 2; Av1.p_h := 1;
  Av1.p_layout := Av1.DAV1D_PIXEL_LAYOUT_I420; Av1.p_bpc := 12;
  Av1.data0 := Some [Byte.x01; Byte.x0a; Byte.x02; Byte.x0b];
  Av1.data1 := Some [Byte.x11; Byte.x0c];
  Av1.data2 := Some [Byte.x21; Byte.x0d];
  Av1.stride0 := 4; Av1.stride1 := 2 |}.

Definition sample_hevc_image : Hevc.de265_image := {|
  Hevc.image_width := fun _ => 4;
  Hevc.image_height := fun _ => 2;
  Hevc.bits_per_pixel := fun _ => 8;
  Hevc.chroma_format := Hevc.de265_chroma_420;
  Hevc.image_plane := fun c =>
    if c =? 0 then (Some sample_y, 6)
    else if c =? 1 then (Some sample_u, 4)
    else (Some sample_v, 4) |}.

Definition deep_hevc_image : Hevc.de265_image := {|
  Hevc.image_width := fun _ => 2;
  Hevc.image_height := fun _ => 1;
  Hevc.bits_per_pixel := fun _ => 12;
  Hevc.chroma_format := Hevc.de265_chroma_420;
  Hevc.image_plane := fun c =>
    if c =? 0 then (Some [Byte.x01; Byte.x0a; Byte.x02; Byte.x0b], 4)
    else if c =? 1 then (Some [Byte.x11; Byte.x0c], 2)
    else (Some [Byte.x21; Byte.x0d], 2) |}.

Definition sample_vp9_image : Vp9.vpx_image_t := {|
  Vp9.fmt := Vp9.VPX_IMG_FMT_I420;
  Vp9.bit_depth := 8;
  Vp9.d_w := 4; Vp9.d_h := 2;
  Vp9.planes := fun c =>
    if c =? 0 then Some sample_y
    else if c =? 1 then Some sample_u else Some sample_v;
  Vp9.stride := fun c => if c =? 0 then 6 else 4 |}.

(** A 12-bit image: libvpx reports [bit_depth = 12] with the
    high-bit-depth format. *)
Definition deep_vp9_image : Vp9.vpx_image_t := {|
  Vp9.fmt := Vp9.VPX_IMG_FMT_I42016;
  Vp9.bit_depth := 12;
  Vp9.d_w := 2; Vp9.d_h := 1;
  Vp9.planes := fun c =>
    if c =? 0 then Some [Byte.x01; Byte.x0a; Byte.x02; Byte.x0b]
    else if c =? 1 then Some [Byte.x11; Byte.x0c]
    else Some [Byte.x21; Byte.x0d];
  Vp9.stride := fun c => if c =? 0 then 4 else 2 |}.

#[global] Instance scripted_dav1d : Av1.Dav1d (list Av1.Dav1dPicture) := {|
  Av1.sizeof_Av1Decoder := 64;
  Av1.EAGAIN := 6;
  Av1.dav1d_default_settings := fun l =>
    ({| Av1.n_threads := 0; Av1.max_frame_delay := 0;
        Av1.other_settings := [] |}, l);
  Av1.dav1d_open := fun _ l => ((0, 4096), l);
  Av1.dav1d_data_create := fun _ l => (true, l);
  Av1.dav1d_send_data := fun _ _ l => ((0, []), l);
  Av1.dav1d_get_picture := fun _ zero l =>
    match l with
    | [] => ((-6, zero), [])
    | pic :: rest => ((0, pic), rest)
    end;
  Av1.dav1d_picture_unref := fun _ l => (tt, l);
  Av1.dav1d_flush := fun _ l => (tt, l);
  Av1.dav1d_close := fun _ l => (tt, l)
|}.

#[global] Instance scripted_de265 : Hevc.De265 (list Hevc.de265_image) := {|
  Hevc.de265_new_decoder := fun l => (4096, l);
  Hevc.de265_start_worker_threads := fun _ _ l => (tt, l);
  Hevc.de265_push_NAL := fun _ _ l => (tt, l);
  Hevc.de265_decode := fun _ l => (tt, l);
  Hevc.de265_get_next_picture := fun _ l => (head l, l);
  Hevc.de265_release_next_picture := fun _ l => (tt, tail l);
  Hevc.de265_flush_data := fun _ l => (tt, l);
  Hevc.de265_free_decoder := fun _ l => (tt, l)
|}.

#[global] Instance scripted_vpx : Vp9.Vpx (list Vp9.vpx_image_t) := {|
  Vp9.sizeof_Vp9Decoder := 64;
  Vp9.vpx_codec_dec_init := fun _ _ l => (0, l);
  Vp9.vpx_codec_decode := fun _ _ _ l => (0, l);
  Vp9.vpx_codec_get_frame := fun _ l => (head l, tail l);
  Vp9.vpx_codec_destroy := fun _ l => (tt, l)
|}.

Definition sample_world {D P} (pictures : list P) : world D (list P) :=
  {| mem := sample_heap; lib := pictures |}.

(** The block and record a host finds behind a token. *)
Definition frame_at {D L} (w : world D L) (token : Z) : option DecodedFrame :=
  match live (mem w) !! ptr_of_token token with
  | Some (Frame f) => Some f
  | _ => None
  end.

(** The result of a run: the value returned and, when it is a record token,
    the record. *)
Definition returned_frame {D L} (r : outcome (Z * world D L))
  : outcome (Z * option DecodedFrame) :=
  match r with
  | Ok (token, w) => Ok (token, frame_at w token)
  | Undefined => Undefined
  | OutOfFuel => OutOfFuel
  end.

(** The world right after [av1_create_decoder] on [sample_world]: one
    session at address 16. *)
Definition created_av1_world (pictures : list Av1.Dav1dPicture)
  : world Av1.Av1Decoder (list Av1.Dav1dPicture) := {|
  mem := {|
    live := {[ 16 := Session {|
      Av1.ctx := 4096;
      Av1.settings := {| Av1.n_threads := 1; Av1.max_frame_delay := 1;
                         Av1.other_settings := [] |} |} ]};
    brk := 80;
    allocs := repeat (AllocOk (fun _ => Byte.xaa)) 7 |};
  lib := pictures |}.

(** [img] with another value in its [bit_depth] field. *)
Definition with_bit_depth (img : Vp9.vpx_image_t) (b : Z) : Vp9.vpx_image_t := {|
  Vp9.fmt := Vp9.fmt img;
  Vp9.bit_depth := b;
  Vp9.d_w := Vp9.d_w img;
  Vp9.d_h := Vp9.d_h img;
  Vp9.planes := Vp9.planes img;
  Vp9.stride := Vp9.stride img |}.

(** ** Outcomes of [decode] and [flush] as the host sees them *)

(** From world [w] a call returned [token] in world [w']: either the empty
    token, and the heap holds the blocks it held, or the token of a fully
    populated record whose four blocks are new, every other block being as
    it was. *)
Definition record_or_nothing {D L} (w w' : world D L) (token : Z) : Prop :=
  heap_wf (mem w') /\
  ((token = 0 /\ live (mem w') = live (mem w)) \/
   (token <> 0 /\
    exists g, populated g (mem w) (mem w') (ptr_of_token token))).

(** A dav1d that never takes the data: [dav1d_send_data] answers
    [DAV1D_ERR(EAGAIN)] every time. *)
#[global] Instance stalled_dav1d : Av1.Dav1d unit := {|
  Av1.sizeof_Av1Decoder := 64;
  Av1.EAGAIN := 6;
  Av1.dav1d_default_settings := fun l =>
    ({| Av1.n_threads := 0; Av1.max_frame_delay := 0;
        Av1.other_settings := [] |}, l);
  Av1.dav1d_open := fun _ l => ((0, 4096), l);
  Av1.dav1d_data_create := fun _ l => (true, l);
  Av1.dav1d_send_data := fun _ d l => ((-6, d), l);
  Av1.dav1d_get_picture := fun _ zero l => ((-6, zero), l);
  Av1.dav1d_picture_unref := fun _ l => (tt, l);
  Av1.dav1d_flush := fun _ l => (tt, l);
  Av1.dav1d_close := fun _ l => (tt, l)
|}.

(** From world [w], [create_decoder] returned [token] in world [w']:
    either 0, and the heap holds the blocks it held, or the token of a new
    session block satisfying [ok], every other block being as it was. *)
Definition session_created {D L} (ok : D -> Prop) (w w' : world D L)
    (token : Z) : Prop :=
  heap_wf (mem w') /\
  ((token = 0 /\ live (mem w') = live (mem w)) \/
   (token <> 0 /\ ptr_of_token token <> NULL /\
    live (mem w) !! ptr_of_token token = None /\
    (exists d, live (mem w') !! ptr_of_token token = Some (Session d) /\ ok d)
    /\ forall q, q <> ptr_of_token token ->
                 live (mem w') !! q = live (mem w) !! q)).

Definition hevc_decode_call {L} `{Hevc.De265 L} (c : decode_call)
  : M (world Hevc.HevcDecoder L) Z :=
  Hevc.hevc_decode (dc_handle c) (dc_data c) (dc_size c) (dc_is_keyframe c).

(** Every block of [w] is still there, unchanged, in [w']. *)
Definition keeps_blocks {D L} (w w' : world D L) : Prop :=
  forall q o, live (mem w) !! q = Some o -> live (mem w') !! q = Some o.

(** The session [created_av1_world] holds at address 16. *)
Definition created_av1_session : Av1.Av1Decoder := {|
  Av1.ctx := 4096;
  Av1.settings := {| Av1.n_threads := 1; Av1.max_frame_delay := 1;
                     Av1.other_settings := [] |} |}.

(** The same heap in front of [stalled_dav1d]. *)
Definition stalled_av1_world : world Av1.Av1Decoder unit := {|
  mem := mem (created_av1_world []);
  lib := tt |}.

(** A monochrome picture as dav1d hands it out: layout I400 and no chroma
    planes. *)
Definition monochrome_av1_picture : Av1.Dav1dPicture := {|
  Av1.p_w := 4; Av1.p_h := 2;
  Av1.p_layout := Av1.DAV1D_PIXEL_LAYOUT_I400; Av1.p_bpc := 8;
  Av1.data0 := Some sample_y; Av1.data1 := None; Av1.data2 := None;
  Av1.stride0 := 6; Av1.stride1 := 0 |}.

(** Two [decode] calls on the session of [created_av1_world]. *)
Definition sample_calls : list decode_call :=
  [ {| dc_handle := 16; dc_data := Some [Byte.x00]; dc_size := 1;
       dc_is_keyframe := 1 |};
    {| dc_handle := 16; dc_data := Some [Byte.x00; Byte.x01]; dc_size := 2;
       dc_is_keyframe := 0 |} ].

(** A picture of width 0: monochrome, two rows of no byte, no chroma
    planes. *)
Definition empty_av1_picture : Av1.Dav1dPicture := {|
  Av1.p_w := 0; Av1.p_h := 2;
  Av1.p_layout := Av1.DAV1D_PIXEL_LAYOUT_I400; Av1.p_bpc := 8;
  Av1.data0 := Some []; Av1.data1 := None; Av1.data2 := None;
  Av1.stride0 := 0; Av1.stride1 := 0 |}.

(** * Properties *)

Ltac geometry_fields :=
  cbn [g_width g_height g_chromaW g_chromaH g_bytesPerSample g_chromaFormat
       g_bitDepth g_ySrc g_uSrc g_vSrc g_yStride g_uStride g_vStride
       g_offset g_count fst snd].

Ltac unfold_extract_planes :=
  unfold extract_planes, g_ySize, g_uvSize, g_yRowBytes, g_uvRowBytes.

Lemma av1_extract_picture_eq (pic : Av1.Dav1dPicture) :
  Av1.extract_picture (Some pic) =
  if is_null (Av1.data0 pic) then mret NULL
  else extract_planes (av1_geometry pic).
Proof.
  unfold Av1.extract_picture.
  destruct (is_null (Av1.data0 pic)); [reflexivity|].
  unfold_extract_planes. unfold av1_geometry. geometry_fields.
  destruct (Av1.chroma_dims _ _ _) as [cw ch]. geometry_fields.
  reflexivity.
Qed.

Lemma hevc_extract_picture_eq (img : Hevc.de265_image) :
  Hevc.extract_picture (Some img) =
  if is_null (g_ySrc (hevc_geometry img)) || is_null (g_uSrc (hevc_geometry img))
     || is_null (g_vSrc (hevc_geometry img))
  then mret NULL
  else extract_planes (hevc_geometry img).
Proof.
  unfold Hevc.extract_picture.
  unfold_extract_planes. unfold hevc_geometry. geometry_fields.
  destruct (Hevc.de265_get_image_plane img 0) as [yp ys].
  destruct (Hevc.de265_get_image_plane img 1) as [up us].
  destruct (Hevc.de265_get_image_plane img 2) as [vp vs]. geometry_fields.
  destruct (is_null yp || is_null up || is_null vp); [reflexivity|].
  destruct (Hevc.chroma_dims _ _ _) as [cw ch]. geometry_fields.
  reflexivity.
Qed.

Lemma vp9_extract_image_eq (img : Vp9.vpx_image_t) :
  Vp9.extract_image (Some img) = extract_planes (vp9_geometry img).
Proof.
  unfold Vp9.extract_image.
  unfold_extract_planes. unfold vp9_geometry. geometry_fields.
  destruct (Vp9.chroma_dims _ _ _) as [cw ch]. geometry_fields.
  reflexivity.
Qed.

(** ** The monad *)

Lemma bind_ret_l {S A B} (a : A) (k : A -> M S B) s : bind (ret a) k s = k a s.
Proof. reflexivity. Qed.

Lemma bind_Ok {S A B} (m : M S A) (k : A -> M S B) s a s' :
  m s = Ok (a, s') -> bind m k s = k a s'.
Proof. unfold bind. now intros ->. Qed.

Lemma bind_assoc {S A B C} (m : M S A) (k : A -> M S B) (k' : B -> M S C) s :
  bind (bind m k) k' s = bind m (fun a => bind (k a) k') s.
Proof. unfold bind. destruct (m s) as [[a s']| |]; reflexivity. Qed.

(** ** Machine arithmetic *)

Lemma wrap_small z : Int32.in_range z -> Int32.wrap z = z.
Proof.
  unfold Int32.in_range, Int32.wrap, Int32.INT_MIN, Int32.INT_MAX,
    Int32.modulus.
  intros H. rewrite Z.mod_small; lia.
Qed.

Lemma uwrap_small z : 0 <= z < Int32.modulus -> Int32.uwrap z = z.
Proof. unfold Int32.uwrap. intros H. now apply Z.mod_small. Qed.

Lemma uwrap_wrap z : Int32.uwrap (Int32.wrap z) = Int32.uwrap z.
Proof.
  unfold Int32.uwrap, Int32.wrap, Int32.modulus.
  rewrite <- Zminus_mod_idemp_l, Z.mod_mod by lia.
  rewrite Zminus_mod_idemp_l. f_equal. lia.
Qed.

Lemma wrap_uwrap z : Int32.wrap (Int32.uwrap z) = Int32.wrap z.
Proof.
  unfold Int32.uwrap, Int32.wrap, Int32.modulus.
  now rewrite Zplus_mod_idemp_l.
Qed.

Lemma wrap_range z : Int32.in_range (Int32.wrap z).
Proof.
  unfold Int32.in_range, Int32.wrap, Int32.INT_MIN, Int32.INT_MAX,
    Int32.modulus.
  pose proof (Z.mod_pos_bound (z + 2 ^ 31) (2 ^ 32)). lia.
Qed.

Lemma uwrap_range z : 0 <= Int32.uwrap z < Int32.modulus.
Proof. unfold Int32.uwrap, Int32.modulus. apply Z.mod_pos_bound. lia. Qed.


Lemma token_roundtrip p :
  0 <= p < Int32.modulus -> ptr_of_token (token_of_ptr p) = p.
Proof.
  intros Hp. unfold ptr_of_token, token_of_ptr.
  rewrite uwrap_wrap. now apply uwrap_small.
Qed.

Lemma mul_small a b :
  0 <= a -> 0 <= b -> a * b <= Int32.INT_MAX -> Int32.mul a b = a * b.
Proof.
  intros Ha Hb Hab. unfold Int32.mul. apply wrap_small.
  unfold Int32.in_range, Int32.INT_MIN. nia.
Qed.

Lemma umul_small a b :
  0 <= a -> 0 <= b -> a * b <= Int32.INT_MAX -> Int32.umul a b = a * b.
Proof.
  intros Ha Hb Hab. unfold Int32.umul. apply uwrap_small.
  unfold Int32.INT_MAX, Int32.modulus in *. nia.
Qed.

Lemma half_up_small n :
  0 <= n < Int32.INT_MAX -> Int32.div (Int32.add n 1) 2 = ceil_half n.
Proof.
  intros Hn. unfold Int32.div, Int32.add, ceil_half.
  rewrite (wrap_small (n + 1))
    by (unfold Int32.in_range, Int32.INT_MIN, Int32.INT_MAX in *; lia).
  rewrite Z.quot_div_nonneg by lia.
  pose proof (Z.div_mod (n + 1) 2 ltac:(lia)).
  pose proof (Z.mod_pos_bound (n + 1) 2 ltac:(lia)).
  rewrite wrap_small
    by (unfold Int32.in_range, Int32.INT_MIN, Int32.INT_MAX in *; lia).
  pose proof (Z.div_mod (- n) 2 ltac:(lia)).
  pose proof (Z.mod_pos_bound (- n) 2 ltac:(lia)).
  lia.
Qed.

Lemma ceil_half_bounds n : 0 <= n -> 0 <= ceil_half n <= n.
Proof.
  intros Hn. unfold ceil_half.
  pose proof (Z.div_mod (- n) 2 ltac:(lia)).
  pose proof (Z.mod_pos_bound (- n) 2 ltac:(lia)).
  lia.
Qed.

(** [ceil_half] is the ceiling of [n/2]: the least [c] with [n <= 2c]. *)
Lemma ceil_half_spec n : n <= 2 * ceil_half n < n + 2.
Proof.
  unfold ceil_half.
  pose proof (Z.div_mod (- n) 2 ltac:(lia)).
  pose proof (Z.mod_pos_bound (- n) 2 ltac:(lia)).
  lia.
Qed.

(** ** The allocator *)

Section HeapFacts.
Context {D : Type}.
Implicit Types (h : heap D) (p q n : Z).

Lemma fresh_block_length junk n :
  Z.of_nat (length (fresh_block junk n)) = Z.max 0 n.
Proof. unfold fresh_block. rewrite length_map, length_seq. lia. Qed.

Lemma malloc_total n h : exists p h', malloc n h = Ok (p, h').
Proof.
  unfold malloc. destruct (allocs h) as [|[|junk] rest]; [eauto..|].
  destruct (_ <=? _); eauto.
Qed.

Lemma heap_wf_null h : heap_wf h -> live h !! NULL = None.
Proof.
  intros [_ Hwf]. destruct (live h !! NULL) eqn:E; [|reflexivity].
  specialize (Hwf NULL (mk_is_Some _ _ E)). unfold NULL in Hwf. lia.
Qed.

Lemma heap_wf_brk h q : heap_wf h -> brk h <= q -> live h !! q = None.
Proof.
  intros [_ Hwf] Hq. destruct (live h !! q) eqn:E; [|reflexivity].
  specialize (Hwf q (mk_is_Some _ _ E)). lia.
Qed.

Lemma malloc_inv n h p h' :
  heap_wf h -> malloc n h = Ok (p, h') ->
  heap_wf h' /\ brk h <= brk h' /\ allocs h' = tail (allocs h) /\
  (forall q, q <> p -> live h' !! q = live h !! q) /\
  ((p = NULL /\ live h' = live h) \/
   (p <> NULL /\ brk h = p /\ p < brk h' /\ brk h' <= Int32.modulus /\
    exists junk, live h' !! p = Some (Bytes (fresh_block junk n)))).
Proof.
  intros Hwf. pose proof Hwf as [Hb Hl]. unfold malloc.
  destruct (allocs h) as [|[|junk] rest] eqn:Ea.
  - intros [= <- <-]. rewrite Ea.
    split; [exact Hwf|]. split; [lia|]. do 2 (split; [reflexivity || auto|]).
    left; auto.
  - intros [= <- <-]. cbn.
    split; [exact Hwf|]. split; [lia|]. do 2 (split; [reflexivity || auto|]).
    left; auto.
  - destruct (brk h + Z.max n 1 <=? Int32.modulus) eqn:Eb;
      intros [= <- <-]; cbn.
    + apply Z.leb_le in Eb. split; [|split; [lia|split; [reflexivity|split]]].
      * split; cbn; [lia|].
        intros q [o Hq]. destruct (decide (q = brk h)) as [->|Hne]; [lia|].
        rewrite lookup_insert_ne in Hq by congruence.
        specialize (Hl q (mk_is_Some _ _ Hq)). lia.
      * intros q Hq. now rewrite lookup_insert_ne by congruence.
      * right. unfold NULL. repeat split; try lia.
        exists junk. apply lookup_insert_eq.
    + split; [exact Hwf|]. split; [lia|]. do 2 (split; [reflexivity || auto|]).
      left; auto.
Qed.

Lemma free_released h p :
  heap_wf h -> p = NULL \/ is_Some (live h !! p) ->
  free p h = Ok (tt, with_live h (delete p (live h))).
Proof.
  intros Hwf Hp. unfold free, with_live.
  destruct (p =? NULL) eqn:E.
  - apply Z.eqb_eq in E. subst p.
    rewrite delete_id by now apply heap_wf_null.
    destruct h; reflexivity.
  - apply Z.eqb_neq in E. destruct Hp as [Hp|[o Hp]]; [contradiction|].
    now rewrite Hp.
Qed.

Lemma with_live_wf h m :
  heap_wf h -> (forall q, is_Some (m !! q) -> is_Some (live h !! q)) ->
  heap_wf (with_live h m).
Proof.
  intros [Hb Hl] Hm. split; [exact Hb|]. intros q Hq. apply Hl, Hm, Hq.
Qed.

End HeapFacts.

(** ** The four allocations of an extraction *)

Section Alloc4.
Context {D : Type}.
Implicit Types (h : heap D) (g : geometry).

Ltac malloc_step H E p h' :=
  match type of H with
  | context [malloc ?n ?h] =>
      destruct (malloc_total (D:=D) n h) as (p & h' & E);
      rewrite E in H
  end.

Lemma alloc4_inv g h y u v f h4 :
  heap_wf h -> alloc4 g h = Ok ((y, u, v, f), h4) ->
  allocated4 h
    (Int32.uwrap (g_ySize g), Int32.uwrap (g_uvSize g),
     Int32.uwrap (g_uvSize g), sizeof_DecodedFrame)
    (y, u, v, f) h4.
Proof.
  intros Hwf H. unfold alloc4, mbind, M_bind, bind in H.
  malloc_step H E1 y' h1. malloc_step H E2 u' h2.
  malloc_step H E3 v' h3. malloc_step H E4 f' h4'.
  injection H as <- <- <- <- <-.
  destruct (malloc_inv _ _ _ _ Hwf E1) as (W1 & B1 & A1 & F1 & C1).
  destruct (malloc_inv _ _ _ _ W1 E2) as (W2 & B2 & A2 & F2 & C2).
  destruct (malloc_inv _ _ _ _ W2 E3) as (W3 & B3 & A3 & F3 & C3).
  destruct (malloc_inv _ _ _ _ W3 E4) as (W4 & B4 & A4 & F4 & C4).
  pose proof Hwf as [Hb0 _].
  assert (R : forall q, q = y' \/ q = u' \/ q = v' \/ q = f' ->
              q = NULL \/ brk h <= q < Int32.modulus).
  { intros q Hq. unfold NULL in *.
    destruct C1 as [[? _]|(? & ? & ? & ? & _)],
             C2 as [[? _]|(? & ? & ? & ? & _)],
             C3 as [[? _]|(? & ? & ? & ? & _)],
             C4 as [[? _]|(? & ? & ? & ? & _)]; lia. }
  split; cbn [fst snd].
  - exact W4.
  - now rewrite A4, A3, A2, A1.
  - intros q ? ? ? ?. now rewrite F4, F3, F2, F1.
  - intros q Hq. destruct (R q Hq) as [->|Hr].
    + now apply heap_wf_null.
    + apply heap_wf_brk; [exact Hwf|lia].
  - intros q Hq. destruct (R q Hq) as [->|Hr]; [now left|right; lia].
  - intros p q Hpq Hp Hq. unfold NULL in *.
    destruct C1 as [[? _]|(? & ? & ? & ? & _)],
             C2 as [[? _]|(? & ? & ? & ? & _)],
             C3 as [[? _]|(? & ? & ? & ? & _)],
             C4 as [[? _]|(? & ? & ? & ? & _)]; lia.
  - intros Hy. destruct C1 as [[? _]|(_ & ? & ? & ? & junk & Hj)]; [done|].
    exists junk. rewrite F4, F3, F2; [exact Hj|..]; unfold NULL in *;
    destruct C2 as [[? _]|(? & ? & ? & ? & _)],
             C3 as [[? _]|(? & ? & ? & ? & _)],
             C4 as [[? _]|(? & ? & ? & ? & _)]; lia.
  - intros Hu. destruct C2 as [[? _]|(_ & ? & ? & ? & junk & Hj)]; [done|].
    exists junk. rewrite F4, F3; [exact Hj|..]; unfold NULL in *;
    destruct C3 as [[? _]|(? & ? & ? & ? & _)],
             C4 as [[? _]|(? & ? & ? & ? & _)]; lia.
  - intros Hv. destruct C3 as [[? _]|(_ & ? & ? & ? & junk & Hj)]; [done|].
    exists junk. rewrite F4; [exact Hj|]; unfold NULL in *;
    destruct C4 as [[? _]|(? & ? & ? & ? & _)]; lia.
  - intros Hf. destruct C4 as [[? _]|(_ & ? & ? & ? & junk & Hj)]; [done|].
    exists junk. exact Hj.
Qed.

Lemma alloc4_total g h : exists ptrs h4, alloc4 (D:=D) g h = Ok (ptrs, h4).
Proof.
  unfold alloc4, mbind, M_bind, bind.
  destruct (malloc_total (D:=D) (Int32.uwrap (g_ySize g)) h) as (y & h1 & ->).
  destruct (malloc_total (D:=D) (Int32.uwrap (g_uvSize g)) h1) as (u & h2 & ->).
  destruct (malloc_total (D:=D) (Int32.uwrap (g_uvSize g)) h2) as (v & h3 & ->).
  destruct (malloc_total (D:=D) sizeof_DecodedFrame h3) as (f & h4 & ->).
  eauto.
Qed.

End Alloc4.

(** ** Extraction: the allocation-failure path *)

Section Release.
Context {D : Type}.
Implicit Types (h : heap D) (g : geometry).

Lemma extract_planes_unfold g h :
  extract_planes g h =
  match alloc4 g h with
  | Ok ((y, u, v, f), h4) =>
      if (y =? NULL) || (u =? NULL) || (v =? NULL) || (f =? NULL)
      then release4 y u v f h4
      else fill_frame g y u v f h4
  | Undefined => Undefined
  | OutOfFuel => OutOfFuel
  end.
Proof.
  unfold extract_planes, alloc4, release4, fill_frame, mbind, M_bind, bind.
  destruct (malloc _ h) as [[y h1]| |]; [|reflexivity..].
  destruct (malloc _ h1) as [[u h2]| |]; [|reflexivity..].
  destruct (malloc _ h2) as [[v h3]| |]; [|reflexivity..].
  destruct (malloc _ h3) as [[f h4]| |]; [|reflexivity..].
  unfold mret, M_ret, ret.
  destruct ((y =? NULL) || (u =? NULL) || (v =? NULL) || (f =? NULL));
    reflexivity.
Qed.

Lemma release4_ok h sizes y u v f h4 :
  allocated4 h sizes (y, u, v, f) h4 ->
  exists h', release4 y u v f h4 = Ok (NULL, h') /\
             live h' = live h /\ brk h' = brk h4 /\ allocs h' = allocs h4 /\
             heap_wf h'.
Proof.
  intros A. destruct A as [W Al Fr Fs Rg Or Y U V F]. cbn [fst snd] in *.
  assert (Hlive : forall q, q = y \/ q = u \/ q = v \/ q = f ->
                    q = NULL \/ is_Some (live h4 !! q)).
  { intros q Hq. destruct (decide (q = NULL)) as [|Hn]; [now left|right].
    destruct Hq as [-> | [-> | [-> | -> ]]];
      [destruct (Y Hn) as [j ->]|destruct (U Hn) as [j ->]
      |destruct (V Hn) as [j ->]|destruct (F Hn) as [j ->]]; eauto. }
  assert (Hne : forall p q,
            (p = y /\ (q = u \/ q = v \/ q = f)) \/
            (p = u /\ (q = v \/ q = f)) \/ (p = v /\ q = f) ->
            q = NULL \/ p <> q).
  { intros p q Hpq. destruct (decide (q = NULL)) as [|Hq]; [now left|right].
    destruct (decide (p = NULL)) as [->|Hp]; [congruence|].
    specialize (Or p q Hpq Hp Hq). lia. }
  unfold release4, mbind, M_bind, bind.
  rewrite (free_released h4 y W) by (apply Hlive; auto).
  set (h5 := with_live h4 (delete y (live h4))).
  assert (W5 : heap_wf h5).
  { apply with_live_wf; [exact W|]. intros q [o Hq].
    apply lookup_delete_Some in Hq as [_ Hq]. eauto. }
  rewrite (free_released h5 u W5).
  2:{ destruct (Hlive u) as [|Hu]; [auto|now left|right]. cbn.
      destruct (Hne y u) as [?|?]; [auto|..].
      - subst u. apply heap_wf_null in W. rewrite W in Hu. now destruct Hu.
      - now rewrite lookup_delete_ne. }
  set (h6 := with_live h5 (delete u (live h5))).
  assert (W6 : heap_wf h6).
  { apply with_live_wf; [exact W5|]. intros q [o Hq].
    apply lookup_delete_Some in Hq as [_ Hq]. eauto. }
  rewrite (free_released h6 v W6).
  2:{ destruct (Hlive v) as [|Hv]; [auto|now left|right]. cbn.
      destruct (Hne y v) as [?|?]; [auto|..];
      [subst v; apply heap_wf_null in W; rewrite W in Hv; now destruct Hv|].
      destruct (Hne u v) as [?|?]; [auto|..];
      [subst v; apply heap_wf_null in W; rewrite W in Hv; now destruct Hv|].
      now rewrite !lookup_delete_ne. }
  set (h7 := with_live h6 (delete v (live h6))).
  assert (W7 : heap_wf h7).
  { apply with_live_wf; [exact W6|]. intros q [o Hq].
    apply lookup_delete_Some in Hq as [_ Hq]. eauto. }
  rewrite (free_released h7 f W7).
  2:{ destruct (Hlive f) as [|Hf]; [auto|now left|right]. cbn.
      destruct (Hne y f) as [?|?]; [auto|..];
      [subst f; apply heap_wf_null in W; rewrite W in Hf; now destruct Hf|].
      destruct (Hne u f) as [?|?]; [auto|..];
      [subst f; apply heap_wf_null in W; rewrite W in Hf; now destruct Hf|].
      destruct (Hne v f) as [?|?]; [auto|..];
      [subst f; apply heap_wf_null in W; rewrite W in Hf; now destruct Hf|].
      now rewrite !lookup_delete_ne. }
  eexists. split; [reflexivity|]. cbn.
  split; [|split; [reflexivity|split; [reflexivity|]]].
  - apply map_eq. intros q.
    destruct (decide (q = y \/ q = u \/ q = v \/ q = f)) as [Hq|Hq].
    + rewrite (Fs q Hq).
      destruct Hq as [-> | [-> | [-> | -> ]]];
        repeat first [ apply lookup_delete_eq
                     | rewrite lookup_delete_ne by congruence
                     | match goal with
                       | |- delete ?a _ !! ?b = None =>
                           destruct (decide (a = b)) as [->|]
                       end ].
    + rewrite !lookup_delete_ne by (intros ->; tauto).
      apply Fr; intros ->; tauto.
  - apply (with_live_wf h7); [exact W7|]. intros q [o Hq].
    apply lookup_delete_Some in Hq as [_ Hq]. eauto.
Qed.

End Release.

(** ** Row copies *)

Section Copy.
Context {D : Type}.
Implicit Types (h : heap D) (src d : bytes).

Lemma with_live_id h : with_live h (live h) = h.
Proof. now destruct h. Qed.

Lemma with_live_twice h m m' : with_live (with_live h m) m' = with_live h m'.
Proof. reflexivity. Qed.

Lemma memcpy_ok h dst d doff src soff n :
  live h !! dst = Some (Bytes d) ->
  0 <= n -> 0 <= doff -> doff + n <= Z.of_nat (length d) ->
  0 <= soff -> soff + n <= Z.of_nat (length src) ->
  memcpy dst doff (Some src) soff n h =
  Ok (tt, with_live h (<[dst :=
            Bytes (take (Z.to_nat doff) d
                   ++ take (Z.to_nat n) (drop (Z.to_nat soff) src)
                   ++ drop (Z.to_nat (doff + n)) d)]> (live h))).
Proof.
  intros Hd Hn Hdo Hdn Hso Hsn. unfold memcpy.
  destruct (n =? 0) eqn:En.
  { apply Z.eqb_eq in En. subst n. rewrite Z.add_0_r.
    change (Z.to_nat 0) with 0%nat. rewrite take_0, app_nil_l, take_drop.
    rewrite insert_id by exact Hd. now rewrite with_live_id. }
  unfold mbind, M_bind, bind, load. rewrite Hd.
  unfold mret, M_ret, ret, read_bytes.
  assert (E1 : (0 <=? soff) && (0 <=? n) && (soff + n <=? Z.of_nat (length src))
               = true).
  { rewrite !andb_true_iff. repeat split; apply Z.leb_le; lia. }
  rewrite E1.
  assert (Hl : length (take (Z.to_nat n) (drop (Z.to_nat soff) src))
               = Z.to_nat n).
  { rewrite length_take, length_drop. lia. }
  unfold write_bytes. rewrite Hl.
  assert (E2 : (0 <=? doff) && (doff + Z.of_nat (Z.to_nat n)
                                <=? Z.of_nat (length d)) = true).
  { rewrite !andb_true_iff. repeat split; apply Z.leb_le; lia. }
  rewrite E2. unfold store. rewrite Hd. unfold with_live.
  replace (Z.to_nat doff + Z.to_nat n)%nat with (Z.to_nat (doff + n)) by lia.
  reflexivity.
Qed.

Lemma plane_row_length src stride rb r :
  0 <= rb -> 0 <= r * stride -> r * stride + rb <= Z.of_nat (length src) ->
  length (plane_row src stride rb r) = Z.to_nat rb.
Proof.
  intros. unfold plane_row. rewrite length_take, length_drop. lia.
Qed.

Lemma copy_rows_ok dst src stride rb (off : Z -> Z -> Z) :
  0 <= rb -> 0 <= stride ->
  forall (n : nat) r h pre mid post,
    live h !! dst = Some (Bytes (pre ++ mid ++ post)) ->
    0 <= r ->
    Z.of_nat (length pre) = r * rb ->
    Z.of_nat (length mid) = Z.of_nat n * rb ->
    (forall k, r <= k < r + Z.of_nat n ->
       off k rb = k * rb /\ off k stride = k * stride /\
       k * stride + rb <= Z.of_nat (length src)) ->
    for_rows n r (fun row =>
      memcpy dst (off row rb) (Some src) (off row stride) rb) h =
    Ok (tt, with_live h (<[dst :=
              Bytes (pre ++ packed_rows src stride rb r n ++ post)]> (live h))).
Proof.
  intros Hrb Hst. induction n as [|n IH]; intros r h pre mid post Hd Hr Hpre Hmid Hk.
  - cbn. destruct mid; [|cbn in Hmid; lia].
    rewrite insert_id by exact Hd. now rewrite with_live_id.
  - cbn [for_rows]. unfold mbind, M_bind, bind.
    destruct (Hk r ltac:(lia)) as (Eo1 & Eo2 & Hin).
    rewrite Eo1, Eo2.
    rewrite (memcpy_ok h dst (pre ++ mid ++ post)); try nia; try exact Hd.
    2:{ rewrite !length_app. nia. }
    set (row := take (Z.to_nat rb) (drop (Z.to_nat (r * stride)) src)).
    assert (Hrow : length row = Z.to_nat rb).
    { apply plane_row_length; nia. }
    replace (take (Z.to_nat (r * rb)) (pre ++ mid ++ post)) with pre.
    2:{ rewrite take_app_length'; [reflexivity|lia]. }
    replace (drop (Z.to_nat (r * rb + rb)) (pre ++ mid ++ post))
      with (drop (Z.to_nat rb) mid ++ post).
    2:{ replace (Z.to_nat (r * rb + rb)) with (length pre + Z.to_nat rb)%nat
          by lia.
        rewrite drop_app_add'; [|reflexivity].
        rewrite drop_app_le; [reflexivity|nia]. }
    match goal with |- for_rows _ _ _ ?h1 = _ => set (h1' := h1) end.
    rewrite (IH (r + 1) h1' (pre ++ row) (drop (Z.to_nat rb) mid) post).
    + subst h1'. rewrite with_live_twice. cbn [live with_live].
      rewrite insert_insert_eq. cbn [packed_rows].
      fold row. unfold plane_row. fold row.
      now rewrite <- !app_assoc.
    + subst h1'. cbn [live with_live]. rewrite lookup_insert_eq.
      now rewrite <- !app_assoc.
    + lia.
    + rewrite length_app. nia.
    + rewrite length_drop. nia.
    + intros k Hk'. apply Hk. lia.
Qed.

Lemma copy_rows2_ok u v usrc vsrc ustride vstride rb (off : Z -> Z -> Z) :
  u <> v -> 0 <= rb -> 0 <= ustride -> 0 <= vstride ->
  forall (n : nat) r h upre umid upost vpre vmid vpost,
    live h !! u = Some (Bytes (upre ++ umid ++ upost)) ->
    live h !! v = Some (Bytes (vpre ++ vmid ++ vpost)) ->
    0 <= r ->
    Z.of_nat (length upre) = r * rb ->
    Z.of_nat (length umid) = Z.of_nat n * rb ->
    Z.of_nat (length vpre) = r * rb ->
    Z.of_nat (length vmid) = Z.of_nat n * rb ->
    (forall k, r <= k < r + Z.of_nat n ->
       off k rb = k * rb /\
       (off k ustride = k * ustride /\
        k * ustride + rb <= Z.of_nat (length usrc)) /\
       (off k vstride = k * vstride /\
        k * vstride + rb <= Z.of_nat (length vsrc))) ->
    for_rows n r (fun row =>
      memcpy u (off row rb) (Some usrc) (off row ustride) rb;;
      memcpy v (off row rb) (Some vsrc) (off row vstride) rb) h =
    Ok (tt, with_live h
              (<[v := Bytes (vpre ++ packed_rows vsrc vstride rb r n ++ vpost)]>
               (<[u := Bytes (upre ++ packed_rows usrc ustride rb r n ++ upost)]>
                (live h)))).
Proof.
  intros Huv Hrb Hus Hvs. unfold mbind, M_bind, bind.
  induction n as [|n IH];
    intros r h upre umid upost vpre vmid vpost Hu Hv Hr Hup Hum Hvp Hvm Hk.
  - cbn. destruct umid; [|cbn in Hum; lia]. destruct vmid; [|cbn in Hvm; lia].
    rewrite (insert_id _ u) by exact Hu. rewrite insert_id by exact Hv.
    now rewrite with_live_id.
  - cbn [for_rows]. unfold mbind, M_bind, bind.
    destruct (Hk r ltac:(lia)) as (Eo & (Eu & Hiu) & (Ev & Hiv)).
    rewrite Eo, Eu, Ev.
    set (urow := take (Z.to_nat rb) (drop (Z.to_nat (r * ustride)) usrc)).
    set (vrow := take (Z.to_nat rb) (drop (Z.to_nat (r * vstride)) vsrc)).
    assert (Hurow : length urow = Z.to_nat rb)
      by (apply plane_row_length; nia).
    assert (Hvrow : length vrow = Z.to_nat rb)
      by (apply plane_row_length; nia).
    assert (Etu : take (Z.to_nat (r * rb)) (upre ++ umid ++ upost) = upre).
    { rewrite take_app_length'; [reflexivity|lia]. }
    assert (Etv : take (Z.to_nat (r * rb)) (vpre ++ vmid ++ vpost) = vpre).
    { rewrite take_app_length'; [reflexivity|lia]. }
    assert (Edu : drop (Z.to_nat (r * rb + rb)) (upre ++ umid ++ upost)
                  = drop (Z.to_nat rb) umid ++ upost).
    { replace (Z.to_nat (r * rb + rb)) with (length upre + Z.to_nat rb)%nat
        by lia.
      rewrite drop_app_add'; [|reflexivity].
      rewrite drop_app_le; [reflexivity|nia]. }
    assert (Edv : drop (Z.to_nat (r * rb + rb)) (vpre ++ vmid ++ vpost)
                  = drop (Z.to_nat rb) vmid ++ vpost).
    { replace (Z.to_nat (r * rb + rb)) with (length vpre + Z.to_nat rb)%nat
        by lia.
      rewrite drop_app_add'; [|reflexivity].
      rewrite drop_app_le; [reflexivity|nia]. }
    rewrite (memcpy_ok h u (upre ++ umid ++ upost)); try nia; try exact Hu.
    2:{ rewrite !length_app. nia. }
    fold urow. rewrite Etu, Edu.
    match goal with |- context [memcpy v _ _ _ _ ?h1] => set (h1' := h1) end.
    rewrite (memcpy_ok h1' v (vpre ++ vmid ++ vpost)); try nia.
    2:{ subst h1'. cbn [live with_live]. now rewrite lookup_insert_ne. }
    2:{ rewrite !length_app. nia. }
    fold vrow. rewrite Etv, Edv.
    match goal with |- for_rows _ _ _ ?h2 = _ => set (h2' := h2) end.
    rewrite (IH (r + 1) h2' (upre ++ urow) (drop (Z.to_nat rb) umid) upost
                (vpre ++ vrow) (drop (Z.to_nat rb) vmid) vpost).
    + subst h2' h1'. rewrite !with_live_twice. cbn [live with_live].
      do 2 f_equal. f_equal. cbn [packed_rows]. unfold plane_row.
      fold urow vrow. rewrite <- !app_assoc.
      apply map_eq. intros q.
      destruct (decide (q = v)) as [->|Hqv];
        [now rewrite !lookup_insert_eq|].
      destruct (decide (q = u)) as [->|Hqu].
      { rewrite !(lookup_insert_ne _ v u) by congruence.
        now rewrite !lookup_insert_eq. }
      now rewrite !lookup_insert_ne by congruence.
    + subst h2' h1'. cbn [live with_live].
      rewrite lookup_insert_ne by congruence. rewrite lookup_insert_eq.
      now rewrite <- !app_assoc.
    + subst h2' h1'. cbn [live with_live]. rewrite lookup_insert_eq.
      now rewrite <- !app_assoc.
    + lia.
    + rewrite length_app. nia.
    + rewrite length_drop. nia.
    + rewrite length_app. nia.
    + rewrite length_drop. nia.
    + intros k Hk'. apply Hk. lia.
Qed.

End Copy.

(** ** What a copy can change *)

Ltac in_list := apply list_elem_of_In; cbn; auto.
Ltac notin_list :=
  let H := fresh in
  intros H; apply list_elem_of_In in H; cbn in H;
  repeat destruct H as [H|H]; solve [congruence | lia | contradiction].

Section Overwrites.
Context {D : Type}.
Implicit Types (h : heap D) (d : bytes) (ps : list Z).

Lemma overwrites_refl ps h : overwrites ps h h.
Proof. repeat split; eauto. Qed.

Lemma overwrites_trans ps h1 h2 h3 :
  overwrites ps h1 h2 -> overwrites ps h2 h3 -> overwrites ps h1 h3.
Proof.
  intros (B1 & A1 & F1 & S1) (B2 & A2 & F2 & S2).
  split; [congruence|]. split; [congruence|]. split.
  - intros q Hq. now rewrite F2, F1.
  - intros q d Hd. destruct (S1 q d Hd) as (d1 & Hd1 & L1).
    destruct (S2 q d1 Hd1) as (d2 & Hd2 & L2). exists d2. split; [done|lia].
Qed.

Lemma write_bytes_length d off bs d' :
  write_bytes d off bs = Some d' -> length d' = length d.
Proof.
  unfold write_bytes.
  destruct ((0 <=? off) && _) eqn:E; [|discriminate]. intros [= <-].
  apply andb_true_iff in E as [E1 E2].
  apply Z.leb_le in E1. apply Z.leb_le in E2.
  rewrite !length_app, length_take, length_drop. lia.
Qed.

Lemma memcpy_overwrites ps dst doff src soff n h u h' :
  dst ∈ ps -> memcpy dst doff src soff n h = Ok (u, h') -> overwrites ps h h'.
Proof.
  intros Hin. unfold memcpy.
  destruct (n =? 0).
  { intros [= _ <-]. unfold overwrites. repeat split; eauto. }
  unfold mbind, M_bind, bind, load.
  destruct (live h !! dst) as [[d| |]|] eqn:Hd; try discriminate.
  destruct src as [s|]; [|discriminate].
  destruct (read_bytes s soff n) as [bs|]; [|discriminate].
  destruct (write_bytes d doff bs) as [d'|] eqn:Hw; [|discriminate].
  unfold store. rewrite Hd. intros [= _ <-].
  unfold overwrites. cbn [live brk allocs].
  split; [reflexivity|]. split; [reflexivity|]. split.
  - intros q Hq. apply lookup_insert_ne. intros ->. contradiction.
  - intros q d0 Hq. destruct (decide (q = dst)) as [->|Hne].
    + rewrite lookup_insert_eq. rewrite Hd in Hq. injection Hq as <-.
      exists d'. split; [reflexivity|]. eapply write_bytes_length, Hw.
    + rewrite lookup_insert_ne by congruence. eauto.
Qed.

Lemma for_rows_overwrites ps (body : Z -> M (heap D) unit) :
  (forall r h u h', body r h = Ok (u, h') -> overwrites ps h h') ->
  forall n r h u h', for_rows n r body h = Ok (u, h') -> overwrites ps h h'.
Proof.
  intros Hbody. induction n as [|n IH]; intros r h u h'; cbn [for_rows].
  - intros [= _ <-]. apply overwrites_refl.
  - unfold mbind, M_bind, bind.
    destruct (body r h) as [[[] h1]| |] eqn:E; try discriminate.
    intros Hrest. eapply overwrites_trans; [eapply Hbody, E|eapply IH, Hrest].
Qed.

Lemma fill_frame_inv g h sizes y u v f h4 p h' :
  allocated4 h sizes (y, u, v, f) h4 ->
  y <> NULL -> u <> NULL -> v <> NULL -> f <> NULL ->
  fill_frame g y u v f h4 = Ok (p, h') ->
  p = f /\ heap_wf h' /\ allocs h' = allocs h4 /\
  live h' !! f = Some (Frame {|
    width := g_width g;
    height := g_height g;
    chromaFormat := g_chromaFormat g;
    bitDepth := g_bitDepth g;
    yPtr := token_of_ptr y;
    uPtr := token_of_ptr u;
    vPtr := token_of_ptr v;
    ySize := g_ySize g;
    uvSize := g_uvSize g |}) /\
  (exists dy, live h' !! y = Some (Bytes dy)
              /\ Z.of_nat (length dy) = Z.max 0 sizes.1.1.1) /\
  (exists du, live h' !! u = Some (Bytes du)
              /\ Z.of_nat (length du) = Z.max 0 sizes.1.1.2) /\
  (exists dv, live h' !! v = Some (Bytes dv)
              /\ Z.of_nat (length dv) = Z.max 0 sizes.1.2) /\
  (forall q, q <> y -> q <> u -> q <> v -> q <> f ->
     live h' !! q = live h !! q).
Proof.
  intros A Hy Hu Hv Hf. destruct A as [W Al Fr Fs Rg Or Y U V F].
  cbn [fst snd] in *.
  destruct (Y Hy) as (jy & Ly). destruct (U Hu) as (ju & Lu).
  destruct (V Hv) as (jv & Lv). destruct (F Hf) as (jf & Lf).
  pose proof (Or y f ltac:(auto) Hy Hf). pose proof (Or u f ltac:(auto) Hu Hf).
  pose proof (Or v f ltac:(auto) Hv Hf). pose proof (Or y u ltac:(auto) Hy Hu).
  pose proof (Or y v ltac:(auto) Hy Hv). pose proof (Or u v ltac:(auto) Hu Hv).
  unfold fill_frame. unfold mbind at 1, M_bind at 1, bind at 1.
  destruct (for_rows _ 0 _ h4) as [[[] h5]| |] eqn:E1; try discriminate.
  unfold mbind at 1, M_bind at 1, bind at 1.
  destruct (for_rows _ 0 _ h5) as [[[] h6]| |] eqn:E2; try discriminate.
  assert (O1 : overwrites [y; u; v] h4 h5).
  { eapply for_rows_overwrites; [|exact E1]. intros r0 h0 u0 h0'.
    apply memcpy_overwrites. in_list. }
  assert (O2 : overwrites [y; u; v] h5 h6).
  { eapply for_rows_overwrites; [|exact E2]. intros r0 h0 u0 h0'.
    unfold mbind, M_bind, bind.
    destruct (memcpy u _ _ _ _ h0) as [[[] h0'']| |] eqn:Eu; try discriminate.
    intros Ev. eapply overwrites_trans.
    - eapply memcpy_overwrites; [|exact Eu]. in_list.
    - eapply memcpy_overwrites; [|exact Ev]. in_list. }
  pose proof (overwrites_trans _ _ _ _ O1 O2) as (B & Al' & Fr' & Sh).
  assert (Hf6 : live h6 !! f = Some (Bytes (fresh_block jf sizes.2))).
  { rewrite Fr'; [exact Lf|]. notin_list. }
  unfold mbind, M_bind, bind, store. rewrite Hf6.
  unfold mret, M_ret, ret. intros [= <- <-]. cbn [live brk allocs].
  split; [reflexivity|]. split.
  { destruct W as [Wb Wl]. split; cbn; [lia|]. intros q [o Hq].
    rewrite B. apply Wl.
    destruct (decide (q = f)) as [->|Hne]; [rewrite Lf; eauto|].
    rewrite lookup_insert_ne in Hq by congruence.
    destruct (decide (q ∈ [y; u; v])) as [Hin|Hnin].
    - apply list_elem_of_In in Hin. cbn in Hin.
      destruct Hin as [<-|[<-|[<-|[]]]]; eauto.
    - rewrite Fr' in Hq by exact Hnin. eauto. }
  split; [exact Al'|].
  split; [apply lookup_insert_eq|].
  split; [|split; [|split]].
  - destruct (Sh y _ Ly) as (dy & Hdy & Ldy). exists dy.
    rewrite lookup_insert_ne by lia. split; [exact Hdy|].
    rewrite Ldy. apply fresh_block_length.
  - destruct (Sh u _ Lu) as (du & Hdu & Ldu). exists du.
    rewrite lookup_insert_ne by lia. split; [exact Hdu|].
    rewrite Ldu. apply fresh_block_length.
  - destruct (Sh v _ Lv) as (dv & Hdv & Ldv). exists dv.
    rewrite lookup_insert_ne by lia. split; [exact Hdv|].
    rewrite Ldv. apply fresh_block_length.
  - intros q ? ? ? ?. rewrite lookup_insert_ne by congruence.
    rewrite Fr' by notin_list. now apply Fr.
Qed.

End Overwrites.

(** ** Extraction: the copy path *)

Section Fill.
Context {D : Type}.
Implicit Types (h : heap D) (g : geometry).

Lemma geometry_ok_sizes g :
  geometry_ok g ->
  g_ySize g = g_width g * g_height g * g_bytesPerSample g /\
  g_uvSize g = g_chromaW g * g_chromaH g * g_bytesPerSample g /\
  g_yRowBytes g = g_width g * g_bytesPerSample g /\
  g_uvRowBytes g = g_chromaW g * g_bytesPerSample g.
Proof.
  intros [].
  unfold g_ySize, g_uvSize, g_yRowBytes, g_uvRowBytes.
  rewrite (mul_small (g_width g) (g_height g)) by nia.
  rewrite (mul_small (g_chromaW g) (g_chromaH g)) by nia.
  rewrite !mul_small by nia. auto.
Qed.

Lemma uwrap_nonneg_small z : 0 <= z <= Int32.INT_MAX -> Int32.uwrap z = z.
Proof.
  intros. apply uwrap_small. unfold Int32.INT_MAX, Int32.modulus in *. lia.
Qed.

Lemma fill_frame_ok g h y u v f h4 ys us vs :
  geometry_ok g ->
  allocated4 h
    (Int32.uwrap (g_ySize g), Int32.uwrap (g_uvSize g),
     Int32.uwrap (g_uvSize g), sizeof_DecodedFrame)
    (y, u, v, f) h4 ->
  y <> NULL -> u <> NULL -> v <> NULL -> f <> NULL ->
  g_ySrc g = Some ys -> g_uSrc g = Some us -> g_vSrc g = Some vs ->
  exists h',
    fill_frame g y u v f h4 = Ok (f, h') /\
    live h' !! y = Some (Bytes (packed_plane ys (g_yStride g)
                     (g_width g * g_bytesPerSample g) (g_height g))) /\
    live h' !! u = Some (Bytes (packed_plane us (g_uStride g)
                     (g_chromaW g * g_bytesPerSample g) (g_chromaH g))) /\
    live h' !! v = Some (Bytes (packed_plane vs (g_vStride g)
                     (g_chromaW g * g_bytesPerSample g) (g_chromaH g))).
Proof.
  intros G A Hy Hu Hv Hf Ey Eu Ev.
  destruct (geometry_ok_sizes g G) as (Sy & Suv & Ry & Ruv).
  pose proof G as [].
  destruct A as [W Al Fr Fs Rg Or Y U V F]. cbn [fst snd] in *.
  destruct (Y Hy) as (jy & Ly). destruct (U Hu) as (ju & Lu).
  destruct (V Hv) as (jv & Lv). destruct (F Hf) as (jf & Lf).
  pose proof (Or y f ltac:(auto) Hy Hf). pose proof (Or u f ltac:(auto) Hu Hf).
  pose proof (Or v f ltac:(auto) Hv Hf). pose proof (Or y u ltac:(auto) Hy Hu).
  pose proof (Or y v ltac:(auto) Hy Hv). pose proof (Or u v ltac:(auto) Hu Hv).
  destruct ok_y0 as (ys' & Eys & Hys & Lys & Bys). rewrite Ey in Eys.
  injection Eys as <-.
  destruct ok_u0 as (us' & Eus & Hus & Lus & Bus). rewrite Eu in Eus.
  injection Eus as <-.
  destruct ok_v0 as (vs' & Evs & Hvs & Lvs & Bvs). rewrite Ev in Evs.
  injection Evs as <-.
  set (rbY := g_width g * g_bytesPerSample g) in *.
  set (rbC := g_chromaW g * g_bytesPerSample g) in *.
  assert (HrbY : 0 <= rbY) by (subst rbY; nia).
  assert (HrbC : 0 <= rbC) by (subst rbC; nia).
  rewrite Sy, !uwrap_nonneg_small in Ly by nia.
  rewrite Suv, !uwrap_nonneg_small in Lu by nia.
  rewrite Suv, !uwrap_nonneg_small in Lv by nia.
  unfold fill_frame. rewrite Ry, Ruv, Ey, Eu, Ev.
  rewrite !uwrap_nonneg_small by (subst rbY rbC; nia).
  rewrite !ok_count0 by lia.
  unfold mbind at 1, M_bind at 1, bind at 1.
  rewrite (copy_rows_ok y ys (g_yStride g) rbY (g_offset g) HrbY ltac:(lia)
             (Z.to_nat (g_height g)) 0 h4 []
             (fresh_block jy (g_width g * g_height g * g_bytesPerSample g)) []).
  2:{ now rewrite app_nil_r. }
  2:{ lia. }
  2:{ reflexivity. }
  2:{ rewrite fresh_block_length. subst rbY. nia. }
  2:{ intros k Hk. specialize (Bys k ltac:(lia)).
      rewrite !ok_offset0 by nia. auto. }
  cbn [app]. rewrite app_nil_r.
  fold (packed_plane ys (g_yStride g) rbY (g_height g)).
  set (h5 := with_live h4 _).
  unfold mbind at 1, M_bind at 1, bind at 1.
  rewrite (copy_rows2_ok u v us vs (g_uStride g) (g_vStride g) rbC (g_offset g)
             ltac:(lia) HrbC ltac:(lia) ltac:(lia)
             (Z.to_nat (g_chromaH g)) 0 h5 []
             (fresh_block ju (g_chromaW g * g_chromaH g * g_bytesPerSample g)) []
             []
             (fresh_block jv (g_chromaW g * g_chromaH g * g_bytesPerSample g)) []).
  2:{ subst h5. cbn [live with_live]. rewrite lookup_insert_ne by lia.
      now rewrite app_nil_r. }
  2:{ subst h5. cbn [live with_live]. rewrite lookup_insert_ne by lia.
      now rewrite app_nil_r. }
  2:{ lia. }
  2:{ reflexivity. }
  2:{ rewrite fresh_block_length. subst rbC. nia. }
  2:{ reflexivity. }
  2:{ rewrite fresh_block_length. subst rbC. nia. }
  2:{ intros k Hk. specialize (Bus k ltac:(lia)). specialize (Bvs k ltac:(lia)).
      rewrite !ok_offset0 by nia. auto. }
  cbn [app]. rewrite !app_nil_r.
  fold (packed_plane us (g_uStride g) rbC (g_chromaH g)).
  fold (packed_plane vs (g_vStride g) rbC (g_chromaH g)).
  unfold mbind, M_bind, bind, store. subst h5. cbn [live with_live].
  rewrite !lookup_insert_ne by lia. rewrite Lf.
  unfold mret, M_ret, ret. eexists. split; [reflexivity|].
  cbn [live with_live].
  split; [|split].
  - rewrite !lookup_insert_ne by lia. apply lookup_insert_eq.
  - rewrite (lookup_insert_ne _ f) by lia. rewrite (lookup_insert_ne _ v) by lia.
    apply lookup_insert_eq.
  - rewrite (lookup_insert_ne _ f) by lia. apply lookup_insert_eq.
Qed.

End Fill.

(** ** Extraction as a whole *)

Section Extract.
Context {D : Type}.
Implicit Types (h : heap D) (g : geometry).

Lemma extract_planes_released g h y u v f h4 :
  heap_wf h -> alloc4 g h = Ok ((y, u, v, f), h4) ->
  y = NULL \/ u = NULL \/ v = NULL \/ f = NULL ->
  exists h', extract_planes g h = Ok (NULL, h') /\
             live h' = live h /\ allocs h' = allocs h4 /\ heap_wf h'.
Proof.
  intros W A Hn. rewrite extract_planes_unfold, A.
  assert (E : (y =? NULL) || (u =? NULL) || (v =? NULL) || (f =? NULL) = true).
  { rewrite !orb_true_iff, !Z.eqb_eq. tauto. }
  rewrite E.
  destruct (release4_ok h _ y u v f h4 (alloc4_inv g h y u v f h4 W A))
    as (h' & R & L & _ & Al & W').
  eauto.
Qed.

Lemma extract_planes_filled g h y u v f h4 p h' :
  heap_wf h -> alloc4 g h = Ok ((y, u, v, f), h4) ->
  y <> NULL -> u <> NULL -> v <> NULL -> f <> NULL ->
  extract_planes g h = Ok (p, h') ->
  p = f /\ heap_wf h' /\ allocs h' = allocs h4 /\ populated g h h' p /\
  live h' !! p = Some (Frame (frame_of g y u v)).
Proof.
  intros W A Hy Hu Hv Hf. rewrite extract_planes_unfold, A.
  assert (E : (y =? NULL) || (u =? NULL) || (v =? NULL) || (f =? NULL) = false).
  { rewrite !orb_false_iff, !Z.eqb_neq. tauto. }
  rewrite E. intros Hfill.
  pose proof (alloc4_inv g h y u v f h4 W A) as A4.
  destruct (fill_frame_inv g h _ y u v f h4 p h' A4 Hy Hu Hv Hf Hfill)
    as (-> & W' & Al & Lf & Py & Pu & Pv & Fr).
  destruct A4 as [_ _ _ Fs Rg Or _ _ _ _]. cbn [fst snd] in *.
  pose proof (Or y f ltac:(auto) Hy Hf). pose proof (Or u f ltac:(auto) Hu Hf).
  pose proof (Or v f ltac:(auto) Hv Hf). pose proof (Or y u ltac:(auto) Hy Hu).
  pose proof (Or y v ltac:(auto) Hy Hv). pose proof (Or u v ltac:(auto) Hu Hv).
  pose proof (Int32.uwrap_range_nonneg (g_ySize g)) as Ny.
  pose proof (Int32.uwrap_range_nonneg (g_uvSize g)) as Nuv.
  split; [reflexivity|]. split; [exact W'|]. split; [exact Al|].
  split; [|exact Lf].
  exists y, u, v. split; [exact Lf|]. split.
  { repeat (constructor; [notin_list|]). constructor. }
  split.
  { intros q Hq. apply list_elem_of_In in Hq. cbn in Hq.
    assert (Hq' : q = y \/ q = u \/ q = v \/ q = f)
      by (destruct Hq as [<- | [<- | [<- | [<- | []]]]]; auto).
    split; [|now apply Fs].
    destruct (Rg q Hq') as [->|?]; [|assumption]. unfold NULL in *.
    destruct Hq' as [<- | [<- | [<- | <-]]]; congruence. }
  split; [destruct Py as (d & ? & ?); exists d; split; [done|lia]|].
  split; [destruct Pu as (d & ? & ?); exists d; split; [done|lia]|].
  split; [destruct Pv as (d & ? & ?); exists d; split; [done|lia]|].
  intros q Hq. apply Fr; intros ->; apply Hq; in_list.
Qed.

End Extract.

(** ** The packed plane, row by row *)




Section Copied.
Context {D : Type}.
Implicit Types (h : heap D) (g : geometry).

Lemma extract_planes_total g h :
  heap_wf h -> geometry_ok g ->
  exists p h', extract_planes g h = Ok (p, h').
Proof.
  intros W G. destruct (alloc4_total (D:=D) g h) as ([[[y u] v] f] & h4 & A).
  destruct (decide (y = NULL \/ u = NULL \/ v = NULL \/ f = NULL)) as [Hn|Hn].
  - destruct (extract_planes_released g h y u v f h4 W A Hn) as (h' & E & _).
    eauto.
  - pose proof G as [].
    destruct ok_y0 as (ys & Ey & _), ok_u0 as (us & Eu & _),
             ok_v0 as (vs & Ev & _).
    destruct (fill_frame_ok g h y u v f h4 ys us vs G
                (alloc4_inv g h y u v f h4 W A))
      as (h' & E & _); try tauto.
    exists f, h'. rewrite extract_planes_unfold, A.
    assert (Eb : (y =? NULL) || (u =? NULL) || (v =? NULL) || (f =? NULL)
                 = false).
    { rewrite !orb_false_iff, !Z.eqb_neq. tauto. }
    now rewrite Eb.
Qed.


End Copied.

(** ** Chroma geometry of the three extractors *)

Lemma av1_chroma_dims_spec w h s :
  0 <= w < Int32.INT_MAX -> 0 <= h < Int32.INT_MAX ->
  Av1.chroma_dims (av1_layout s) w h = spec_chroma_dims w h s.
Proof.
  intros Hw Hh. destruct s; cbn; now rewrite ?half_up_small.
Qed.

Lemma hevc_chroma_dims_spec w h s :
  0 <= w < Int32.INT_MAX -> 0 <= h < Int32.INT_MAX ->
  Hevc.chroma_dims (hevc_chroma s) w h = spec_chroma_dims w h s.
Proof.
  intros Hw Hh. destruct s; cbn; now rewrite ?half_up_small.
Qed.

Lemma vp9_chroma_dims_spec w h s :
  0 <= w < Int32.INT_MAX -> 0 <= h < Int32.INT_MAX ->
  Vp9.chroma_dims (subsampling_code s) w h = spec_chroma_dims w h s.
Proof.
  intros Hw Hh. destruct s; cbn; now rewrite ?half_up_small.
Qed.

Lemma vpx_fmt_to_chroma_code fmt :
  exists s, Vp9.vpx_fmt_to_chroma fmt = subsampling_code s.
Proof.
  unfold Vp9.vpx_fmt_to_chroma.
  destruct (_ || _); [now exists S444|].
  destruct (_ || _); [now exists S422|now exists S420].
Qed.

Lemma chroma_geometry_spec w h s :
  0 <= w < Int32.INT_MAX -> 0 <= h < Int32.INT_MAX ->
  (forall pic, Av1.p_w pic = w -> Av1.p_h pic = h ->
     Av1.p_layout pic = av1_layout s ->
     (g_chromaW (av1_geometry pic), g_chromaH (av1_geometry pic))
     = spec_chroma_dims w h s) /\
  (forall img, Hevc.de265_get_image_width img 0 = w ->
     Hevc.de265_get_image_height img 0 = h ->
     Hevc.de265_get_chroma_format img = hevc_chroma s ->
     (g_chromaW (hevc_geometry img), g_chromaH (hevc_geometry img))
     = spec_chroma_dims w h s) /\
  (forall img, Vp9.d_w img = w -> Vp9.d_h img = h ->
     Vp9.vpx_fmt_to_chroma (Vp9.fmt img) = subsampling_code s ->
     (g_chromaW (vp9_geometry img), g_chromaH (vp9_geometry img))
     = spec_chroma_dims w h s).
Proof.
  intros Hw Hh. split; [|split].
  - intros pic <- <- El. unfold av1_geometry. geometry_fields.
    rewrite El, av1_chroma_dims_spec by assumption.
    now destruct (spec_chroma_dims _ _ _).
  - intros img <- <- El. unfold hevc_geometry. geometry_fields.
    rewrite El, hevc_chroma_dims_spec by assumption.
    now destruct (spec_chroma_dims _ _ _).
  - intros img <- <- El. unfold vp9_geometry. geometry_fields.
    assert (Ew : Int32.wrap (Vp9.d_w img) = Vp9.d_w img).
    { apply wrap_small. unfold Int32.in_range, Int32.INT_MIN. lia. }
    assert (Eh : Int32.wrap (Vp9.d_h img) = Vp9.d_h img).
    { apply wrap_small. unfold Int32.in_range, Int32.INT_MIN. lia. }
    rewrite Ew, Eh, El, vp9_chroma_dims_spec by assumption.
    now destruct (spec_chroma_dims _ _ _).
Qed.


(** Outside the three subsamplings: a monochrome layout is labelled 420 by
    [layout_to_format] and [chroma_to_format] while [chroma_dims] keeps the
    luma dimensions for it. *)
Remark monochrome_layouts w h :
  Av1.layout_to_format Av1.DAV1D_PIXEL_LAYOUT_I400 = 420 /\
  Av1.chroma_dims Av1.DAV1D_PIXEL_LAYOUT_I400 w h = (w, h) /\
  Hevc.chroma_to_format Hevc.de265_chroma_mono = 420 /\
  Hevc.chroma_dims Hevc.de265_chroma_mono w h = (w, h).
Proof. repeat split. Qed.

(** ** Recorded sizes *)

Lemma spec_bytes_per_sample_range depth :
  1 <= spec_bytes_per_sample depth <= 2.
Proof. unfold spec_bytes_per_sample. destruct (8 <? depth); lia. Qed.

Lemma spec_chroma_dims_bounds w h s :
  0 <= w -> 0 <= h ->
  0 <= (spec_chroma_dims w h s).1 <= w /\ 0 <= (spec_chroma_dims w h s).2 <= h.
Proof.
  intros Hw Hh. pose proof (ceil_half_bounds w Hw).
  pose proof (ceil_half_bounds h Hh). destruct s; cbn; lia.
Qed.

Lemma extract_planes_nonnull {D} g (h : heap D) p h' :
  heap_wf h -> extract_planes g h = Ok (p, h') -> p <> NULL ->
  populated g h h' p /\ heap_wf h'.
Proof.
  intros W E Hp.
  destruct (alloc4_total (D:=D) g h) as ([[[y u] v] f] & h4 & A).
  destruct (decide (y = NULL \/ u = NULL \/ v = NULL \/ f = NULL)) as [Hn|Hn].
  { destruct (extract_planes_released g h y u v f h4 W A Hn) as (h0 & E0 & _).
    rewrite E0 in E. congruence. }
  destruct (extract_planes_filled g h y u v f h4 p h' W A) as (_ & ? & _ & ? & _);
    try tauto.
Qed.



(** ** Readable pictures *)

Lemma geometry_ok_of_picture g w h depth s :
  g_width g = w -> g_height g = h ->
  (g_chromaW g, g_chromaH g) = spec_chroma_dims w h s ->
  g_bytesPerSample g = spec_bytes_per_sample depth ->
  (forall r x, 0 <= r -> 0 <= x -> r * x <= Int32.INT_MAX ->
               g_offset g r x = r * x) ->
  (forall n, 0 <= n <= Int32.INT_MAX -> g_count g n = Z.to_nat n) ->
  picture_ok w h depth s (g_ySrc g) (g_uSrc g) (g_vSrc g)
             (g_yStride g) (g_uStride g) (g_vStride g) ->
  geometry_ok g.
Proof.
  intros Ew Eh Ec Eb Ho Hc ((Hw & Hh & Hsz) & Py & Pu & Pv).
  pose proof (spec_bytes_per_sample_range depth) as Hb.
  pose proof (spec_chroma_dims_bounds w h s ltac:(lia) ltac:(lia)) as [Hcw Hch].
  assert (Ecw : g_chromaW g = (spec_chroma_dims w h s).1) by now rewrite <- Ec.
  assert (Ech : g_chromaH g = (spec_chroma_dims w h s).2) by now rewrite <- Ec.
  set (cw := (spec_chroma_dims w h s).1) in *.
  set (ch := (spec_chroma_dims w h s).2) in *.
  set (bps := spec_bytes_per_sample depth) in *.
  assert (Hwh : w * h <= w * h * bps) by nia.
  assert (Hcc : cw * ch <= w * h) by (apply Z.mul_le_mono_nonneg; lia).
  assert (Hcb : cw * ch * bps <= w * h * bps)
    by (apply Z.mul_le_mono_nonneg_r; lia).
  assert (Hwb : w * bps <= w * h * bps) by nia.
  assert (Hcwb : cw * bps <= w * bps) by (apply Z.mul_le_mono_nonneg_r; lia).
  split; rewrite ?Ew, ?Eh, ?Ecw, ?Ech, ?Eb; try assumption; try lia.
Qed.

Lemma av1_geometry_ok pic s :
  Av1.p_layout pic = av1_layout s ->
  picture_ok (Av1.p_w pic) (Av1.p_h pic) (Av1.p_bpc pic) s
             (Av1.data0 pic) (Av1.data1 pic) (Av1.data2 pic)
             (Av1.stride0 pic) (Av1.stride1 pic) (Av1.stride1 pic) ->
  geometry_ok (av1_geometry pic).
Proof.
  intros El P. pose proof P as ((Hw & Hh & _) & _).
  apply (geometry_ok_of_picture _ (Av1.p_w pic) (Av1.p_h pic) (Av1.p_bpc pic) s);
    try reflexivity; try exact P.
  - now apply (chroma_geometry_spec (Av1.p_w pic) (Av1.p_h pic) s ltac:(lia) ltac:(lia)).
  - intros. now apply mul_small.
Qed.

Lemma hevc_geometry_ok img s :
  Hevc.de265_get_chroma_format img = hevc_chroma s ->
  picture_ok (Hevc.de265_get_image_width img 0)
             (Hevc.de265_get_image_height img 0)
             (Hevc.de265_get_bits_per_pixel img 0) s
             (Hevc.de265_get_image_plane img 0).1
             (Hevc.de265_get_image_plane img 1).1
             (Hevc.de265_get_image_plane img 2).1
             (Hevc.de265_get_image_plane img 0).2
             (Hevc.de265_get_image_plane img 1).2
             (Hevc.de265_get_image_plane img 2).2 ->
  geometry_ok (hevc_geometry img).
Proof.
  intros El P. pose proof P as ((Hw & Hh & _) & _).
  apply (geometry_ok_of_picture _ (Hevc.de265_get_image_width img 0)
           (Hevc.de265_get_image_height img 0)
           (Hevc.de265_get_bits_per_pixel img 0) s);
    try reflexivity; try exact P.
  - now apply (chroma_geometry_spec (Hevc.de265_get_image_width img 0)
                 (Hevc.de265_get_image_height img 0) s
                 ltac:(lia) ltac:(lia)).
  - intros. now apply mul_small.
Qed.

Lemma vp9_geometry_ok img s :
  Vp9.vpx_fmt_to_chroma (Vp9.fmt img) = subsampling_code s ->
  picture_ok (Vp9.d_w img) (Vp9.d_h img) (Vp9.vpx_fmt_bpc (Vp9.fmt img)) s
             (Vp9.planes img Vp9.VPX_PLANE_Y)
             (Vp9.planes img Vp9.VPX_PLANE_U)
             (Vp9.planes img Vp9.VPX_PLANE_V)
             (Vp9.stride img Vp9.VPX_PLANE_Y)
             (Vp9.stride img Vp9.VPX_PLANE_U)
             (Vp9.stride img Vp9.VPX_PLANE_V) ->
  geometry_ok (vp9_geometry img).
Proof.
  intros El P. pose proof P as ((Hw & Hh & _) & _).
  apply (geometry_ok_of_picture _ (Vp9.d_w img) (Vp9.d_h img)
           (Vp9.vpx_fmt_bpc (Vp9.fmt img)) s);
    try reflexivity; try exact P.
  - unfold vp9_geometry. geometry_fields.
    apply wrap_small. unfold Int32.in_range, Int32.INT_MIN. lia.
  - unfold vp9_geometry. geometry_fields.
    apply wrap_small. unfold Int32.in_range, Int32.INT_MIN. lia.
  - now apply (chroma_geometry_spec (Vp9.d_w img) (Vp9.d_h img) s
                 ltac:(lia) ltac:(lia)).
  - intros. now apply umul_small.
  - intros n Hn. unfold vp9_geometry. geometry_fields.
    now rewrite uwrap_nonneg_small.
Qed.

(** ** Row-by-row copy of the three extractors *)





(** ** Chroma dimensions

    The subsampling of a picture is what the library's picture descriptor
    reports: dav1d's pixel layout, libde265's chroma format, libvpx's image
    format. *)


(** ** All four allocations or none *)

Lemma extract_planes_all_or_nothing {D} g (readable : Prop) (hp : heap D) :
  heap_wf hp -> (readable -> geometry_ok g) ->
  all_or_nothing g readable (extract_planes g) hp.
Proof.
  intros W R.
  destruct (alloc4_total (D:=D) g hp) as ([[[y u] v] f] & h4 & A).
  exists y, u, v, f, h4. split; [exact A|]. split; [|split].
  - intros Hn.
    destruct (extract_planes_released g hp y u v f h4 W A Hn)
      as (hp' & E & L & Al & _). eauto.
  - intros (Hy & Hu & Hv & Hf). split.
    + intros p hp' E.
      destruct (extract_planes_filled g hp y u v f h4 p hp' W A Hy Hu Hv Hf E)
        as (-> & _ & _ & P & _). auto.
    + intros Hr. destruct (extract_planes_total g hp W (R Hr)) as (p & hp' & E).
      destruct (extract_planes_filled g hp y u v f h4 p hp' W A Hy Hu Hv Hf E)
        as (-> & _). eauto.
  - intros p hp' E.
    destruct (decide (y = NULL \/ u = NULL \/ v = NULL \/ f = NULL)) as [Hn|Hn].
    + destruct (extract_planes_released g hp y u v f h4 W A Hn)
        as (h0 & E0 & L & _). rewrite E0 in E. injection E as <- <-. auto.
    + assert (Hy : y <> NULL) by tauto. assert (Hu : u <> NULL) by tauto.
      assert (Hv : v <> NULL) by tauto. assert (Hf : f <> NULL) by tauto.
      destruct (extract_planes_filled g hp y u v f h4 p hp' W A Hy Hu Hv Hf E)
        as (-> & _ & _ & P & _).
      right. split; [exact Hf|exact P].
Qed.

(** C4: in each extractor, a picture that does not pass the NULL guards
    yields NULL with the heap untouched; otherwise, with the four
    allocations (Y, U, V, record) in that order: if any of them fails, the
    extraction returns NULL and every block that was allocated is freed
    again (the heap holds exactly the blocks it held before); if all four
    succeed, whatever is returned is the record block, fully populated, and
    it is returned whenever the picture is readable.  A returned pointer is
    therefore NULL or a fully populated record, never a partial one. *)
Theorem C4_all_or_nothing :
  (forall (hp : heap Av1.Av1Decoder),
     heap_wf hp ->
     Av1.extract_picture None hp = Ok (NULL, hp) /\
     forall pic,
       (is_null (Av1.data0 pic) = true ->
        Av1.extract_picture (Some pic) hp = Ok (NULL, hp)) /\
       (is_null (Av1.data0 pic) = false ->
        all_or_nothing (av1_geometry pic)
          (exists s, Av1.p_layout pic = av1_layout s /\
             picture_ok (Av1.p_w pic) (Av1.p_h pic) (Av1.p_bpc pic) s
               (Av1.data0 pic) (Av1.data1 pic) (Av1.data2 pic)
               (Av1.stride0 pic) (Av1.stride1 pic) (Av1.stride1 pic))
          (Av1.extract_picture (Some pic)) hp)) /\
  (forall (hp : heap Hevc.HevcDecoder),
     heap_wf hp ->
     Hevc.extract_picture None hp = Ok (NULL, hp) /\
     forall img,
       let planes_null :=
         is_null (Hevc.de265_get_image_plane img 0).1
         || is_null (Hevc.de265_get_image_plane img 1).1
         || is_null (Hevc.de265_get_image_plane img 2).1 in
       (planes_null = true ->
        Hevc.extract_picture (Some img) hp = Ok (NULL, hp)) /\
       (planes_null = false ->
        all_or_nothing (hevc_geometry img)
          (exists s, Hevc.de265_get_chroma_format img = hevc_chroma s /\
             picture_ok (Hevc.de265_get_image_width img 0)
               (Hevc.de265_get_image_height img 0)
               (Hevc.de265_get_bits_per_pixel img 0) s
               (Hevc.de265_get_image_plane img 0).1
               (Hevc.de265_get_image_plane img 1).1
               (Hevc.de265_get_image_plane img 2).1
               (Hevc.de265_get_image_plane img 0).2
               (Hevc.de265_get_image_plane img 1).2
               (Hevc.de265_get_image_plane img 2).2)
          (Hevc.extract_picture (Some img)) hp)) /\
  (forall (hp : heap Vp9.Vp9Decoder),
     heap_wf hp ->
     Vp9.extract_image None hp = Ok (NULL, hp) /\
     forall img,
       all_or_nothing (vp9_geometry img)
         (exists s, Vp9.vpx_fmt_to_chroma (Vp9.fmt img) = subsampling_code s /\
            picture_ok (Vp9.d_w img) (Vp9.d_h img)
              (Vp9.vpx_fmt_bpc (Vp9.fmt img)) s
              (Vp9.planes img Vp9.VPX_PLANE_Y)
              (Vp9.planes img Vp9.VPX_PLANE_U)
              (Vp9.planes img Vp9.VPX_PLANE_V)
              (Vp9.stride img Vp9.VPX_PLANE_Y)
              (Vp9.stride img Vp9.VPX_PLANE_U)
              (Vp9.stride img Vp9.VPX_PLANE_V))
         (Vp9.extract_image (Some img)) hp).
Proof.
  split; [|split].
  - intros hp W. split; [reflexivity|]. intros pic. split.
    + intros Hn. now rewrite av1_extract_picture_eq, Hn.
    + intros Hn. rewrite av1_extract_picture_eq, Hn.
      apply extract_planes_all_or_nothing; [exact W|].
      intros (s & El & P). now apply (av1_geometry_ok pic s).
  - intros hp W. split; [reflexivity|]. intros img planes_null. split.
    + intros Hn. rewrite hevc_extract_picture_eq.
      change (is_null (g_ySrc (hevc_geometry img))
              || is_null (g_uSrc (hevc_geometry img))
              || is_null (g_vSrc (hevc_geometry img))) with planes_null.
      now rewrite Hn.
    + intros Hn. rewrite hevc_extract_picture_eq.
      change (is_null (g_ySrc (hevc_geometry img))
              || is_null (g_uSrc (hevc_geometry img))
              || is_null (g_vSrc (hevc_geometry img))) with planes_null.
      rewrite Hn.
      apply extract_planes_all_or_nothing; [exact W|].
      intros (s & El & P). now apply (hevc_geometry_ok img s).
  - intros hp W. split; [reflexivity|]. intros img.
    rewrite vp9_extract_image_eq.
    apply extract_planes_all_or_nothing; [exact W|].
    intros (s & El & P). now apply (vp9_geometry_ok img s).
Qed.

(** ** The handle protocol *)

Section Protocol.
Context {D L : Type}.
Implicit Types (w : world D L).

Lemma in_heap_load_session w p d :
  live (mem w) !! p = Some (Session d) ->
  in_heap (load_session p) w = Ok (d, w).
Proof.
  intros Hp. unfold in_heap, load_session, mbind, M_bind, bind, load.
  rewrite Hp. now destruct w.
Qed.

Lemma in_heap_load_dangling {A} (m : object D -> M (heap D) A) w p :
  live (mem w) !! p = None ->
  in_heap (o ← load p; m o) w = Undefined.
Proof.
  intros Hp. unfold in_heap, mbind, M_bind, bind, load. now rewrite Hp.
Qed.

End Protocol.

Lemma ptr_of_token_null : ptr_of_token 0 = NULL.
Proof. reflexivity. Qed.

(** C7: on a live decoder handle, [decode] with a NULL data pointer or a
    size that is zero or negative returns the empty token 0 and leaves the
    whole world, the wrapper's heap and the library's state, as it was; no
    library call is made (for AV1, whatever the fuel of the resend loop). *)
Theorem C7_decode_rejects_empty_input
    (handle : Z) (data : option bytes) (size is_keyframe : Z) :
  data = None \/ size <= 0 ->
  (forall L (H : Av1.Dav1d L) fuel (w : world Av1.Av1Decoder L) d,
     live (mem w) !! ptr_of_token handle = Some (Session d) ->
     Av1.av1_decode fuel handle data size is_keyframe w = Ok (0, w)) /\
  (forall L (H : Hevc.De265 L) (w : world Hevc.HevcDecoder L) d,
     live (mem w) !! ptr_of_token handle = Some (Session d) ->
     Hevc.hevc_decode handle data size is_keyframe w = Ok (0, w)) /\
  (forall L (H : Vp9.Vpx L) (w : world Vp9.Vp9Decoder L) d,
     live (mem w) !! ptr_of_token handle = Some (Session d) ->
     Vp9.vp9_decode handle data size is_keyframe w = Ok (0, w)).
Proof.
  intros Hin.
  assert (Hg : is_null data || (size <=? 0) = true).
  { destruct Hin as [->|Hs]; [reflexivity|].
    apply orb_true_iff. right. now apply Z.leb_le. }
  split; [|split].
  - intros L H fuel w d Hd. unfold Av1.av1_decode.
    destruct (ptr_of_token handle =? NULL); [reflexivity|].
    unfold mbind at 1, M_bind at 1, bind at 1.
    rewrite (in_heap_load_session w _ d Hd).
    now rewrite <- orb_assoc, Hg, orb_true_r.
  - intros L H w d Hd. unfold Hevc.hevc_decode.
    destruct (ptr_of_token handle =? NULL); [reflexivity|].
    unfold mbind at 1, M_bind at 1, bind at 1.
    rewrite (in_heap_load_session w _ d Hd).
    now rewrite <- orb_assoc, Hg, orb_true_r.
  - intros L H w d Hd. unfold Vp9.vp9_decode.
    destruct (ptr_of_token handle =? NULL); [reflexivity|].
    unfold mbind at 1, M_bind at 1, bind at 1.
    rewrite (in_heap_load_session w _ d Hd).
    now rewrite <- orb_assoc, Hg, orb_true_r.
Qed.

(** C8: in the AV1 and VP9 adapters [configure] returns normally and leaves
    the world as it was, for every handle, configuration pointer and size;
    hence any sequence of decode calls issued after it yields the same
    tokens and the same final world as the same sequence without it. *)
Theorem C8_configure_is_noop :
  (forall L (H : Av1.Dav1d L) (w : world Av1.Av1Decoder L)
          handle config size fuel calls,
     Av1.av1_configure handle config size w = Ok (tt, w) /\
     (Av1.av1_configure handle config size;;
      decode_all (av1_decode_call fuel) calls) w
     = decode_all (av1_decode_call fuel) calls w) /\
  (forall L (H : Vp9.Vpx L) (w : world Vp9.Vp9Decoder L)
          handle config size calls,
     Vp9.vp9_configure handle config size w = Ok (tt, w) /\
     (Vp9.vp9_configure handle config size;;
      decode_all vp9_decode_call calls) w
     = decode_all vp9_decode_call calls w).
Proof.
  split; intros; split; reflexivity.
Qed.

(** C9: in each adapter two [decode] calls that differ only in the
    keyframe hint are the same computation: from the same world they give
    the same outcome, that is the same token and the same final world. *)
Theorem C9_keyframe_hint_ignored
    (handle : Z) (data : option bytes) (size k1 k2 : Z) :
  (forall L (H : Av1.Dav1d L) fuel (w : world Av1.Av1Decoder L),
     Av1.av1_decode fuel handle data size k1 w
     = Av1.av1_decode fuel handle data size k2 w) /\
  (forall L (H : Hevc.De265 L) (w : world Hevc.HevcDecoder L),
     Hevc.hevc_decode handle data size k1 w
     = Hevc.hevc_decode handle data size k2 w) /\
  (forall L (H : Vp9.Vpx L) (w : world Vp9.Vp9Decoder L),
     Vp9.vp9_decode handle data size k1 w
     = Vp9.vp9_decode handle data size k2 w).
Proof.
  split; [|split]; intros; reflexivity.
Qed.

(** C6 (as amended): the null token is a silent no-op for every operation.
    In each adapter [configure], [decode], [flush], [destroy] and
    [free_frame] called with token 0 return normally, with the zero token
    where they return one, and leave the world as it was; the [configure] of
    AV1 and VP9 does so for every token.  Nothing is claimed for a token
    whose object has been destroyed: the wrappers keep no registry of
    handles and dereference it. *)
Theorem C6_null_handle_is_noop
    (data : option bytes) (size is_keyframe : Z) :
  (forall L (H : Av1.Dav1d L) fuel (w : world Av1.Av1Decoder L),
     Av1.av1_configure 0 data size w = Ok (tt, w) /\
     Av1.av1_decode fuel 0 data size is_keyframe w = Ok (0, w) /\
     Av1.av1_flush 0 w = Ok (0, w) /\
     Av1.av1_destroy 0 w = Ok (tt, w) /\
     Av1.free_frame 0 w = Ok (tt, w) /\
     forall handle, Av1.av1_configure handle data size w = Ok (tt, w)) /\
  (forall L (H : Hevc.De265 L) (w : world Hevc.HevcDecoder L),
     Hevc.hevc_configure 0 data size w = Ok (tt, w) /\
     Hevc.hevc_decode 0 data size is_keyframe w = Ok (0, w) /\
     Hevc.hevc_flush 0 w = Ok (0, w) /\
     Hevc.hevc_destroy 0 w = Ok (tt, w) /\
     Hevc.free_frame 0 w = Ok (tt, w)) /\
  (forall L (H : Vp9.Vpx L) (w : world Vp9.Vp9Decoder L),
     Vp9.vp9_configure 0 data size w = Ok (tt, w) /\
     Vp9.vp9_decode 0 data size is_keyframe w = Ok (0, w) /\
     Vp9.vp9_flush 0 w = Ok (0, w) /\
     Vp9.vp9_destroy 0 w = Ok (tt, w) /\
     Vp9.free_frame 0 w = Ok (tt, w) /\
     forall handle, Vp9.vp9_configure handle data size w = Ok (tt, w)).
Proof.
  split; [|split]; intros; repeat split; reflexivity.
Qed.

(** C6, as stated, fails on a destroyed handle: after [create] and
    [destroy], a second [destroy], a [flush], a [decode] or (HEVC) a
    [configure] on the same token reads the freed session, and a second
    [free_frame] of a record reads the freed record; none of them is a call
    that returns with no effect. *)
Lemma C6_destroyed_handle_counterexample :
  (tok ← Hevc.hevc_create_decoder;
   Hevc.hevc_destroy tok) (sample_world [])
  = Ok (tt, {| mem := {| live := ∅; brk := 20;
                         allocs := repeat (AllocOk (fun _ => Byte.xaa)) 7 |};
               lib := [] |}) /\
  (tok ← Hevc.hevc_create_decoder;
   Hevc.hevc_destroy tok;; Hevc.hevc_destroy tok) (sample_world [])
  = Undefined /\
  (tok ← Hevc.hevc_create_decoder;
   Hevc.hevc_destroy tok;; Hevc.hevc_flush tok) (sample_world [])
  = Undefined /\
  (tok ← Hevc.hevc_create_decoder;
   Hevc.hevc_destroy tok;;
   Hevc.hevc_configure tok (Some [Byte.x42]) 1) (sample_world [])
  = Undefined /\
  (tok ← Av1.av1_create_decoder;
   Av1.av1_destroy tok;;
   Av1.av1_decode 3 tok (Some [Byte.x00]) 1 1) (sample_world [])
  = Undefined /\
  (tok ← Vp9.vp9_create_decoder;
   Vp9.vp9_destroy tok;; Vp9.vp9_destroy tok) (sample_world [])
  = Undefined /\
  (tok ← Vp9.vp9_create_decoder;
   frame ← Vp9.vp9_decode tok (Some [Byte.x00]) 1 1;
   Vp9.free_frame frame;; Vp9.free_frame frame)
    (sample_world [sample_vp9_image])
  = Undefined.
Proof.
  repeat split; vm_compute; reflexivity.
Qed.

(** ** Reported bit depth *)

Lemma extract_planes_bit_depth {D} g (hp : heap D) p hp' :
  heap_wf hp -> extract_planes g hp = Ok (p, hp') -> p <> NULL ->
  exists f, live hp' !! p = Some (Frame f) /\ bitDepth f = g_bitDepth g.
Proof.
  intros W E Hp.
  destruct (extract_planes_nonnull g hp p hp' W E Hp)
    as ((y & u & v & Lf & _) & _).
  exists (frame_of g y u v). split; [exact Lf|reflexivity].
Qed.

(** C10: every record the VP9 extractor returns has [bitDepth] 10 when the
    image format carries the high-bit-depth flag and 8 when it does not; the
    image's own [bit_depth] field (12 for 12-bit video) is not read: the
    extraction is the same whatever it holds. *)
Theorem C10_vp9_bit_depth_from_flag
    (img : Vp9.vpx_image_t) (hp : heap Vp9.Vp9Decoder) (p : Z)
    (hp' : heap Vp9.Vp9Decoder) :
  heap_wf hp ->
  Vp9.extract_image (Some img) hp = Ok (p, hp') -> p <> NULL ->
  (exists f,
     live hp' !! p = Some (Frame f) /\
     (Z.land (Vp9.fmt img) Vp9.VPX_IMG_FMT_HIGHBITDEPTH <> 0 ->
      bitDepth f = 10) /\
     (Z.land (Vp9.fmt img) Vp9.VPX_IMG_FMT_HIGHBITDEPTH = 0 ->
      bitDepth f = 8)) /\
  (forall b, Vp9.extract_image (Some (with_bit_depth img b)) hp
             = Vp9.extract_image (Some img) hp).
Proof.
  intros W E Hp. split; [|reflexivity].
  rewrite vp9_extract_image_eq in E.
  destruct (extract_planes_bit_depth _ hp p hp' W E Hp) as (f & Lf & Bf).
  exists f. split; [exact Lf|]. rewrite Bf.
  unfold vp9_geometry. geometry_fields. unfold Vp9.vpx_fmt_bpc.
  split; intros Hflag.
  - apply Z.eqb_neq in Hflag. now rewrite Hflag.
  - apply Z.eqb_eq in Hflag. now rewrite Hflag.
Qed.

(** C5 (the code departs from the claim): a record returned by [decode] or
    [flush] carries the bit depth the library reported.  For a 12-bit
    picture the AV1 and HEVC adapters return a record whose [bitDepth] is
    12, neither 8 nor 10; the VP9 adapter returns 10 for its 12-bit
    image. *)
Theorem C5_deep_picture_bit_depth :
  returned_frame
    ((tok ← Av1.av1_create_decoder;
      Av1.av1_decode 3 tok (Some [Byte.x00]) 1 1)
       (sample_world [deep_av1_picture]))
  = Ok (88, Some {| width := 2; height := 1; chromaFormat := 420;
                    bitDepth := 12; yPtr := 80; uPtr := 84; vPtr := 86;
                    ySize := 4; uvSize := 2 |}) /\
  returned_frame
    ((tok ← Av1.av1_create_decoder; Av1.av1_flush tok)
       (sample_world [deep_av1_picture]))
  = Ok (88, Some {| width := 2; height := 1; chromaFormat := 420;
                    bitDepth := 12; yPtr := 80; uPtr := 84; vPtr := 86;
                    ySize := 4; uvSize := 2 |}) /\
  returned_frame
    ((tok ← Hevc.hevc_create_decoder;
      Hevc.hevc_decode tok (Some [Byte.x00]) 1 1)
       (sample_world [deep_hevc_image]))
  = Ok (28, Some {| width := 2; height := 1; chromaFormat := 420;
                    bitDepth := 12; yPtr := 20; uPtr := 24; vPtr := 26;
                    ySize := 4; uvSize := 2 |}) /\
  returned_frame
    ((tok ← Vp9.vp9_create_decoder;
      Vp9.vp9_decode tok (Some [Byte.x00]) 1 1)
       (sample_world [deep_vp9_image]))
  = Ok (88, Some {| width := 2; height := 1; chromaFormat := 420;
                    bitDepth := 10; yPtr := 80; uPtr := 84; vPtr := 86;
                    ySize := 4; uvSize := 2 |}).
Proof.
  repeat split; vm_compute; reflexivity.
Qed.

(** The AV1 and HEVC extractors store the reported depth as it is. *)
Lemma reported_bit_depth_stored :
  (forall pic (hp : heap Av1.Av1Decoder) p hp',
     heap_wf hp -> Av1.extract_picture (Some pic) hp = Ok (p, hp') ->
     p <> NULL ->
     exists f, live hp' !! p = Some (Frame f) /\ bitDepth f = Av1.p_bpc pic) /\
  (forall img (hp : heap Hevc.HevcDecoder) p hp',
     heap_wf hp -> Hevc.extract_picture (Some img) hp = Ok (p, hp') ->
     p <> NULL ->
     exists f, live hp' !! p = Some (Frame f) /\
               bitDepth f = Hevc.de265_get_bits_per_pixel img 0).
Proof.
  split.
  - intros pic hp p hp' W E Hp. rewrite av1_extract_picture_eq in E.
    destruct (is_null _); [injection E as <- <-; congruence|].
    now apply (extract_planes_bit_depth (av1_geometry pic) hp).
  - intros img hp p hp' W E Hp. rewrite hevc_extract_picture_eq in E.
    destruct (_ || _); [injection E as <- <-; congruence|].
    now apply (extract_planes_bit_depth (hevc_geometry img) hp).
Qed.

(** ** The theorems at the sample inputs *)

Lemma sample_heap_wf {D} : heap_wf (sample_heap (D:=D)).
Proof.
  split; [reflexivity|]. intros p [o Hp]. cbn in Hp.
  rewrite lookup_empty in Hp. discriminate.
Defined.

Lemma failing_heap_wf {D} : heap_wf (failing_heap (D:=D)).
Proof.
  split; [reflexivity|]. intros p [o Hp]. cbn in Hp.
  rewrite lookup_empty in Hp. discriminate.
Defined.






Lemma C4_witness :
  heap_wf (failing_heap (D:=Av1.Av1Decoder)) /\
  is_null (Av1.data0 sample_av1_picture) = false /\
  all_or_nothing (av1_geometry sample_av1_picture)
    (exists s, Av1.DAV1D_PIXEL_LAYOUT_I420 = av1_layout s /\
       picture_ok 4 2 8 s (Some sample_y) (Some sample_u) (Some sample_v) 6 4 4)
    (Av1.extract_picture (Some sample_av1_picture)) failing_heap.
Proof.
  split; [exact failing_heap_wf|]. split; [reflexivity|].
  exact (proj2 (proj2 (proj1 C4_all_or_nothing failing_heap failing_heap_wf)
                  sample_av1_picture) eq_refl).
Defined.

Lemma C7_witness :
  (@None bytes = None \/ 0 <= 0) /\
  live (mem (created_av1_world [sample_av1_picture])) !! ptr_of_token 16
  = Some (Session {| Av1.ctx := 4096;
                     Av1.settings := {| Av1.n_threads := 1;
                                        Av1.max_frame_delay := 1;
                                        Av1.other_settings := [] |} |}) /\
  Av1.av1_decode 3 16 None 0 1 (created_av1_world [sample_av1_picture])
  = Ok (0, created_av1_world [sample_av1_picture]).
Proof.
  assert (Hin : @None bytes = None \/ 0 <= 0) by (left; reflexivity).
  assert (Hl : live (mem (created_av1_world [sample_av1_picture]))
               !! ptr_of_token 16
               = Some (Session {| Av1.ctx := 4096;
                                  Av1.settings :=
                                    {| Av1.n_threads := 1;
                                       Av1.max_frame_delay := 1;
                                       Av1.other_settings := [] |} |}))
    by (vm_compute; reflexivity).
  split; [exact Hin|]. split; [exact Hl|].
  exact (proj1 (C7_decode_rejects_empty_input 16 None 0 1 Hin)
           _ scripted_dav1d 3%nat (created_av1_world [sample_av1_picture])
           _ Hl).
Defined.

Lemma C10_witness :
  heap_wf (sample_heap (D:=Vp9.Vp9Decoder)) /\
  match Vp9.extract_image (Some deep_vp9_image) sample_heap with
  | Ok (p, hp') =>
      p = 24 /\
      exists f, live hp' !! p = Some (Frame f) /\ bitDepth f = 10
  | _ => False
  end.
Proof.
  split; [exact sample_heap_wf|].
  destruct (Vp9.extract_image (Some deep_vp9_image) sample_heap)
    as [[p hp']| |] eqn:E.
  - assert (Hp : p = 24) by (vm_compute in E; congruence).
    split; [exact Hp|].
    assert (Hn : p <> NULL) by (rewrite Hp; discriminate).
    destruct (C10_vp9_bit_depth_from_flag deep_vp9_image sample_heap p hp'
                sample_heap_wf E Hn) as ((f & Lf & Hhi & _) & _).
    exists f. split; [exact Lf|]. apply Hhi. vm_compute. discriminate.
  - vm_compute in E. discriminate.
  - vm_compute in E. discriminate.
Defined.

(** * Further properties of the wrappers *)

(** ** What an extraction leaves behind *)

Section ExtractionFootprint.
Context {D : Type}.
Implicit Types (h : heap D) (g : geometry).

Lemma alloc4_allocs g h ptrs h4 :
  alloc4 g h = Ok (ptrs, h4) -> allocs h4 = drop 4 (allocs h).
Proof.
  unfold alloc4, mbind, M_bind, bind, mret, M_ret, ret, malloc.
  destruct h as [m b al]. cbn [allocs live brk].
  repeat match goal with
         | |- context [match ?l with [] => _ | _ :: _ => _ end] =>
             is_var l; destruct l as [|[|?] ?]; cbn [allocs live brk]
         | |- context [if ?c then _ else _] =>
             destruct c; cbn [allocs live brk]
         end;
    intros [= <- <-]; reflexivity.
Qed.

Lemma extract_planes_inv g h p h' :
  heap_wf h -> extract_planes g h = Ok (p, h') ->
  heap_wf h' /\ allocs h' = drop 4 (allocs h) /\
  ((p = NULL /\ live h' = live h) \/ (p <> NULL /\ populated g h h' p)).
Proof.
  intros W E.
  destruct (alloc4_total (D:=D) g h) as ([[[y u] v] f] & h4 & A).
  pose proof (alloc4_allocs g h _ h4 A) as Al4.
  destruct (decide (y = NULL \/ u = NULL \/ v = NULL \/ f = NULL)) as [Hn|Hn].
  - destruct (extract_planes_released g h y u v f h4 W A Hn)
      as (h0 & E0 & L & Al & W0).
    rewrite E0 in E. injection E as <- <-.
    split; [exact W0|]. split; [congruence|]. left. auto.
  - assert (Hy : y <> NULL) by tauto. assert (Hu : u <> NULL) by tauto.
    assert (Hv : v <> NULL) by tauto. assert (Hf : f <> NULL) by tauto.
    destruct (extract_planes_filled g h y u v f h4 p h' W A Hy Hu Hv Hf E)
      as (-> & W' & Al & P & _).
    split; [exact W'|]. split; [congruence|]. right. auto.
Qed.

(** The frees of [free_frame], one by one, on a populated record. *)
Lemma release_steps g h h' p :
  heap_wf h' -> populated g h h' p ->
  exists f h1 h2 h3 h4,
    ptr_of_token (token_of_ptr p) = p /\ p <> NULL /\
    load_frame p h' = Ok (f, h') /\
    free (ptr_of_token (yPtr f)) h' = Ok (tt, h1) /\
    free (ptr_of_token (uPtr f)) h1 = Ok (tt, h2) /\
    free (ptr_of_token (vPtr f)) h2 = Ok (tt, h3) /\
    free p h3 = Ok (tt, h4) /\
    live h4 = live h /\ brk h4 = brk h' /\ allocs h4 = allocs h' /\
    heap_wf h4.
Proof.
  intros W (y & u & v & Lf & Nd & Rg & (dy & Ly & _) & (du & Lu & _)
            & (dv & Lv & _) & Fr).
  assert (Ry : ptr_of_token (token_of_ptr y) = y).
  { apply token_roundtrip. destruct (Rg y ltac:(in_list)). lia. }
  assert (Ru : ptr_of_token (token_of_ptr u) = u).
  { apply token_roundtrip. destruct (Rg u ltac:(in_list)). lia. }
  assert (Rv : ptr_of_token (token_of_ptr v) = v).
  { apply token_roundtrip. destruct (Rg v ltac:(in_list)). lia. }
  assert (Rp : ptr_of_token (token_of_ptr p) = p).
  { apply token_roundtrip. destruct (Rg p ltac:(in_list)). lia. }
  assert (Hp : p <> NULL).
  { destruct (Rg p ltac:(in_list)). unfold NULL. lia. }
  apply NoDup_cons in Nd as [Ny Nd]. apply NoDup_cons in Nd as [Nu Nd].
  apply NoDup_cons in Nd as [Nv _].
  assert (Hyu : y <> u) by (intros ->; apply Ny; in_list).
  assert (Hyv : y <> v) by (intros ->; apply Ny; in_list).
  assert (Hyp : y <> p) by (intros ->; apply Ny; in_list).
  assert (Huv : u <> v) by (intros ->; apply Nu; in_list).
  assert (Hup : u <> p) by (intros ->; apply Nu; in_list).
  assert (Hvp : v <> p) by (intros ->; apply Nv; in_list).
  set (h1 := with_live h' (delete y (live h'))).
  set (h2 := with_live h1 (delete u (live h1))).
  set (h3 := with_live h2 (delete v (live h2))).
  set (h4 := with_live h3 (delete p (live h3))).
  assert (W1 : heap_wf h1).
  { apply with_live_wf; [exact W|]. intros q [o Hq].
    apply lookup_delete_Some in Hq as [_ Hq]. eauto. }
  assert (W2 : heap_wf h2).
  { apply with_live_wf; [exact W1|]. intros q [o Hq].
    apply lookup_delete_Some in Hq as [_ Hq]. eauto. }
  assert (W3 : heap_wf h3).
  { apply with_live_wf; [exact W2|]. intros q [o Hq].
    apply lookup_delete_Some in Hq as [_ Hq]. eauto. }
  assert (W4 : heap_wf h4).
  { apply with_live_wf; [exact W3|]. intros q [o Hq].
    apply lookup_delete_Some in Hq as [_ Hq]. eauto. }
  exists (frame_of g y u v), h1, h2, h3, h4.
  cbn [frame_of yPtr uPtr vPtr]. rewrite Ry, Ru, Rv.
  split; [exact Rp|]. split; [exact Hp|]. split.
  { unfold load_frame, mbind, M_bind, bind, load. now rewrite Lf. }
  split; [apply free_released; [exact W|right; rewrite Ly; eauto]|].
  split.
  { apply free_released; [exact W1|right]. subst h1. cbn [live with_live].
    rewrite lookup_delete_ne by congruence. rewrite Lu. eauto. }
  split.
  { apply free_released; [exact W2|right]. subst h2 h1. cbn [live with_live].
    rewrite !lookup_delete_ne by congruence. rewrite Lv. eauto. }
  split.
  { apply free_released; [exact W3|right]. subst h3 h2 h1.
    cbn [live with_live].
    rewrite !lookup_delete_ne by congruence. rewrite Lf. eauto. }
  split; [|split; [reflexivity|split; [reflexivity|exact W4]]].
  subst h4 h3 h2 h1. cbn [live with_live]. apply map_eq. intros q.
  destruct (decide (q ∈ [y; u; v; p])) as [Hq|Hq].
  - destruct (Rg q Hq) as [_ ->].
    apply list_elem_of_In in Hq. cbn in Hq.
    destruct Hq as [<- | [<- | [<- | [<- | []]]]];
      repeat first [ apply lookup_delete_eq
                   | rewrite lookup_delete_ne by congruence ].
  - rewrite !lookup_delete_ne by (intros ->; apply Hq; in_list).
    now apply Fr.
Qed.

End ExtractionFootprint.

(** ** Steps of the world monad *)

Section WorldSteps.
Context {D L : Type}.
Implicit Types (w : world D L).

Lemma in_heap_Ok {A} (m : M (heap D) A) w a w' :
  in_heap m w = Ok (a, w') ->
  m (mem w) = Ok (a, mem w') /\ lib w' = lib w.
Proof.
  unfold in_heap. destruct (m (mem w)) as [[a0 h0]| |]; try discriminate.
  intros [= <- <-]. auto.
Qed.

Lemma in_heap_run {A} (m : M (heap D) A) w a h' :
  m (mem w) = Ok (a, h') ->
  in_heap m w = Ok (a, {| mem := h'; lib := lib w |}).
Proof. unfold in_heap. now intros ->. Qed.

Lemma in_heap_load_session_Ok w p d w' :
  in_heap (load_session p) w = Ok (d, w') ->
  w' = w /\ live (mem w) !! p = Some (Session d).
Proof.
  unfold in_heap, load_session, mbind, M_bind, bind, load.
  destruct (live (mem w) !! p) as [[?|?|d0]|] eqn:E; try discriminate.
  intros [= <- <-]. split; [now destruct w|reflexivity].
Qed.

Lemma call_Ok {A} (f : L -> A * L) w a w' :
  call f w = Ok (a, w') -> mem w' = mem w /\ (a, lib w') = f (lib w).
Proof.
  unfold call. destruct (f (lib w)) as [a0 l0]. intros [= <- <-]. auto.
Qed.

Lemma read_chunk_Ok (data : option bytes) size w c w' :
  read_chunk data size w = Ok (c, w') -> w' = w.
Proof.
  unfold read_chunk. destruct data as [bs|]; [|discriminate].
  destruct (read_bytes bs 0 size); [|discriminate]. now intros [= _ <-].
Qed.

Lemma record_or_nothing_refl w : heap_wf (mem w) -> record_or_nothing w w 0.
Proof. intros W. split; [exact W|]. left. auto. Qed.

Lemma record_or_nothing_mem w w1 w2 tok :
  mem w1 = mem w -> mem w2 = mem w ->
  heap_wf (mem w) -> tok = 0 -> record_or_nothing w1 w2 tok.
Proof.
  intros E1 E2 W ->. split; [now rewrite E2|]. left. now rewrite E1, E2.
Qed.

(** The token of an extraction's result. *)
Lemma record_or_nothing_extract w w1 w2 w3 g p :
  heap_wf (mem w) -> mem w1 = mem w -> mem w3 = mem w2 ->
  heap_wf (mem w2) ->
  (p = NULL /\ live (mem w2) = live (mem w1)) \/
  (p <> NULL /\ populated g (mem w1) (mem w2) p) ->
  record_or_nothing w w3 (token_of_ptr p).
Proof.
  intros W E1 E3 W2 [[-> Hl]|[Hp P]].
  - split; [now rewrite E3|]. left. split; [reflexivity|].
    now rewrite E3, Hl, E1.
  - pose proof P as (y & u & v & _ & _ & Rg & _).
    destruct (Rg p ltac:(in_list)) as [Hr _].
    split; [now rewrite E3|]. right. split.
    + unfold token_of_ptr. intros Ht.
      assert (Hu : Int32.uwrap (Int32.wrap p) = 0) by now rewrite Ht.
      rewrite uwrap_wrap, uwrap_small in Hu by lia. lia.
    + exists g. rewrite token_roundtrip by lia. now rewrite E3, <- E1.
Qed.

End WorldSteps.

(** ** Extraction in each adapter *)

Lemma av1_extract_inv pic (h : heap Av1.Av1Decoder) p h' :
  heap_wf h -> Av1.extract_picture pic h = Ok (p, h') ->
  heap_wf h' /\
  ((p = NULL /\ live h' = live h) \/
   (p <> NULL /\ exists pic', pic = Some pic' /\
                   populated (av1_geometry pic') h h' p)).
Proof.
  intros W E. destruct pic as [pic|]; [|injection E as <- <-; auto].
  rewrite av1_extract_picture_eq in E.
  destruct (is_null _); [injection E as <- <-; auto|].
  destruct (extract_planes_inv _ h p h' W E) as (W' & _ & [?|[? ?]]).
  - auto.
  - split; [exact W'|]. right. split; [assumption|]. eexists. eauto.
Qed.

Lemma hevc_extract_inv img (h : heap Hevc.HevcDecoder) p h' :
  heap_wf h -> Hevc.extract_picture img h = Ok (p, h') ->
  heap_wf h' /\
  ((p = NULL /\ live h' = live h) \/
   (p <> NULL /\ exists img', img = Some img' /\
                   populated (hevc_geometry img') h h' p)).
Proof.
  intros W E. destruct img as [img|]; [|injection E as <- <-; auto].
  rewrite hevc_extract_picture_eq in E.
  destruct (_ || _); [injection E as <- <-; auto|].
  destruct (extract_planes_inv _ h p h' W E) as (W' & _ & [?|[? ?]]).
  - auto.
  - split; [exact W'|]. right. split; [assumption|]. eexists. eauto.
Qed.

Lemma vp9_extract_inv img (h : heap Vp9.Vp9Decoder) p h' :
  heap_wf h -> Vp9.extract_image img h = Ok (p, h') ->
  heap_wf h' /\
  ((p = NULL /\ live h' = live h) \/
   (p <> NULL /\ exists img', img = Some img' /\
                   populated (vp9_geometry img') h h' p)).
Proof.
  intros W E. destruct img as [img|]; [|injection E as <- <-; auto].
  rewrite vp9_extract_image_eq in E.
  destruct (extract_planes_inv _ h p h' W E) as (W' & _ & [?|[? ?]]).
  - auto.
  - split; [exact W'|]. right. split; [assumption|]. eexists. eauto.
Qed.

(** ** What [decode] and [flush] return *)

Ltac bind_step E a w1 E1 :=
  unfold mbind at 1, M_bind at 1, bind at 1 in E;
  match type of E with
  | match ?m with _ => _ end = _ =>
      destruct m as [[a w1]| |] eqn:E1; [|discriminate..]
  end.

Ltac ret_step E :=
  unfold mret, M_ret, ret in E; injection E as <- <-.

Lemma send_loop_mem {L} `{Av1.Dav1d L} fuel c d
    (w : world Av1.Av1Decoder L) r w' :
  Av1.send_loop fuel c d w = Ok (r, w') -> mem w' = mem w.
Proof.
  revert d w. induction fuel as [|fuel IH]; intros d w E; [discriminate|].
  cbn [Av1.send_loop] in E. bind_step E a w1 E1. destruct a as [r1 d1].
  apply call_Ok in E1 as [M1 _].
  destruct (r1 =? Av1.DAV1D_ERR Av1.EAGAIN).
  - apply IH in E. congruence.
  - ret_step E. exact M1.
Qed.

Lemma av1_decode_record_or_nothing {L} `{Av1.Dav1d L} fuel handle data size k
    (w : world Av1.Av1Decoder L) tok w' :
  heap_wf (mem w) ->
  Av1.av1_decode fuel handle data size k w = Ok (tok, w') ->
  record_or_nothing w w' tok.
Proof.
  intros W E. unfold Av1.av1_decode in E.
  destruct (ptr_of_token handle =? NULL);
    [ret_step E; now apply record_or_nothing_refl|].
  bind_step E d w1 E1. apply in_heap_load_session_Ok in E1 as [-> _].
  destruct (_ || _); [ret_step E; now apply record_or_nothing_refl|].
  bind_step E buf w1 E1. apply call_Ok in E1 as [M1 _].
  destruct (negb buf);
    [ret_step E; now apply (record_or_nothing_mem w)|].
  bind_step E chunk w2 E2. apply read_chunk_Ok in E2 as ->.
  bind_step E r0 w2 E2. apply send_loop_mem in E2.
  bind_step E rp w3 E3. destruct rp as [r pic]. apply call_Ok in E3 as [M3 _].
  destruct (r <? 0);
    [ret_step E; apply (record_or_nothing_mem w); congruence|].
  bind_step E frame w4 E4. apply in_heap_Ok in E4 as [E4 _].
  bind_step E u w5 E5. apply call_Ok in E5 as [M5 _]. ret_step E.
  assert (W3 : heap_wf (mem w3)) by (rewrite M3, E2, M1; exact W).
  destruct (av1_extract_inv _ _ _ _ W3 E4) as (W4 & [C|(Hp & pic' & _ & P)]).
  - apply (record_or_nothing_extract w w3 w4 w5 (av1_geometry pic));
      try assumption; [congruence|auto].
  - apply (record_or_nothing_extract w w3 w4 w5 (av1_geometry pic'));
      try assumption; [congruence|auto].
Qed.

Lemma av1_flush_record_or_nothing {L} `{Av1.Dav1d L} handle
    (w : world Av1.Av1Decoder L) tok w' :
  heap_wf (mem w) ->
  Av1.av1_flush handle w = Ok (tok, w') ->
  record_or_nothing w w' tok.
Proof.
  intros W E. unfold Av1.av1_flush in E.
  destruct (ptr_of_token handle =? NULL);
    [ret_step E; now apply record_or_nothing_refl|].
  bind_step E d w1 E1. apply in_heap_load_session_Ok in E1 as [-> _].
  destruct (_ =? _); [ret_step E; now apply record_or_nothing_refl|].
  bind_step E u0 w1 E1. apply call_Ok in E1 as [M1 _].
  bind_step E rp w3 E3. destruct rp as [r pic]. apply call_Ok in E3 as [M3 _].
  destruct (r <? 0);
    [ret_step E; apply (record_or_nothing_mem w); congruence|].
  bind_step E frame w4 E4. apply in_heap_Ok in E4 as [E4 _].
  bind_step E u w5 E5. apply call_Ok in E5 as [M5 _]. ret_step E.
  assert (W3 : heap_wf (mem w3)) by (rewrite M3, M1; exact W).
  destruct (av1_extract_inv _ _ _ _ W3 E4) as (W4 & [C|(Hp & pic' & _ & P)]).
  - apply (record_or_nothing_extract w w3 w4 w5 (av1_geometry pic));
      try assumption; [congruence|auto].
  - apply (record_or_nothing_extract w w3 w4 w5 (av1_geometry pic'));
      try assumption; [congruence|auto].
Qed.

Lemma hevc_decode_record_or_nothing {L} `{Hevc.De265 L} handle data size k
    (w : world Hevc.HevcDecoder L) tok w' :
  heap_wf (mem w) ->
  Hevc.hevc_decode handle data size k w = Ok (tok, w') ->
  record_or_nothing w w' tok.
Proof.
  intros W E. unfold Hevc.hevc_decode in E.
  destruct (ptr_of_token handle =? NULL);
    [ret_step E; now apply record_or_nothing_refl|].
  bind_step E d w1 E1. apply in_heap_load_session_Ok in E1 as [-> _].
  destruct (_ || _); [ret_step E; now apply record_or_nothing_refl|].
  bind_step E nal w1 E1. apply read_chunk_Ok in E1 as ->.
  bind_step E u1 w1 E1. apply call_Ok in E1 as [M1 _].
  bind_step E u2 w2 E2. apply call_Ok in E2 as [M2 _].
  bind_step E img w3 E3. apply call_Ok in E3 as [M3 _].
  destruct (is_null img);
    [ret_step E; apply (record_or_nothing_mem w); congruence|].
  bind_step E frame w4 E4. apply in_heap_Ok in E4 as [E4 _].
  bind_step E u w5 E5. apply call_Ok in E5 as [M5 _]. ret_step E.
  assert (W3 : heap_wf (mem w3)) by (rewrite M3, M2, M1; exact W).
  destruct (hevc_extract_inv _ _ _ _ W3 E4) as (W4 & [C|(Hp & img' & _ & P)]).
  - apply (record_or_nothing_extract w w3 w4 w5 (hevc_geometry sample_hevc_image));
      try assumption; [congruence|auto].
  - apply (record_or_nothing_extract w w3 w4 w5 (hevc_geometry img'));
      try assumption; [congruence|auto].
Qed.

Lemma hevc_flush_record_or_nothing {L} `{Hevc.De265 L} handle
    (w : world Hevc.HevcDecoder L) tok w' :
  heap_wf (mem w) ->
  Hevc.hevc_flush handle w = Ok (tok, w') ->
  record_or_nothing w w' tok.
Proof.
  intros W E. unfold Hevc.hevc_flush in E.
  destruct (ptr_of_token handle =? NULL);
    [ret_step E; now apply record_or_nothing_refl|].
  bind_step E d w1 E1. apply in_heap_load_session_Ok in E1 as [-> _].
  destruct (_ =? _); [ret_step E; now apply record_or_nothing_refl|].
  bind_step E u1 w1 E1. apply call_Ok in E1 as [M1 _].
  bind_step E u2 w2 E2. apply call_Ok in E2 as [M2 _].
  bind_step E img w3 E3. apply call_Ok in E3 as [M3 _].
  destruct (is_null img);
    [ret_step E; apply (record_or_nothing_mem w); congruence|].
  bind_step E frame w4 E4. apply in_heap_Ok in E4 as [E4 _].
  bind_step E u w5 E5. apply call_Ok in E5 as [M5 _]. ret_step E.
  assert (W3 : heap_wf (mem w3)) by (rewrite M3, M2, M1; exact W).
  destruct (hevc_extract_inv _ _ _ _ W3 E4) as (W4 & [C|(Hp & img' & _ & P)]).
  - apply (record_or_nothing_extract w w3 w4 w5 (hevc_geometry sample_hevc_image));
      try assumption; [congruence|auto].
  - apply (record_or_nothing_extract w w3 w4 w5 (hevc_geometry img'));
      try assumption; [congruence|auto].
Qed.

Lemma vp9_decode_record_or_nothing {L} `{Vp9.Vpx L} handle data size k
    (w : world Vp9.Vp9Decoder L) tok w' :
  heap_wf (mem w) ->
  Vp9.vp9_decode handle data size k w = Ok (tok, w') ->
  record_or_nothing w w' tok.
Proof.
  intros W E. unfold Vp9.vp9_decode in E.
  destruct (ptr_of_token handle =? NULL);
    [ret_step E; now apply record_or_nothing_refl|].
  bind_step E d w1 E1. apply in_heap_load_session_Ok in E1 as [-> _].
  destruct (_ || _); [ret_step E; now apply record_or_nothing_refl|].
  bind_step E chunk w1 E1. apply read_chunk_Ok in E1 as ->.
  bind_step E r w1 E1. apply call_Ok in E1 as [M1 _].
  destruct (negb _);
    [ret_step E; now apply (record_or_nothing_mem w)|].
  bind_step E img w3 E3. apply call_Ok in E3 as [M3 _].
  destruct (is_null img);
    [ret_step E; apply (record_or_nothing_mem w); congruence|].
  bind_step E frame w4 E4. apply in_heap_Ok in E4 as [E4 _]. ret_step E.
  assert (W3 : heap_wf (mem w3)) by (rewrite M3, M1; exact W).
  destruct (vp9_extract_inv _ _ _ _ W3 E4) as (W4 & [C|(Hp & img' & _ & P)]).
  - apply (record_or_nothing_extract w w3 w4 w4 (vp9_geometry sample_vp9_image));
      try assumption; [congruence|reflexivity|auto].
  - apply (record_or_nothing_extract w w3 w4 w4 (vp9_geometry img'));
      try assumption; [congruence|reflexivity|auto].
Qed.

Lemma vp9_flush_record_or_nothing {L} `{Vp9.Vpx L} handle
    (w : world Vp9.Vp9Decoder L) tok w' :
  heap_wf (mem w) ->
  Vp9.vp9_flush handle w = Ok (tok, w') ->
  record_or_nothing w w' tok.
Proof.
  intros W E. unfold Vp9.vp9_flush in E.
  destruct (ptr_of_token handle =? NULL);
    [ret_step E; now apply record_or_nothing_refl|].
  bind_step E d w1 E1. apply in_heap_load_session_Ok in E1 as [-> _].
  destruct (_ =? _); [ret_step E; now apply record_or_nothing_refl|].
  bind_step E r w1 E1. apply call_Ok in E1 as [M1 _].
  bind_step E img w3 E3. apply call_Ok in E3 as [M3 _].
  destruct (is_null img);
    [ret_step E; apply (record_or_nothing_mem w); congruence|].
  bind_step E frame w4 E4. apply in_heap_Ok in E4 as [E4 _]. ret_step E.
  assert (W3 : heap_wf (mem w3)) by (rewrite M3, M1; exact W).
  destruct (vp9_extract_inv _ _ _ _ W3 E4) as (W4 & [C|(Hp & img' & _ & P)]).
  - apply (record_or_nothing_extract w w3 w4 w4 (vp9_geometry sample_vp9_image));
      try assumption; [congruence|reflexivity|auto].
  - apply (record_or_nothing_extract w w3 w4 w4 (vp9_geometry img'));
      try assumption; [congruence|reflexivity|auto].
Qed.

(** ** Releasing a record *)

Lemma in_heap_run_at {D L A} (m : M (heap D) A) (h : heap D) (l : L) a h' :
  m h = Ok (a, h') ->
  in_heap m {| mem := h; lib := l |} = Ok (a, {| mem := h'; lib := l |}).
Proof. apply (in_heap_run m {| mem := h; lib := l |}). Qed.

Ltac free_frame_tac W' P :=
  let f := fresh "f" in
  let h1 := fresh "h1" in let h2 := fresh "h2" in
  let h3 := fresh "h3" in let h4 := fresh "h4" in
  destruct (release_steps _ _ _ _ W' P)
    as (f & h1 & h2 & h3 & h4 & _ & Hp & Ef & E1 & E2 & E3 & E4 & Hl & Hb
        & Ha & W4);
  apply Z.eqb_neq in Hp; rewrite Hp;
  unfold mbind, M_bind, bind;
  rewrite (in_heap_run_at _ _ _ _ _ Ef);
  rewrite (in_heap_run_at _ _ _ _ _ E1);
  rewrite (in_heap_run_at _ _ _ _ _ E2);
  rewrite (in_heap_run_at _ _ _ _ _ E3);
  rewrite (in_heap_run_at _ _ _ _ _ E4);
  eexists; split; [reflexivity|]; cbn [mem lib]; auto.

Lemma av1_free_frame_releases {L} (w w' : world Av1.Av1Decoder L) tok :
  record_or_nothing w w' tok ->
  exists w'', Av1.free_frame tok w' = Ok (tt, w'') /\
              live (mem w'') = live (mem w) /\ lib w'' = lib w' /\
              heap_wf (mem w'').
Proof.
  destruct w' as [hm l]. cbn [mem lib].
  intros (W' & [[-> Hl]|(Ht & g & P)]); cbn [mem lib] in *.
  - eexists. split; [reflexivity|]. auto.
  - unfold Av1.free_frame. free_frame_tac W' P.
Qed.

Lemma hevc_free_frame_releases {L} (w w' : world Hevc.HevcDecoder L) tok :
  record_or_nothing w w' tok ->
  exists w'', Hevc.free_frame tok w' = Ok (tt, w'') /\
              live (mem w'') = live (mem w) /\ lib w'' = lib w' /\
              heap_wf (mem w'').
Proof.
  destruct w' as [hm l]. cbn [mem lib].
  intros (W' & [[-> Hl]|(Ht & g & P)]); cbn [mem lib] in *.
  - eexists. split; [reflexivity|]. auto.
  - unfold Hevc.free_frame. free_frame_tac W' P.
Qed.

Lemma vp9_free_frame_releases {L} (w w' : world Vp9.Vp9Decoder L) tok :
  record_or_nothing w w' tok ->
  exists w'', Vp9.free_frame tok w' = Ok (tt, w'') /\
              live (mem w'') = live (mem w) /\ lib w'' = lib w' /\
              heap_wf (mem w'').
Proof.
  destruct w' as [hm l]. cbn [mem lib].
  intros (W' & [[-> Hl]|(Ht & g & P)]); cbn [mem lib] in *.
  - eexists. split; [reflexivity|]. auto.
  - unfold Vp9.free_frame. free_frame_tac W' P.
Qed.

(** ** Creating a session *)

Lemma malloc_session {D} n (h : heap D) p h1 :
  heap_wf h -> malloc n h = Ok (p, h1) ->
  heap_wf h1 /\
  ((p = NULL /\ live h1 = live h) \/
   (p <> NULL /\ 0 < p < Int32.modulus /\ live h !! p = None /\
    is_Some (live h1 !! p) /\
    forall q, q <> p -> live h1 !! q = live h !! q)).
Proof.
  intros W E.
  destruct (malloc_inv n h p h1 W E)
    as (W1 & B & _ & F & [[-> L]|(Hp & Eb & Hlt & Hm & junk & Lp)]).
  - auto.
  - split; [exact W1|]. right. pose proof W as [Hb _].
    split; [exact Hp|]. split; [lia|].
    split; [apply heap_wf_brk; [exact W|lia]|]. split; [rewrite Lp; eauto|].
    exact F.
Qed.

Lemma token_of_ptr_nonzero p :
  0 < p < Int32.modulus ->
  token_of_ptr p <> 0 /\ ptr_of_token (token_of_ptr p) = p.
Proof.
  intros Hp. split; [|apply token_roundtrip; lia].
  unfold token_of_ptr. intros Ht.
  assert (Hu : Int32.uwrap (Int32.wrap p) = 0) by now rewrite Ht.
  rewrite uwrap_wrap, uwrap_small in Hu by lia. lia.
Qed.

Lemma free_fresh {D} (h h1 h2 : heap D) p :
  heap_wf h1 -> p <> NULL -> live h !! p = None -> is_Some (live h1 !! p) ->
  (forall q, q <> p -> live h1 !! q = live h !! q) ->
  free p h1 = Ok (tt, h2) ->
  heap_wf h2 /\ live h2 = live h.
Proof.
  intros W1 Hp Hn Hs F E.
  rewrite (free_released h1 p W1) in E by auto. injection E as <-.
  split.
  - apply with_live_wf; [exact W1|]. intros q [o Hq].
    apply lookup_delete_Some in Hq as [_ Hq]. eauto.
  - cbn [live with_live]. apply map_eq. intros q.
    destruct (decide (q = p)) as [->|Hq].
    + now rewrite lookup_delete_eq, Hn.
    + rewrite lookup_delete_ne by congruence. now apply F.
Qed.

Lemma store_session {D} (h1 h2 : heap D) p (d : D) :
  heap_wf h1 -> store p (Session d) h1 = Ok (tt, h2) ->
  heap_wf h2 /\ live h2 !! p = Some (Session d) /\
  forall q, q <> p -> live h2 !! q = live h1 !! q.
Proof.
  intros [Wb Wl]. unfold store.
  destruct (live h1 !! p) as [o|] eqn:Lp; [|discriminate].
  intros [= <-]. cbn [live brk]. split; [|split].
  - split; [exact Wb|]. cbn [live brk]. intros q [o' Hq].
    destruct (decide (q = p)) as [->|Hne]; [apply Wl; rewrite Lp; eauto|].
    rewrite lookup_insert_ne in Hq by congruence. apply Wl. eauto.
  - apply lookup_insert_eq.
  - intros q Hq. now rewrite lookup_insert_ne by congruence.
Qed.

Lemma av1_create_decoder_inv {L} `{Av1.Dav1d L}
    (w : world Av1.Av1Decoder L) tok w' :
  heap_wf (mem w) -> Av1.av1_create_decoder w = Ok (tok, w') ->
  session_created
    (fun d => Av1.n_threads (Av1.settings d) = 1 /\
              Av1.max_frame_delay (Av1.settings d) = 1)
    w w' tok.
Proof.
  intros W E. unfold Av1.av1_create_decoder in E.
  bind_step E dec w1 E1. apply in_heap_Ok in E1 as [E1 _].
  destruct (malloc_session _ _ _ _ W E1)
    as (W1 & [[-> L1]|(Hp & Hr & Hn & Hs & F)]).
  { cbn in E. ret_step E. split; [exact W1|]. left. auto. }
  apply Z.eqb_neq in Hp. rewrite Hp in E. apply Z.eqb_neq in Hp.
  bind_step E s0 w2 E2. apply call_Ok in E2 as [M2 _].
  bind_step E rc w3 E3. destruct rc as [r c]. apply call_Ok in E3 as [M3 _].
  assert (M31 : mem w3 = mem w1) by congruence.
  destruct (r <? 0).
  - bind_step E u w4 E4. destruct u. apply in_heap_Ok in E4 as [E4 _]. ret_step E.
    rewrite M31 in E4.
    destruct (free_fresh _ _ _ _ W1 Hp Hn Hs F E4) as (W4 & L4).
    split; [exact W4|]. left. auto.
  - bind_step E u w4 E4. destruct u. apply in_heap_Ok in E4 as [E4 _]. ret_step E.
    rewrite M31 in E4.
    destruct (store_session _ _ _ _ W1 E4) as (W4 & L4 & F4).
    destruct (token_of_ptr_nonzero dec Hr) as [Ht Rt].
    split; [exact W4|]. right. rewrite Rt.
    split; [exact Ht|]. split; [exact Hp|]. split; [exact Hn|]. split.
    + eexists. split; [exact L4|]. cbn. auto.
    + intros q Hq. now rewrite F4, F.
Qed.

Lemma hevc_create_decoder_inv {L} `{Hevc.De265 L}
    (w : world Hevc.HevcDecoder L) tok w' :
  heap_wf (mem w) -> Hevc.hevc_create_decoder w = Ok (tok, w') ->
  session_created (fun d => Hevc.ctx d <> NULL) w w' tok.
Proof.
  intros W E. unfold Hevc.hevc_create_decoder in E.
  bind_step E dec w1 E1. apply in_heap_Ok in E1 as [E1 _].
  destruct (malloc_session _ _ _ _ W E1)
    as (W1 & [[-> L1]|(Hp & Hr & Hn & Hs & F)]).
  { cbn in E. ret_step E. split; [exact W1|]. left. auto. }
  apply Z.eqb_neq in Hp. rewrite Hp in E. apply Z.eqb_neq in Hp.
  bind_step E c w2 E2. apply call_Ok in E2 as [M2 _].
  destruct (c =? NULL) eqn:Ec.
  - bind_step E u w4 E4. destruct u. apply in_heap_Ok in E4 as [E4 _]. ret_step E.
    rewrite M2 in E4.
    destruct (free_fresh _ _ _ _ W1 Hp Hn Hs F E4) as (W4 & L4).
    split; [exact W4|]. left. auto.
  - bind_step E u w4 E4. destruct u. apply in_heap_Ok in E4 as [E4 _].
    bind_step E u5 w5 E5. apply call_Ok in E5 as [M5 _]. ret_step E.
    rewrite M2 in E4.
    destruct (store_session _ _ _ _ W1 E4) as (W4 & L4 & F4).
    destruct (token_of_ptr_nonzero dec Hr) as [Ht Rt].
    unfold session_created. rewrite M5.
    split; [exact W4|]. right. rewrite Rt.
    split; [exact Ht|]. split; [exact Hp|]. split; [exact Hn|]. split.
    + eexists. split; [exact L4|]. cbn. now apply Z.eqb_neq.
    + intros q Hq. now rewrite F4, F.
Qed.

Lemma vp9_create_decoder_inv {L} `{Vp9.Vpx L}
    (w : world Vp9.Vp9Decoder L) tok w' :
  heap_wf (mem w) -> Vp9.vp9_create_decoder w = Ok (tok, w') ->
  session_created (fun d => Vp9.initialized d = 1) w w' tok.
Proof.
  intros W E. unfold Vp9.vp9_create_decoder in E.
  bind_step E dec w1 E1. apply in_heap_Ok in E1 as [E1 _].
  destruct (malloc_session _ _ _ _ W E1)
    as (W1 & [[-> L1]|(Hp & Hr & Hn & Hs & F)]).
  { cbn in E. ret_step E. split; [exact W1|]. left. auto. }
  apply Z.eqb_neq in Hp. rewrite Hp in E. apply Z.eqb_neq in Hp.
  bind_step E u2 w2 E2. destruct u2. apply in_heap_Ok in E2 as [E2 _].
  destruct (store_session _ _ _ _ W1 E2) as (W2 & L2 & F2).
  bind_step E r w3 E3. apply call_Ok in E3 as [M3 _].
  destruct (negb _).
  - bind_step E u w4 E4. destruct u. apply in_heap_Ok in E4 as [E4 _]. ret_step E.
    rewrite M3 in E4.
    assert (Hs2 : is_Some (live (mem w2) !! dec)) by (rewrite L2; eauto).
    assert (F' : forall q, q <> dec ->
                   live (mem w2) !! q = live (mem w) !! q).
    { intros q Hq. now rewrite F2, F. }
    destruct (free_fresh _ _ _ _ W2 Hp Hn Hs2 F' E4) as (W4 & L4).
    split; [exact W4|]. left. auto.
  - bind_step E u w4 E4. destruct u. apply in_heap_Ok in E4 as [E4 _]. ret_step E.
    rewrite M3 in E4.
    destruct (store_session _ _ _ _ W2 E4) as (W4 & L4 & F4).
    destruct (token_of_ptr_nonzero dec Hr) as [Ht Rt].
    split; [exact W4|]. right. rewrite Rt.
    split; [exact Ht|]. split; [exact Hp|]. split; [exact Hn|]. split.
    + eexists. split; [exact L4|]. reflexivity.
    + intros q Hq. now rewrite F4, F2, F.
Qed.

Lemma store_live {D} (h : heap D) p o :
  is_Some (live h !! p) -> exists h', store p o h = Ok (tt, h').
Proof. intros [o' Hp]. unfold store. rewrite Hp. eauto. Qed.

Lemma malloc_block {D} n (h : heap D) p h1 :
  heap_wf h -> malloc n h = Ok (p, h1) ->
  heap_wf h1 /\ (p = NULL \/ is_Some (live h1 !! p)).
Proof.
  intros W E. destruct (malloc_session n h p h1 W E) as (W1 & [[? _]|C]).
  - auto.
  - split; [exact W1|]. right. tauto.
Qed.

Lemma av1_create_decoder_total {L} `{Av1.Dav1d L}
    (w : world Av1.Av1Decoder L) :
  heap_wf (mem w) -> exists tok w', Av1.av1_create_decoder w = Ok (tok, w').
Proof.
  destruct w as [h l]. cbn [mem]. intros W. unfold Av1.av1_create_decoder.
  destruct (malloc_total (D:=Av1.Av1Decoder) Av1.sizeof_Av1Decoder h)
    as (dec & h1 & E1).
  destruct (malloc_block _ _ _ _ W E1) as (W1 & Hd).
  unfold mbind at 1, M_bind at 1, bind at 1.
  rewrite (in_heap_run_at _ _ _ _ _ E1).
  destruct (dec =? NULL) eqn:Ed; [eauto|].
  apply Z.eqb_neq in Ed. destruct Hd as [?|Hd]; [contradiction|].
  unfold mbind, M_bind, bind, call. cbn [mem lib].
  destruct (Av1.dav1d_default_settings l) as [s0 l1]. cbn [mem lib].
  destruct (Av1.dav1d_open _ l1) as [[r c] l2]. cbn [mem lib].
  destruct (r <? 0).
  - rewrite (in_heap_run_at _ _ _ _ _ (free_released h1 dec W1 (or_intror Hd))).
    eauto.
  - destruct (store_live h1 dec
                (Session {| Av1.ctx := c;
                            Av1.settings :=
                              {| Av1.n_threads := 1;
                                 Av1.max_frame_delay := 1;
                                 Av1.other_settings :=
                                   Av1.other_settings s0 |} |}) Hd)
      as (h2 & E2).
    rewrite (in_heap_run_at _ _ _ _ _ E2). eauto.
Qed.

Lemma hevc_create_decoder_total {L} `{Hevc.De265 L}
    (w : world Hevc.HevcDecoder L) :
  heap_wf (mem w) -> exists tok w', Hevc.hevc_create_decoder w = Ok (tok, w').
Proof.
  destruct w as [h l]. cbn [mem]. intros W. unfold Hevc.hevc_create_decoder.
  destruct (malloc_total (D:=Hevc.HevcDecoder) Hevc.sizeof_HevcDecoder h)
    as (dec & h1 & E1).
  destruct (malloc_block _ _ _ _ W E1) as (W1 & Hd).
  unfold mbind at 1, M_bind at 1, bind at 1.
  rewrite (in_heap_run_at _ _ _ _ _ E1).
  destruct (dec =? NULL) eqn:Ed; [eauto|].
  apply Z.eqb_neq in Ed. destruct Hd as [?|Hd]; [contradiction|].
  unfold mbind, M_bind, bind, call. cbn [mem lib].
  destruct (Hevc.de265_new_decoder l) as [c l1]. cbn [mem lib].
  destruct (c =? NULL).
  - rewrite (in_heap_run_at _ _ _ _ _ (free_released h1 dec W1 (or_intror Hd))).
    eauto.
  - destruct (store_live h1 dec (Session {| Hevc.ctx := c |}) Hd)
      as (h2 & E2).
    rewrite (in_heap_run_at _ _ _ _ _ E2). cbn [mem lib].
    destruct (Hevc.de265_start_worker_threads c 0 l1) as [u l2]. eauto.
Qed.

Lemma vp9_create_decoder_total {L} `{Vp9.Vpx L}
    (w : world Vp9.Vp9Decoder L) :
  heap_wf (mem w) -> exists tok w', Vp9.vp9_create_decoder w = Ok (tok, w').
Proof.
  destruct w as [h l]. cbn [mem]. intros W. unfold Vp9.vp9_create_decoder.
  destruct (malloc_total (D:=Vp9.Vp9Decoder) Vp9.sizeof_Vp9Decoder h)
    as (dec & h1 & E1).
  destruct (malloc_block _ _ _ _ W E1) as (W1 & Hd).
  unfold mbind at 1, M_bind at 1, bind at 1.
  rewrite (in_heap_run_at _ _ _ _ _ E1).
  destruct (dec =? NULL) eqn:Ed; [eauto|].
  apply Z.eqb_neq in Ed. destruct Hd as [?|Hd]; [contradiction|].
  unfold mbind, M_bind, bind, call.
  destruct (store_live h1 dec (Session {| Vp9.initialized := 0 |}) Hd)
    as (h2 & E2).
  rewrite (in_heap_run_at _ _ _ _ _ E2). cbn [mem lib].
  destruct (store_session _ _ _ _ W1 E2) as (W2 & L2 & _).
  destruct (Vp9.vpx_codec_dec_init dec 1 l) as [r l1]. cbn [mem lib].
  assert (Hd2 : is_Some (live h2 !! dec)) by (rewrite L2; eauto).
  destruct (negb _).
  - rewrite (in_heap_run_at _ _ _ _ _
               (free_released h2 dec W2 (or_intror Hd2))).
    eauto.
  - destruct (store_live h2 dec (Session {| Vp9.initialized := 1 |}) Hd2)
      as (h3 & E3).
    rewrite (in_heap_run_at _ _ _ _ _ E3). eauto.
Qed.

(** ** Destroying a session *)

Lemma destroy_free {D} (h h1 : heap D) p (d : D) :
  heap_wf h -> live h !! p = Some (Session d) ->
  heap_wf h1 -> is_Some (live h1 !! p) ->
  (forall q, q <> p -> live h1 !! q = live h !! q) ->
  exists h2, free p h1 = Ok (tt, h2) /\ heap_wf h2 /\
             live h2 = delete p (live h).
Proof.
  intros W Lp W1 Hs F.
  rewrite (free_released h1 p W1) by auto. eexists. split; [reflexivity|].
  split.
  - apply with_live_wf; [exact W1|]. intros q [o Hq].
    apply lookup_delete_Some in Hq as [_ Hq]. eauto.
  - cbn [live with_live]. apply map_eq. intros q.
    destruct (decide (q = p)) as [->|Hq].
    + now rewrite !lookup_delete_eq.
    + rewrite !lookup_delete_ne by congruence. now apply F.
Qed.

Lemma live_not_null {D} (h : heap D) p o :
  heap_wf h -> live h !! p = Some o -> (p =? NULL) = false.
Proof.
  intros W Lp. apply Z.eqb_neq. intros ->.
  rewrite (heap_wf_null h W) in Lp. discriminate.
Qed.

Lemma av1_destroy_live {L} `{Av1.Dav1d L} handle
    (w : world Av1.Av1Decoder L) d :
  heap_wf (mem w) ->
  live (mem w) !! ptr_of_token handle = Some (Session d) ->
  exists w', Av1.av1_destroy handle w = Ok (tt, w') /\
    heap_wf (mem w') /\
    live (mem w') = delete (ptr_of_token handle) (live (mem w)) /\
    lib w' = if Av1.ctx d =? NULL then lib w
             else (Av1.dav1d_close (Av1.ctx d) (lib w)).2.
Proof.
  intros W Lp. unfold Av1.av1_destroy.
  rewrite (live_not_null _ _ _ W Lp).
  unfold mbind at 1, M_bind at 1, bind at 1.
  rewrite (in_heap_load_session w _ d Lp).
  destruct w as [h l]. cbn [mem lib] in *.
  destruct (Av1.ctx d =? NULL); cbn [negb].
  - unfold mbind, M_bind, bind, mret, M_ret, ret.
    destruct (destroy_free h h _ d W Lp W ltac:(rewrite Lp; eauto)
                ltac:(auto)) as (h2 & E2 & W2 & L2).
    rewrite (in_heap_run_at _ _ _ _ _ E2). eauto.
  - unfold mbind, M_bind, bind, call. cbn [mem lib].
    destruct (Av1.dav1d_close (Av1.ctx d) l) as [u l1]. cbn [mem lib snd].
    destruct (store_live h (ptr_of_token handle)
                (Session {| Av1.ctx := NULL; Av1.settings := Av1.settings d |})
                ltac:(rewrite Lp; eauto)) as (h1 & E1).
    rewrite (in_heap_run_at _ _ _ _ _ E1). cbn [mem lib].
    destruct (store_session _ _ _ _ W E1) as (W1 & L1 & F1).
    destruct (destroy_free h h1 _ d W Lp W1 ltac:(rewrite L1; eauto) F1)
      as (h2 & E2 & W2 & L2).
    rewrite (in_heap_run_at _ _ _ _ _ E2). eauto.
Qed.

Lemma hevc_destroy_live {L} `{Hevc.De265 L} handle
    (w : world Hevc.HevcDecoder L) d :
  heap_wf (mem w) ->
  live (mem w) !! ptr_of_token handle = Some (Session d) ->
  exists w', Hevc.hevc_destroy handle w = Ok (tt, w') /\
    heap_wf (mem w') /\
    live (mem w') = delete (ptr_of_token handle) (live (mem w)) /\
    lib w' = if Hevc.ctx d =? NULL then lib w
             else (Hevc.de265_free_decoder (Hevc.ctx d) (lib w)).2.
Proof.
  intros W Lp. unfold Hevc.hevc_destroy.
  rewrite (live_not_null _ _ _ W Lp).
  unfold mbind at 1, M_bind at 1, bind at 1.
  rewrite (in_heap_load_session w _ d Lp).
  destruct w as [h l]. cbn [mem lib] in *.
  destruct (destroy_free h h _ d W Lp W ltac:(rewrite Lp; eauto)
              ltac:(auto)) as (h2 & E2 & W2 & L2).
  destruct (Hevc.ctx d =? NULL); cbn [negb].
  - unfold mbind, M_bind, bind, mret, M_ret, ret.
    rewrite (in_heap_run_at _ _ _ _ _ E2). eauto.
  - unfold mbind, M_bind, bind, call. cbn [mem lib].
    destruct (Hevc.de265_free_decoder (Hevc.ctx d) l) as [u l1].
    cbn [mem lib snd].
    rewrite (in_heap_run_at _ _ _ _ _ E2). eauto.
Qed.

Lemma vp9_destroy_live {L} `{Vp9.Vpx L} handle
    (w : world Vp9.Vp9Decoder L) d :
  heap_wf (mem w) ->
  live (mem w) !! ptr_of_token handle = Some (Session d) ->
  exists w', Vp9.vp9_destroy handle w = Ok (tt, w') /\
    heap_wf (mem w') /\
    live (mem w') = delete (ptr_of_token handle) (live (mem w)) /\
    lib w' = if Vp9.initialized d =? 0 then lib w
             else (Vp9.vpx_codec_destroy (ptr_of_token handle) (lib w)).2.
Proof.
  intros W Lp. unfold Vp9.vp9_destroy.
  rewrite (live_not_null _ _ _ W Lp).
  unfold mbind at 1, M_bind at 1, bind at 1.
  rewrite (in_heap_load_session w _ d Lp).
  destruct w as [h l]. cbn [mem lib] in *.
  destruct (destroy_free h h _ d W Lp W ltac:(rewrite Lp; eauto)
              ltac:(auto)) as (h2 & E2 & W2 & L2).
  destruct (Vp9.initialized d =? 0); cbn [negb].
  - unfold mbind, M_bind, bind, mret, M_ret, ret.
    rewrite (in_heap_run_at _ _ _ _ _ E2). eauto.
  - unfold mbind, M_bind, bind, call. cbn [mem lib].
    destruct (Vp9.vpx_codec_destroy (ptr_of_token handle) l) as [u l1].
    cbn [mem lib snd].
    rewrite (in_heap_run_at _ _ _ _ _ E2). eauto.
Qed.

(** ** Properties of the exported operations *)

(** X1: whenever [decode] or [flush] of any adapter returns, the heap is
    well formed again and the token is either 0, with the heap holding
    exactly the blocks it held before the call, or the non-zero token of a
    fully populated record made of four new blocks, all earlier blocks
    being unchanged. *)
Theorem decode_flush_record_or_nothing :
  (forall L (H : Av1.Dav1d L) fuel handle data size k
          (w : world Av1.Av1Decoder L) tok w',
     heap_wf (mem w) ->
     Av1.av1_decode fuel handle data size k w = Ok (tok, w') \/
     Av1.av1_flush handle w = Ok (tok, w') ->
     record_or_nothing w w' tok) /\
  (forall L (H : Hevc.De265 L) handle data size k
          (w : world Hevc.HevcDecoder L) tok w',
     heap_wf (mem w) ->
     Hevc.hevc_decode handle data size k w = Ok (tok, w') \/
     Hevc.hevc_flush handle w = Ok (tok, w') ->
     record_or_nothing w w' tok) /\
  (forall L (H : Vp9.Vpx L) handle data size k
          (w : world Vp9.Vp9Decoder L) tok w',
     heap_wf (mem w) ->
     Vp9.vp9_decode handle data size k w = Ok (tok, w') \/
     Vp9.vp9_flush handle w = Ok (tok, w') ->
     record_or_nothing w w' tok).
Proof.
  split; [|split]; intros L H.
  - intros fuel handle data size k w tok w' W [E|E].
    + now apply (av1_decode_record_or_nothing fuel handle data size k).
    + now apply (av1_flush_record_or_nothing handle).
  - intros handle data size k w tok w' W [E|E].
    + now apply (hevc_decode_record_or_nothing handle data size k).
    + now apply (hevc_flush_record_or_nothing handle).
  - intros handle data size k w tok w' W [E|E].
    + now apply (vp9_decode_record_or_nothing handle data size k).
    + now apply (vp9_flush_record_or_nothing handle).
Qed.

(** X2: [free_frame] on the token a [decode] or [flush] returned (empty or
    not) returns normally, does not touch the library state, and leaves the
    heap with exactly the blocks it held before that [decode] or [flush]:
    the record and its three planes are all released. *)
Theorem free_frame_releases_record :
  (forall L (w w' : world Av1.Av1Decoder L) tok,
     record_or_nothing w w' tok ->
     exists w'', Av1.free_frame tok w' = Ok (tt, w'') /\
                 live (mem w'') = live (mem w) /\ lib w'' = lib w' /\
                 heap_wf (mem w'')) /\
  (forall L (w w' : world Hevc.HevcDecoder L) tok,
     record_or_nothing w w' tok ->
     exists w'', Hevc.free_frame tok w' = Ok (tt, w'') /\
                 live (mem w'') = live (mem w) /\ lib w'' = lib w' /\
                 heap_wf (mem w'')) /\
  (forall L (w w' : world Vp9.Vp9Decoder L) tok,
     record_or_nothing w w' tok ->
     exists w'', Vp9.free_frame tok w' = Ok (tt, w'') /\
                 live (mem w'') = live (mem w) /\ lib w'' = lib w' /\
                 heap_wf (mem w'')).
Proof.
  split; [|split]; intros L w w' tok R.
  - now apply av1_free_frame_releases.
  - now apply hevc_free_frame_releases.
  - now apply vp9_free_frame_releases.
Qed.

Lemma av1_create_decoder_link {L} `{Av1.Dav1d L}
    (w : world Av1.Av1Decoder L) dec h1 tok w' :
  heap_wf (mem w) ->
  malloc Av1.sizeof_Av1Decoder (mem w) = Ok (dec, h1) ->
  Av1.av1_create_decoder w = Ok (tok, w') ->
  let defaults := Av1.dav1d_default_settings (lib w) in
  let settings := {| Av1.n_threads := 1; Av1.max_frame_delay := 1;
                     Av1.other_settings := Av1.other_settings defaults.1 |} in
  let opened := Av1.dav1d_open settings defaults.2 in
  if dec =? NULL then tok = 0 /\ lib w' = lib w
  else if opened.1.1 <? 0 then tok = 0 /\ lib w' = opened.2
  else tok = token_of_ptr dec /\ tok <> 0 /\ lib w' = opened.2 /\
       live (mem w') !! dec
       = Some (Session {| Av1.ctx := opened.1.2;
                          Av1.settings := settings |}).
Proof.
  intros W Em E defaults settings opened. subst opened settings defaults.
  unfold Av1.av1_create_decoder in E.
  bind_step E dec0 w1 E1. apply in_heap_Ok in E1 as [E1 L1].
  rewrite Em in E1. injection E1 as <- Eh1.
  destruct (malloc_session _ _ _ _ W Em) as (W1 & [[-> _]|(Hp & Hr & _)]).
  { change (NULL =? NULL) with true in *. ret_step E. auto. }
  apply Z.eqb_neq in Hp. rewrite Hp in E |- *.
  bind_step E s0 w2 E2. apply call_Ok in E2 as [M2 L2].
  rewrite L1 in L2. rewrite <- L2. cbn [fst snd].
  bind_step E rc w3 E3. destruct rc as [r c]. apply call_Ok in E3 as [M3 L3].
  rewrite <- L3. cbn [fst snd].
  destruct (r <? 0).
  - bind_step E u w4 E4. apply in_heap_Ok in E4 as [_ L4]. ret_step E. auto.
  - bind_step E u w4 E4. destruct u. apply in_heap_Ok in E4 as [E4 L4].
    ret_step E. rewrite M3, M2, <- Eh1 in E4.
    destruct (store_session _ _ _ _ W1 E4) as (_ & Ls & _).
    destruct (token_of_ptr_nonzero dec Hr) as [Ht _]. auto.
Qed.

Lemma hevc_create_decoder_link {L} `{Hevc.De265 L}
    (w : world Hevc.HevcDecoder L) dec h1 tok w' :
  heap_wf (mem w) ->
  malloc Hevc.sizeof_HevcDecoder (mem w) = Ok (dec, h1) ->
  Hevc.hevc_create_decoder w = Ok (tok, w') ->
  let made := Hevc.de265_new_decoder (lib w) in
  if dec =? NULL then tok = 0 /\ lib w' = lib w
  else if made.1 =? NULL then tok = 0 /\ lib w' = made.2
  else tok = token_of_ptr dec /\ tok <> 0 /\
       lib w' = (Hevc.de265_start_worker_threads made.1 0 made.2).2 /\
       live (mem w') !! dec = Some (Session {| Hevc.ctx := made.1 |}).
Proof.
  intros W Em E made. subst made.
  unfold Hevc.hevc_create_decoder in E.
  bind_step E dec0 w1 E1. apply in_heap_Ok in E1 as [E1 L1].
  rewrite Em in E1. injection E1 as <- Eh1.
  destruct (malloc_session _ _ _ _ W Em) as (W1 & [[-> _]|(Hp & Hr & _)]).
  { change (NULL =? NULL) with true in *. ret_step E. auto. }
  apply Z.eqb_neq in Hp. rewrite Hp in E |- *.
  bind_step E c w2 E2. apply call_Ok in E2 as [M2 L2].
  rewrite L1 in L2. rewrite <- L2. cbn [fst snd].
  destruct (c =? NULL).
  - bind_step E u w4 E4. apply in_heap_Ok in E4 as [_ L4]. ret_step E. auto.
  - bind_step E u w4 E4. destruct u. apply in_heap_Ok in E4 as [E4 L4].
    bind_step E u5 w5 E5. apply call_Ok in E5 as [M5 L5]. ret_step E.
    rewrite M2, <- Eh1 in E4.
    destruct (store_session _ _ _ _ W1 E4) as (_ & Ls & _).
    destruct (token_of_ptr_nonzero dec Hr) as [Ht _].
    rewrite L4 in L5. rewrite <- L5, M5. auto.
Qed.

Lemma vp9_create_decoder_link {L} `{Vp9.Vpx L}
    (w : world Vp9.Vp9Decoder L) dec h1 tok w' :
  heap_wf (mem w) ->
  malloc Vp9.sizeof_Vp9Decoder (mem w) = Ok (dec, h1) ->
  Vp9.vp9_create_decoder w = Ok (tok, w') ->
  let init := Vp9.vpx_codec_dec_init dec 1 (lib w) in
  if dec =? NULL then tok = 0 /\ lib w' = lib w
  else if init.1 =? Vp9.VPX_CODEC_OK
  then tok = token_of_ptr dec /\ tok <> 0 /\ lib w' = init.2 /\
       live (mem w') !! dec = Some (Session {| Vp9.initialized := 1 |})
  else tok = 0 /\ lib w' = init.2.
Proof.
  intros W Em E init. subst init.
  unfold Vp9.vp9_create_decoder in E.
  bind_step E dec0 w1 E1. apply in_heap_Ok in E1 as [E1 L1].
  rewrite Em in E1. injection E1 as <- Eh1.
  destruct (malloc_session _ _ _ _ W Em) as (W1 & [[-> _]|(Hp & Hr & _)]).
  { change (NULL =? NULL) with true in *. ret_step E. auto. }
  apply Z.eqb_neq in Hp. rewrite Hp in E |- *.
  bind_step E u2 w2 E2. destruct u2. apply in_heap_Ok in E2 as [E2 L2].
  rewrite <- Eh1 in E2.
  destruct (store_session _ _ _ _ W1 E2) as (W2 & _ & _).
  bind_step E r w3 E3. apply call_Ok in E3 as [M3 L3].
  rewrite L2, L1 in L3. rewrite <- L3. cbn [fst snd].
  destruct (r =? Vp9.VPX_CODEC_OK); cbn [negb] in E.
  - bind_step E u w4 E4. destruct u. apply in_heap_Ok in E4 as [E4 L4].
    ret_step E. rewrite M3 in E4.
    destruct (store_session _ _ _ _ W2 E4) as (_ & Ls & _).
    destruct (token_of_ptr_nonzero dec Hr) as [Ht _]. auto.
  - bind_step E u w4 E4. apply in_heap_Ok in E4 as [_ L4]. ret_step E. auto.
Qed.

(** X3: [create_decoder] of each adapter always returns on a well-formed
    heap, and what it returns is decided by the session allocation and the
    library's initialisation.  With [dec] the result of the session's
    [malloc]: if [dec] is NULL the result is 0 and the library is not
    called; otherwise the library is initialised once (AV1: [dav1d_open]
    on the default settings with [n_threads] and [max_frame_delay] set to
    1; HEVC: [de265_new_decoder]; VP9: [vpx_codec_dec_init] with one
    thread); if that fails (negative result, NULL context, a result other
    than [VPX_CODEC_OK]) the result is 0, and on success it is the non-zero
    token of [dec], which holds the session (HEVC then calls
    [de265_start_worker_threads] with 0 threads).  When the result is 0 the
    heap holds exactly the blocks it held (an allocated session block is
    freed again); otherwise the session block is the only new block. *)
Theorem create_decoder_all_or_nothing :
  (forall L (H : Av1.Dav1d L) (w : world Av1.Av1Decoder L) dec h1,
     heap_wf (mem w) ->
     malloc Av1.sizeof_Av1Decoder (mem w) = Ok (dec, h1) ->
     let defaults := Av1.dav1d_default_settings (lib w) in
     let settings := {| Av1.n_threads := 1; Av1.max_frame_delay := 1;
                        Av1.other_settings :=
                          Av1.other_settings defaults.1 |} in
     let opened := Av1.dav1d_open settings defaults.2 in
     exists tok w',
       Av1.av1_create_decoder w = Ok (tok, w') /\
       session_created
         (fun d => Av1.n_threads (Av1.settings d) = 1 /\
                   Av1.max_frame_delay (Av1.settings d) = 1)
         w w' tok /\
       if dec =? NULL then tok = 0 /\ lib w' = lib w
       else if opened.1.1 <? 0 then tok = 0 /\ lib w' = opened.2
       else tok = token_of_ptr dec /\ tok <> 0 /\ lib w' = opened.2 /\
            live (mem w') !! dec
            = Some (Session {| Av1.ctx := opened.1.2;
                               Av1.settings := settings |})) /\
  (forall L (H : Hevc.De265 L) (w : world Hevc.HevcDecoder L) dec h1,
     heap_wf (mem w) ->
     malloc Hevc.sizeof_HevcDecoder (mem w) = Ok (dec, h1) ->
     let made := Hevc.de265_new_decoder (lib w) in
     exists tok w',
       Hevc.hevc_create_decoder w = Ok (tok, w') /\
       session_created (fun d => Hevc.ctx d <> NULL) w w' tok /\
       if dec =? NULL then tok = 0 /\ lib w' = lib w
       else if made.1 =? NULL then tok = 0 /\ lib w' = made.2
       else tok = token_of_ptr dec /\ tok <> 0 /\
            lib w' = (Hevc.de265_start_worker_threads made.1 0 made.2).2 /\
            live (mem w') !! dec = Some (Session {| Hevc.ctx := made.1 |})) /\
  (forall L (H : Vp9.Vpx L) (w : world Vp9.Vp9Decoder L) dec h1,
     heap_wf (mem w) ->
     malloc Vp9.sizeof_Vp9Decoder (mem w) = Ok (dec, h1) ->
     let init := Vp9.vpx_codec_dec_init dec 1 (lib w) in
     exists tok w',
       Vp9.vp9_create_decoder w = Ok (tok, w') /\
       session_created (fun d => Vp9.initialized d = 1) w w' tok /\
       if dec =? NULL then tok = 0 /\ lib w' = lib w
       else if init.1 =? Vp9.VPX_CODEC_OK
       then tok = token_of_ptr dec /\ tok <> 0 /\ lib w' = init.2 /\
            live (mem w') !! dec = Some (Session {| Vp9.initialized := 1 |})
       else tok = 0 /\ lib w' = init.2).
Proof.
  split; [|split]; intros L H w dec h1 W Em.
  - destruct (av1_create_decoder_total w W) as (tok & w' & E).
    intros defaults settings opened. exists tok, w'. split; [exact E|].
    split; [now apply av1_create_decoder_inv|].
    exact (av1_create_decoder_link w dec h1 tok w' W Em E).
  - destruct (hevc_create_decoder_total w W) as (tok & w' & E).
    intros made. exists tok, w'. split; [exact E|].
    split; [now apply hevc_create_decoder_inv|].
    exact (hevc_create_decoder_link w dec h1 tok w' W Em E).
  - destruct (vp9_create_decoder_total w W) as (tok & w' & E).
    intros init. exists tok, w'. split; [exact E|].
    split; [now apply vp9_create_decoder_inv|].
    exact (vp9_create_decoder_link w dec h1 tok w' W Em E).
Qed.

(** X4: [destroy] on a live session returns, removes exactly the session
    block from the heap, and calls the library's close function once when
    the session holds a context ([ctx] non-NULL, resp. [initialized]
    non-zero) and not at all otherwise. *)
Theorem destroy_releases_session (handle : Z) :
  (forall L (H : Av1.Dav1d L) (w : world Av1.Av1Decoder L) d,
     heap_wf (mem w) ->
     live (mem w) !! ptr_of_token handle = Some (Session d) ->
     exists w', Av1.av1_destroy handle w = Ok (tt, w') /\
       heap_wf (mem w') /\
       live (mem w') = delete (ptr_of_token handle) (live (mem w)) /\
       lib w' = if Av1.ctx d =? NULL then lib w
                else (Av1.dav1d_close (Av1.ctx d) (lib w)).2) /\
  (forall L (H : Hevc.De265 L) (w : world Hevc.HevcDecoder L) d,
     heap_wf (mem w) ->
     live (mem w) !! ptr_of_token handle = Some (Session d) ->
     exists w', Hevc.hevc_destroy handle w = Ok (tt, w') /\
       heap_wf (mem w') /\
       live (mem w') = delete (ptr_of_token handle) (live (mem w)) /\
       lib w' = if Hevc.ctx d =? NULL then lib w
                else (Hevc.de265_free_decoder (Hevc.ctx d) (lib w)).2) /\
  (forall L (H : Vp9.Vpx L) (w : world Vp9.Vp9Decoder L) d,
     heap_wf (mem w) ->
     live (mem w) !! ptr_of_token handle = Some (Session d) ->
     exists w', Vp9.vp9_destroy handle w = Ok (tt, w') /\
       heap_wf (mem w') /\
       live (mem w') = delete (ptr_of_token handle) (live (mem w)) /\
       lib w' = if Vp9.initialized d =? 0 then lib w
                else (Vp9.vpx_codec_destroy (ptr_of_token handle) (lib w)).2).
Proof.
  split; [|split]; intros L H w d W Lp.
  - now apply av1_destroy_live.
  - now apply hevc_destroy_live.
  - now apply vp9_destroy_live.
Qed.

Lemma session_created_destroy {D L} (ok : D -> Prop) (w w' : world D L) tok
    (destroy : Z -> M (world D L) unit) :
  destroy 0 w' = Ok (tt, w') ->
  (forall d, heap_wf (mem w') ->
     live (mem w') !! ptr_of_token tok = Some (Session d) ->
     exists w'', destroy tok w' = Ok (tt, w'') /\
       heap_wf (mem w'') /\
       live (mem w'') = delete (ptr_of_token tok) (live (mem w'))) ->
  session_created ok w w' tok ->
  exists w'', destroy tok w' = Ok (tt, w'') /\ heap_wf (mem w'') /\
              live (mem w'') = live (mem w).
Proof.
  intros D0 Dl (W' & [[-> Hl]|(Ht & Hp & Hn & (d & Ld & _) & F)]).
  - exists w'. auto.
  - destruct (Dl d W' Ld) as (w'' & E & W'' & L''). exists w''.
    split; [exact E|]. split; [exact W''|]. rewrite L''.
    apply map_eq. intros q. destruct (decide (q = ptr_of_token tok)) as [->|Hq].
    + now rewrite lookup_delete_eq, Hn.
    + rewrite lookup_delete_ne by congruence. now apply F.
Qed.

(** X5: [create_decoder] followed by [destroy] of the token it returned
    (zero or not) returns normally and leaves the heap with exactly the
    blocks it held before the [create_decoder]. *)
Theorem create_destroy_round_trip :
  (forall L (H : Av1.Dav1d L) (w : world Av1.Av1Decoder L) tok w',
     heap_wf (mem w) -> Av1.av1_create_decoder w = Ok (tok, w') ->
     exists w'', Av1.av1_destroy tok w' = Ok (tt, w'') /\
                 heap_wf (mem w'') /\ live (mem w'') = live (mem w)) /\
  (forall L (H : Hevc.De265 L) (w : world Hevc.HevcDecoder L) tok w',
     heap_wf (mem w) -> Hevc.hevc_create_decoder w = Ok (tok, w') ->
     exists w'', Hevc.hevc_destroy tok w' = Ok (tt, w'') /\
                 heap_wf (mem w'') /\ live (mem w'') = live (mem w)) /\
  (forall L (H : Vp9.Vpx L) (w : world Vp9.Vp9Decoder L) tok w',
     heap_wf (mem w) -> Vp9.vp9_create_decoder w = Ok (tok, w') ->
     exists w'', Vp9.vp9_destroy tok w' = Ok (tt, w'') /\
                 heap_wf (mem w'') /\ live (mem w'') = live (mem w)).
Proof.
  split; [|split]; intros L H w tok w' W E.
  - eapply session_created_destroy;
      [reflexivity| |exact (av1_create_decoder_inv w tok w' W E)].
    intros d W' Ld. destruct (av1_destroy_live tok w' d W' Ld)
      as (w'' & ? & ? & ? & _). eauto.
  - eapply session_created_destroy;
      [reflexivity| |exact (hevc_create_decoder_inv w tok w' W E)].
    intros d W' Ld. destruct (hevc_destroy_live tok w' d W' Ld)
      as (w'' & ? & ? & ? & _). eauto.
  - eapply session_created_destroy;
      [reflexivity| |exact (vp9_create_decoder_inv w tok w' W E)].
    intros d W' Ld. destruct (vp9_destroy_live tok w' d W' Ld)
      as (w'' & ? & ? & ? & _). eauto.
Qed.

Lemma in_heap_load_session_bad {D L} (w : world D L) p :
  (forall d, live (mem w) !! p <> Some (Session d)) ->
  in_heap (load_session p) w = Undefined.
Proof.
  intros Hn. unfold in_heap, load_session, mbind, M_bind, bind, load.
  destruct (live (mem w) !! p) as [[?|?|d]|] eqn:E; try reflexivity.
  now destruct (Hn d).
Qed.

Lemma in_heap_load_frame_bad {D L} (w : world D L) p :
  (forall f, live (mem w) !! p <> Some (Frame f)) ->
  in_heap (load_frame p) w = Undefined.
Proof.
  intros Hn. unfold in_heap, load_frame, mbind, M_bind, bind, load.
  destruct (live (mem w) !! p) as [[?|f|?]|] eqn:E; try reflexivity.
  now destruct (Hn f).
Qed.

(** X6: the only check the operations make on a handle is the NULL test.
    With a non-null token that does not resolve to a live session block (a
    destroyed or never created handle, or the token of a record),
    [decode], [flush] and [destroy] of every adapter and [hevc_configure]
    are undefined: they read the session through the token before any other
    test.  Likewise [free_frame] on a non-null token that does not resolve
    to a live record. *)
Theorem stale_token_is_undefined (handle : Z) :
  ptr_of_token handle <> NULL ->
  (forall L (H : Av1.Dav1d L) (w : world Av1.Av1Decoder L) fuel data size k,
     (forall d, live (mem w) !! ptr_of_token handle <> Some (Session d)) ->
     Av1.av1_decode fuel handle data size k w = Undefined /\
     Av1.av1_flush handle w = Undefined /\
     Av1.av1_destroy handle w = Undefined) /\
  (forall L (H : Hevc.De265 L) (w : world Hevc.HevcDecoder L) data size k,
     (forall d, live (mem w) !! ptr_of_token handle <> Some (Session d)) ->
     Hevc.hevc_configure handle data size w = Undefined /\
     Hevc.hevc_decode handle data size k w = Undefined /\
     Hevc.hevc_flush handle w = Undefined /\
     Hevc.hevc_destroy handle w = Undefined) /\
  (forall L (H : Vp9.Vpx L) (w : world Vp9.Vp9Decoder L) data size k,
     (forall d, live (mem w) !! ptr_of_token handle <> Some (Session d)) ->
     Vp9.vp9_decode handle data size k w = Undefined /\
     Vp9.vp9_flush handle w = Undefined /\
     Vp9.vp9_destroy handle w = Undefined) /\
  (forall L (w1 : world Av1.Av1Decoder L) (w2 : world Hevc.HevcDecoder L)
          (w3 : world Vp9.Vp9Decoder L),
     ((forall f, live (mem w1) !! ptr_of_token handle <> Some (Frame f)) ->
      Av1.free_frame handle w1 = Undefined) /\
     ((forall f, live (mem w2) !! ptr_of_token handle <> Some (Frame f)) ->
      Hevc.free_frame handle w2 = Undefined) /\
     ((forall f, live (mem w3) !! ptr_of_token handle <> Some (Frame f)) ->
      Vp9.free_frame handle w3 = Undefined)).
Proof.
  intros Hp. apply Z.eqb_neq in Hp.
  split; [|split; [|split]].
  - intros L H w fuel data size k Hn.
    unfold Av1.av1_decode, Av1.av1_flush, Av1.av1_destroy.
    rewrite Hp. unfold mbind, M_bind, bind.
    now rewrite (in_heap_load_session_bad w _ Hn).
  - intros L H w data size k Hn.
    unfold Hevc.hevc_configure, Hevc.hevc_decode, Hevc.hevc_flush,
      Hevc.hevc_destroy.
    rewrite Hp. unfold mbind, M_bind, bind.
    now rewrite (in_heap_load_session_bad w _ Hn).
  - intros L H w data size k Hn.
    unfold Vp9.vp9_decode, Vp9.vp9_flush, Vp9.vp9_destroy.
    rewrite Hp. unfold mbind, M_bind, bind.
    now rewrite (in_heap_load_session_bad w _ Hn).
  - intros L w1 w2 w3. split; [|split]; intros Hn.
    + unfold Av1.free_frame. rewrite Hp. unfold mbind, M_bind, bind.
      now rewrite (in_heap_load_frame_bad _ _ Hn).
    + unfold Hevc.free_frame. rewrite Hp. unfold mbind, M_bind, bind.
      now rewrite (in_heap_load_frame_bad _ _ Hn).
    + unfold Vp9.free_frame. rewrite Hp. unfold mbind, M_bind, bind.
      now rewrite (in_heap_load_frame_bad _ _ Hn).
Qed.

Lemma deleted_not_session {D} (m : gmap Z (object D)) p :
  forall d, delete p m !! p <> Some (Session d).
Proof. intros d. now rewrite lookup_delete_eq. Qed.

(** X7: release is not idempotent.  After [destroy] of a live session, a
    second [destroy] and any [flush] or [decode] on the same token are
    undefined; after [free_frame] of a record returned by [decode] or
    [flush], a second [free_frame] of the same token is undefined. *)
Theorem release_twice_is_undefined (handle : Z) :
  (forall L (H : Av1.Dav1d L) (w : world Av1.Av1Decoder L) d,
     heap_wf (mem w) ->
     live (mem w) !! ptr_of_token handle = Some (Session d) ->
     exists w', Av1.av1_destroy handle w = Ok (tt, w') /\
       Av1.av1_destroy handle w' = Undefined /\
       Av1.av1_flush handle w' = Undefined /\
       forall fuel data size k,
         Av1.av1_decode fuel handle data size k w' = Undefined) /\
  (forall L (H : Hevc.De265 L) (w : world Hevc.HevcDecoder L) d,
     heap_wf (mem w) ->
     live (mem w) !! ptr_of_token handle = Some (Session d) ->
     exists w', Hevc.hevc_destroy handle w = Ok (tt, w') /\
       Hevc.hevc_destroy handle w' = Undefined /\
       Hevc.hevc_flush handle w' = Undefined /\
       forall data size k,
         Hevc.hevc_decode handle data size k w' = Undefined) /\
  (forall L (H : Vp9.Vpx L) (w : world Vp9.Vp9Decoder L) d,
     heap_wf (mem w) ->
     live (mem w) !! ptr_of_token handle = Some (Session d) ->
     exists w', Vp9.vp9_destroy handle w = Ok (tt, w') /\
       Vp9.vp9_destroy handle w' = Undefined /\
       Vp9.vp9_flush handle w' = Undefined /\
       forall data size k,
         Vp9.vp9_decode handle data size k w' = Undefined) /\
  (forall L (w w' : world Av1.Av1Decoder L),
     record_or_nothing w w' handle -> handle <> 0 ->
     exists w'', Av1.free_frame handle w' = Ok (tt, w'') /\
                 Av1.free_frame handle w'' = Undefined) /\
  (forall L (w w' : world Hevc.HevcDecoder L),
     record_or_nothing w w' handle -> handle <> 0 ->
     exists w'', Hevc.free_frame handle w' = Ok (tt, w'') /\
                 Hevc.free_frame handle w'' = Undefined) /\
  (forall L (w w' : world Vp9.Vp9Decoder L),
     record_or_nothing w w' handle -> handle <> 0 ->
     exists w'', Vp9.free_frame handle w' = Ok (tt, w'') /\
                 Vp9.free_frame handle w'' = Undefined).
Proof.
  split; [|split; [|split; [|split; [|split]]]].
  - intros L H w d W Lp.
    destruct (av1_destroy_live handle w d W Lp) as (w' & E & _ & Ll & _).
    pose proof (live_not_null _ _ _ W Lp) as Hp.
    assert (Hn : forall d0, live (mem w') !! ptr_of_token handle
                            <> Some (Session d0))
      by (rewrite Ll; apply deleted_not_session).
    exists w'. split; [exact E|].
    unfold Av1.av1_destroy, Av1.av1_flush, Av1.av1_decode. rewrite Hp.
    unfold mbind, M_bind, bind.
    now rewrite (in_heap_load_session_bad w' _ Hn).
  - intros L H w d W Lp.
    destruct (hevc_destroy_live handle w d W Lp) as (w' & E & _ & Ll & _).
    pose proof (live_not_null _ _ _ W Lp) as Hp.
    assert (Hn : forall d0, live (mem w') !! ptr_of_token handle
                            <> Some (Session d0))
      by (rewrite Ll; apply deleted_not_session).
    exists w'. split; [exact E|].
    unfold Hevc.hevc_destroy, Hevc.hevc_flush, Hevc.hevc_decode. rewrite Hp.
    unfold mbind, M_bind, bind.
    now rewrite (in_heap_load_session_bad w' _ Hn).
  - intros L H w d W Lp.
    destruct (vp9_destroy_live handle w d W Lp) as (w' & E & _ & Ll & _).
    pose proof (live_not_null _ _ _ W Lp) as Hp.
    assert (Hn : forall d0, live (mem w') !! ptr_of_token handle
                            <> Some (Session d0))
      by (rewrite Ll; apply deleted_not_session).
    exists w'. split; [exact E|].
    unfold Vp9.vp9_destroy, Vp9.vp9_flush, Vp9.vp9_decode. rewrite Hp.
    unfold mbind, M_bind, bind.
    now rewrite (in_heap_load_session_bad w' _ Hn).
  - intros L w w' R Ht.
    destruct (av1_free_frame_releases w w' handle R) as (w'' & E & Ll & _).
    destruct R as (_ & [[? _]|(_ & g & y & u & v & _ & _ & Rg & _)]);
      [contradiction|].
    destruct (Rg (ptr_of_token handle) ltac:(in_list)) as [Hr Hn].
    exists w''. split; [exact E|]. unfold Av1.free_frame.
    replace (ptr_of_token handle =? NULL) with false
      by (symmetry; apply Z.eqb_neq; unfold NULL; lia).
    unfold mbind, M_bind, bind. rewrite in_heap_load_frame_bad; [reflexivity|].
    intros f. now rewrite Ll, Hn.
  - intros L w w' R Ht.
    destruct (hevc_free_frame_releases w w' handle R) as (w'' & E & Ll & _).
    destruct R as (_ & [[? _]|(_ & g & y & u & v & _ & _ & Rg & _)]);
      [contradiction|].
    destruct (Rg (ptr_of_token handle) ltac:(in_list)) as [Hr Hn].
    exists w''. split; [exact E|]. unfold Hevc.free_frame.
    replace (ptr_of_token handle =? NULL) with false
      by (symmetry; apply Z.eqb_neq; unfold NULL; lia).
    unfold mbind, M_bind, bind. rewrite in_heap_load_frame_bad; [reflexivity|].
    intros f. now rewrite Ll, Hn.
  - intros L w w' R Ht.
    destruct (vp9_free_frame_releases w w' handle R) as (w'' & E & Ll & _).
    destruct R as (_ & [[? _]|(_ & g & y & u & v & _ & _ & Rg & _)]);
      [contradiction|].
    destruct (Rg (ptr_of_token handle) ltac:(in_list)) as [Hr Hn].
    exists w''. split; [exact E|]. unfold Vp9.free_frame.
    replace (ptr_of_token handle =? NULL) with false
      by (symmetry; apply Z.eqb_neq; unfold NULL; lia).
    unfold mbind, M_bind, bind. rewrite in_heap_load_frame_bad; [reflexivity|].
    intros f. now rewrite Ll, Hn.
Qed.

(** ** Sessions across calls *)

Lemma record_or_nothing_keeps {D L} (w w' : world D L) tok :
  record_or_nothing w w' tok -> keeps_blocks w w'.
Proof.
  intros (_ & [[_ Hl]|(_ & g & y & u & v & _ & _ & Rg & _ & _ & _ & Fr)]).
  - intros q o. now rewrite Hl.
  - intros q o Hq. rewrite Fr; [exact Hq|].
    intros Hin. destruct (Rg q Hin) as [_ Hn]. congruence.
Qed.

Lemma decode_all_keeps {S} (decode : decode_call -> M S Z)
    (inv : S -> Prop) (keeps : S -> S -> Prop) :
  (forall s, keeps s s) ->
  (forall s1 s2 s3, keeps s1 s2 -> keeps s2 s3 -> keeps s1 s3) ->
  (forall c s r s', inv s -> decode c s = Ok (r, s') ->
                    inv s' /\ keeps s s') ->
  forall calls s rs s',
    inv s -> decode_all decode calls s = Ok (rs, s') ->
    inv s' /\ keeps s s'.
Proof.
  intros Kr Kt Hd. induction calls as [|c cs IH]; intros s rs s' I E.
  - cbn in E. injection E as <- <-. auto.
  - cbn [decode_all] in E.
    unfold mbind at 1, M_bind at 1, bind at 1 in E.
    destruct (decode c s) as [[r s1]| |] eqn:E1; try discriminate.
    destruct (Hd c s r s1 I E1) as [I1 K1].
    unfold mbind at 1, M_bind at 1, bind at 1 in E.
    destruct (decode_all decode cs s1) as [[rs1 s2]| |] eqn:E2;
      try discriminate.
    cbn in E. injection E as <- <-.
    destruct (IH s1 rs1 s2 I1 E2) as [I2 K2]. eauto.
Qed.

(** X8: a handle survives use.  After any sequence of [decode] calls (on
    any handles, with any data) that returns, followed or not by a
    [flush], every block that was live before is still there unchanged: in
    particular a session created earlier is still the same live session,
    and records returned earlier are intact. *)
Theorem decode_sequence_keeps_blocks (calls : list decode_call) :
  (forall L (H : Av1.Dav1d L) fuel (w : world Av1.Av1Decoder L) toks w',
     heap_wf (mem w) ->
     decode_all (av1_decode_call fuel) calls w = Ok (toks, w') ->
     heap_wf (mem w') /\ keeps_blocks w w' /\
     forall handle tok w'', Av1.av1_flush handle w' = Ok (tok, w'') ->
                            keeps_blocks w w'') /\
  (forall L (H : Hevc.De265 L) (w : world Hevc.HevcDecoder L) toks w',
     heap_wf (mem w) ->
     decode_all hevc_decode_call calls w = Ok (toks, w') ->
     heap_wf (mem w') /\ keeps_blocks w w' /\
     forall handle tok w'', Hevc.hevc_flush handle w' = Ok (tok, w'') ->
                            keeps_blocks w w'') /\
  (forall L (H : Vp9.Vpx L) (w : world Vp9.Vp9Decoder L) toks w',
     heap_wf (mem w) ->
     decode_all vp9_decode_call calls w = Ok (toks, w') ->
     heap_wf (mem w') /\ keeps_blocks w w' /\
     forall handle tok w'', Vp9.vp9_flush handle w' = Ok (tok, w'') ->
                            keeps_blocks w w'').
Proof.
  assert (Kr : forall D L (s : world D L), keeps_blocks s s)
    by (intros D L s q o; auto).
  assert (Kt : forall D L (s1 s2 s3 : world D L),
             keeps_blocks s1 s2 -> keeps_blocks s2 s3 -> keeps_blocks s1 s3)
    by (intros D L s1 s2 s3 K1 K2 q o Hq; auto).
  split; [|split].
  - intros L H fuel w toks w' W E.
    destruct (decode_all_keeps (av1_decode_call fuel)
                (fun s => heap_wf (mem s)) keeps_blocks
                (Kr _ _) (Kt _ _)) with (calls := calls) (s := w)
                (rs := toks) (s' := w') as [W' K]; try assumption.
    { intros c s r s' I Ed.
      pose proof (av1_decode_record_or_nothing _ _ _ _ _ s r s' I Ed) as R.
      split; [apply R|now apply (record_or_nothing_keeps s s' r)]. }
    split; [exact W'|]. split; [exact K|].
    intros handle tok w'' Ef. apply (Kt _ _ w w' w'' K).
    apply (record_or_nothing_keeps w' w'' tok).
    now apply (av1_flush_record_or_nothing handle).
  - intros L H w toks w' W E.
    destruct (decode_all_keeps hevc_decode_call
                (fun s => heap_wf (mem s)) keeps_blocks
                (Kr _ _) (Kt _ _)) with (calls := calls) (s := w)
                (rs := toks) (s' := w') as [W' K]; try assumption.
    { intros c s r s' I Ed.
      pose proof (hevc_decode_record_or_nothing _ _ _ _ s r s' I Ed) as R.
      split; [apply R|now apply (record_or_nothing_keeps s s' r)]. }
    split; [exact W'|]. split; [exact K|].
    intros handle tok w'' Ef. apply (Kt _ _ w w' w'' K).
    apply (record_or_nothing_keeps w' w'' tok).
    now apply (hevc_flush_record_or_nothing handle).
  - intros L H w toks w' W E.
    destruct (decode_all_keeps vp9_decode_call
                (fun s => heap_wf (mem s)) keeps_blocks
                (Kr _ _) (Kt _ _)) with (calls := calls) (s := w)
                (rs := toks) (s' := w') as [W' K]; try assumption.
    { intros c s r s' I Ed.
      pose proof (vp9_decode_record_or_nothing _ _ _ _ s r s' I Ed) as R.
      split; [apply R|now apply (record_or_nothing_keeps s s' r)]. }
    split; [exact W'|]. split; [exact K|].
    intros handle tok w'' Ef. apply (Kt _ _ w w' w'' K).
    apply (record_or_nothing_keeps w' w'' tok).
    now apply (vp9_flush_record_or_nothing handle).
Qed.

(** ** Out-of-band configuration (HEVC) *)

(** X9: [hevc_configure] never changes the wrapper's heap.  On a live
    session it does nothing at all when the context is NULL, the
    configuration pointer is NULL or the size is not positive; otherwise it
    hands the library exactly the first [size] bytes of the configuration
    with [de265_push_NAL], then calls [de265_decode] once, and reads past
    the end of the buffer (undefined) when [size] exceeds it. *)
Theorem hevc_configure_effects
    (handle : Z) (config : option bytes) (size : Z) :
  forall L (H : Hevc.De265 L) (w : world Hevc.HevcDecoder L),
    (forall w', Hevc.hevc_configure handle config size w = Ok (tt, w') ->
                mem w' = mem w) /\
    (forall d, live (mem w) !! ptr_of_token handle = Some (Session d) ->
       Hevc.ctx d = NULL \/ config = None \/ size <= 0 ->
       Hevc.hevc_configure handle config size w = Ok (tt, w)) /\
    (forall d bs, live (mem w) !! ptr_of_token handle = Some (Session d) ->
       ptr_of_token handle <> NULL ->
       Hevc.ctx d <> NULL -> config = Some bs -> 0 < size ->
       Hevc.hevc_configure handle config size w =
       if size <=? Z.of_nat (length bs) then
         Ok (tt, {| mem := mem w;
                    lib := (Hevc.de265_decode (Hevc.ctx d)
                              (Hevc.de265_push_NAL (Hevc.ctx d)
                                 (take (Z.to_nat size) bs) (lib w)).2).2 |})
       else Undefined).
Proof.
  intros L H w. split; [|split].
  - intros w' E. unfold Hevc.hevc_configure in E.
    destruct (ptr_of_token handle =? NULL);
      [unfold mret, M_ret, ret in E; now injection E as <-|].
    bind_step E d w1 E1. apply in_heap_load_session_Ok in E1 as [-> _].
    destruct (_ || _);
      [unfold mret, M_ret, ret in E; now injection E as <-|].
    bind_step E nal w1 E1. apply read_chunk_Ok in E1 as ->.
    bind_step E u1 w1 E1. apply call_Ok in E1 as [M1 _].
    apply call_Ok in E as [M2 _]. congruence.
  - intros d Ld Hg. unfold Hevc.hevc_configure.
    destruct (ptr_of_token handle =? NULL); [reflexivity|].
    unfold mbind at 1, M_bind at 1, bind at 1.
    rewrite (in_heap_load_session w _ d Ld).
    assert (Eg : (Hevc.ctx d =? NULL) || is_null config || (size <=? 0)
                 = true).
    { rewrite !orb_true_iff, Z.eqb_eq, Z.leb_le.
      destruct Hg as [?|[->|?]]; auto. }
    now rewrite Eg.
  - intros d bs Ld Hp Hc -> Hs. unfold Hevc.hevc_configure.
    apply Z.eqb_neq in Hp. rewrite Hp.
    unfold mbind at 1, M_bind at 1, bind at 1.
    rewrite (in_heap_load_session w _ d Ld).
    apply Z.eqb_neq in Hc. rewrite Hc. cbn [is_null orb].
    replace (size <=? 0) with false by (symmetry; apply Z.leb_gt; lia).
    unfold mbind, M_bind, bind, read_chunk, read_bytes.
    replace (0 <=? 0) with true by reflexivity.
    replace (0 <=? size) with true by (symmetry; apply Z.leb_le; lia).
    cbn [andb]. rewrite Z.add_0_l.
    destruct (size <=? Z.of_nat (length bs)); [|reflexivity].
    unfold mret, M_ret, ret, call. change (Z.to_nat 0) with 0%nat.
    rewrite drop_0.
    destruct (Hevc.de265_push_NAL _ _ (lib w)) as [u1 l1]. cbn [mem lib snd].
    destruct (Hevc.de265_decode _ l1) as [[] l2]. reflexivity.
Qed.

(** ** dav1d's resend loop *)

Lemma send_loop_stalls {L} `{Av1.Dav1d L} :
  (forall c d l, (Av1.dav1d_send_data c d l).1.1 = Av1.DAV1D_ERR Av1.EAGAIN) ->
  forall fuel c d (w : world Av1.Av1Decoder L),
    Av1.send_loop fuel c d w = OutOfFuel.
Proof.
  intros Hs. induction fuel as [|fuel IH]; intros c d w; [reflexivity|].
  cbn [Av1.send_loop]. unfold mbind, M_bind, bind, call.
  pose proof (Hs c d (lib w)) as Hr.
  destruct (Av1.dav1d_send_data c d (lib w)) as [[r d1] l1]. cbn in Hr.
  rewrite Hr, Z.eqb_refl. apply IH.
Qed.

(** X10: the resend loop of [av1_decode] has no exit but a result other
    than [DAV1D_ERR(EAGAIN)].  With a library that answers EAGAIN to every
    [dav1d_send_data], a [decode] that passes the guards (live session with
    a context, data present, positive size within the buffer, data buffer
    created) never returns: it is still in the loop whatever the fuel. *)
Theorem av1_decode_stalls_on_eagain L (H : Av1.Dav1d L)
    (w : world Av1.Av1Decoder L) (handle : Z) d bs (size k : Z) :
  (forall c x l, (Av1.dav1d_send_data c x l).1.1 = Av1.DAV1D_ERR Av1.EAGAIN) ->
  ptr_of_token handle <> NULL ->
  live (mem w) !! ptr_of_token handle = Some (Session d) ->
  Av1.ctx d <> NULL -> 0 < size <= Z.of_nat (length bs) ->
  (Av1.dav1d_data_create size (lib w)).1 = true ->
  forall fuel, Av1.av1_decode fuel handle (Some bs) size k w = OutOfFuel.
Proof.
  intros Hs Hp Ld Hc Hsz Hb fuel. unfold Av1.av1_decode.
  apply Z.eqb_neq in Hp. rewrite Hp.
  unfold mbind at 1, M_bind at 1, bind at 1.
  rewrite (in_heap_load_session w _ d Ld).
  apply Z.eqb_neq in Hc. rewrite Hc. cbn [is_null orb].
  replace (size <=? 0) with false by (symmetry; apply Z.leb_gt; lia).
  unfold mbind at 1, M_bind at 1, bind at 1. unfold call at 1.
  destruct (Av1.dav1d_data_create size (lib w)) as [b l1]. cbn in Hb.
  subst b. cbn [negb].
  unfold mbind at 1, M_bind at 1, bind at 1. unfold read_chunk, read_bytes.
  replace (0 <=? 0) with true by reflexivity.
  replace (0 <=? size) with true by (symmetry; apply Z.leb_le; lia).
  replace (0 + size <=? Z.of_nat (length bs)) with true
    by (symmetry; apply Z.leb_le; lia).
  cbn [andb]. unfold mret at 1, M_ret at 1, ret at 1.
  unfold mbind at 1, M_bind at 1, bind at 1.
  now rewrite (send_loop_stalls Hs).
Qed.

(** ** Missing planes *)

Lemma memcpy_null {D} dst doff soff n (h : heap D) x :
  n <> 0 -> memcpy dst doff None soff n h <> Ok x.
Proof.
  intros Hn. apply Z.eqb_neq in Hn.
  unfold memcpy, mbind, M_bind, bind, load. rewrite Hn.
  destruct (live h !! dst) as [[?|?|?]|]; discriminate.
Qed.

Lemma for_rows_first {D} n (body : Z -> M (heap D) unit) (h : heap D) x :
  n <> 0%nat -> for_rows n 0 body h = Ok x ->
  exists u h1, body 0 h = Ok (u, h1).
Proof.
  destruct n as [|n]; [congruence|]. intros _. cbn [for_rows].
  unfold mbind, M_bind, bind.
  destruct (body 0 h) as [[u h1]| |]; try discriminate. eauto.
Qed.

Lemma fill_frame_null_plane {D} g y u v f (h4 : heap D) x :
  (g_ySrc g = None /\ g_count g (g_height g) <> 0%nat /\
   Int32.uwrap (g_yRowBytes g) <> 0) \/
  ((g_uSrc g = None \/ g_vSrc g = None) /\
   g_count g (g_chromaH g) <> 0%nat /\
   Int32.uwrap (g_uvRowBytes g) <> 0) ->
  fill_frame g y u v f h4 <> Ok x.
Proof.
  intros Hc E. unfold fill_frame in E.
  unfold mbind at 1, M_bind at 1, bind at 1 in E.
  destruct (for_rows _ 0 _ h4) as [[[] h5]| |] eqn:E1; try discriminate.
  destruct Hc as [(Hy & Hn & Hb)|(Huv & Hn & Hb)].
  - destruct (for_rows_first _ _ _ _ Hn E1) as (u0 & h0 & Eb).
    rewrite Hy in Eb. now apply memcpy_null in Eb.
  - unfold mbind at 1, M_bind at 1, bind at 1 in E.
    destruct (for_rows _ 0 _ h5) as [[[] h6]| |] eqn:E2; try discriminate.
    destruct (for_rows_first _ _ _ _ Hn E2) as (u0 & h0 & Eb).
    unfold mbind, M_bind, bind in Eb.
    destruct (memcpy u _ (g_uSrc g) _ _ h5) as [[[] h7]| |] eqn:Eu;
      try discriminate.
    destruct Huv as [Hu|Hv].
    + rewrite Hu in Eu. now apply memcpy_null in Eu.
    + rewrite Hv in Eb. now apply memcpy_null in Eb.
Qed.

Lemma extract_planes_null_plane {D} g (h : heap D) p h' :
  heap_wf h ->
  (g_ySrc g = None /\ g_count g (g_height g) <> 0%nat /\
   Int32.uwrap (g_yRowBytes g) <> 0) \/
  ((g_uSrc g = None \/ g_vSrc g = None) /\
   g_count g (g_chromaH g) <> 0%nat /\
   Int32.uwrap (g_uvRowBytes g) <> 0) ->
  extract_planes g h = Ok (p, h') -> p = NULL /\ live h' = live h.
Proof.
  intros W Hc E.
  destruct (alloc4_total (D:=D) g h) as ([[[y u] v] f] & h4 & A).
  destruct (decide (y = NULL \/ u = NULL \/ v = NULL \/ f = NULL)) as [Hn|Hn].
  - destruct (extract_planes_released g h y u v f h4 W A Hn)
      as (h0 & E0 & L & _).
    rewrite E0 in E. injection E as <- <-. auto.
  - rewrite extract_planes_unfold, A in E.
    assert (Eb : (y =? NULL) || (u =? NULL) || (v =? NULL) || (f =? NULL)
                 = false).
    { rewrite !orb_false_iff, !Z.eqb_neq. tauto. }
    rewrite Eb in E. now apply fill_frame_null_plane in E.
Qed.

(** X12: the AV1 extractor tests only [data[0]] and the VP9 extractor tests
    no plane pointer.  For a picture with at least one chroma row of at
    least one byte whose U or V plane pointer is NULL, as for a monochrome
    picture of positive size, the AV1 extractor never returns a record:
    when it returns at all it returns NULL with the heap's blocks as
    before, which happens only when an allocation failed; with four
    successful allocations it copies through the NULL pointer.  The same
    holds for VP9, also for a NULL Y plane with at least one luma row of at
    least one byte.  (Rows of no byte are not covered: copying them reads
    nothing.) *)
Theorem null_plane_never_yields_record :
  (forall pic (hp : heap Av1.Av1Decoder) p hp',
     heap_wf hp ->
     Av1.data1 pic = None \/ Av1.data2 pic = None ->
     0 < g_chromaH (av1_geometry pic) ->
     Int32.uwrap (g_uvRowBytes (av1_geometry pic)) <> 0 ->
     Av1.extract_picture (Some pic) hp = Ok (p, hp') ->
     p = NULL /\ live hp' = live hp) /\
  (forall img (hp : heap Vp9.Vp9Decoder) p hp',
     heap_wf hp ->
     (Vp9.planes img Vp9.VPX_PLANE_Y = None /\
      0 < Int32.uwrap (g_height (vp9_geometry img)) /\
      Int32.uwrap (g_yRowBytes (vp9_geometry img)) <> 0) \/
     ((Vp9.planes img Vp9.VPX_PLANE_U = None \/
       Vp9.planes img Vp9.VPX_PLANE_V = None) /\
      0 < Int32.uwrap (g_chromaH (vp9_geometry img)) /\
      Int32.uwrap (g_uvRowBytes (vp9_geometry img)) <> 0) ->
     Vp9.extract_image (Some img) hp = Ok (p, hp') ->
     p = NULL /\ live hp' = live hp).
Proof.
  split.
  - intros pic hp p hp' W Hn Hc Hb E. rewrite av1_extract_picture_eq in E.
    destruct (is_null _); [injection E as <- <-; auto|].
    apply (extract_planes_null_plane (av1_geometry pic) hp p hp' W);
      [|exact E].
    right. split; [exact Hn|]. split; [|exact Hb].
    change (g_count (av1_geometry pic)) with Z.to_nat. lia.
  - intros img hp p hp' W Hn E. rewrite vp9_extract_image_eq in E.
    apply (extract_planes_null_plane (vp9_geometry img) hp p hp' W);
      [|exact E].
    assert (Hc : forall n, 0 < Int32.uwrap n ->
                           g_count (vp9_geometry img) n <> 0%nat).
    { intros n Hn0.
      change (g_count (vp9_geometry img) n) with (Z.to_nat (Int32.uwrap n)).
      lia. }
    destruct Hn as [(Hy & Hh & Hb)|(Huv & Hh & Hb)]; [left|right];
      (split; [assumption|]); (split; [now apply Hc|exact Hb]).
Qed.

(** ** The record an extraction returns *)

Lemma populated_shape {D} g (h h' : heap D) p :
  populated g h h' p ->
  exists f dy du dv,
    live h' !! p = Some (Frame f) /\
    width f = g_width g /\ height f = g_height g /\
    chromaFormat f = g_chromaFormat g /\
    yPtr f <> 0 /\ uPtr f <> 0 /\ vPtr f <> 0 /\
    plane_at h' (yPtr f) = Some dy /\
    plane_at h' (uPtr f) = Some du /\
    plane_at h' (vPtr f) = Some dv /\
    NoDup [ptr_of_token (yPtr f); ptr_of_token (uPtr f);
           ptr_of_token (vPtr f); p].
Proof.
  intros (y & u & v & Lf & Nd & Rg & (dy & Ly & _) & (du & Lu & _)
          & (dv & Lv & _) & _).
  destruct (token_of_ptr_nonzero y) as [Ty Ry];
    [destruct (Rg y ltac:(in_list)); lia|].
  destruct (token_of_ptr_nonzero u) as [Tu Ru];
    [destruct (Rg u ltac:(in_list)); lia|].
  destruct (token_of_ptr_nonzero v) as [Tv Rv];
    [destruct (Rg v ltac:(in_list)); lia|].
  exists (frame_of g y u v), dy, du, dv. unfold plane_at.
  cbn [frame_of width height chromaFormat yPtr uPtr vPtr].
  rewrite Ry, Ru, Rv, Ly, Lu, Lv. repeat split; assumption || reflexivity.
Qed.

(** X13: every record an extractor returns carries the luma dimensions the
    library reported (for VP9, [d_w] and [d_h] read as [int]) and a
    [chromaFormat] that is 420, 422 or 444 whatever layout the library
    reported (a layout the wrapper does not name is labelled 420); its
    three plane tokens are non-zero and resolve to three distinct live byte
    blocks, distinct from the record itself. *)
Theorem returned_record_shape :
  (forall pic (hp : heap Av1.Av1Decoder) p hp',
     heap_wf hp -> Av1.extract_picture (Some pic) hp = Ok (p, hp') ->
     p <> NULL ->
     exists f dy du dv,
       live hp' !! p = Some (Frame f) /\
       width f = Av1.p_w pic /\ height f = Av1.p_h pic /\
       (chromaFormat f = 420 \/ chromaFormat f = 422 \/ chromaFormat f = 444) /\
       yPtr f <> 0 /\ uPtr f <> 0 /\ vPtr f <> 0 /\
       plane_at hp' (yPtr f) = Some dy /\
       plane_at hp' (uPtr f) = Some du /\
       plane_at hp' (vPtr f) = Some dv /\
       NoDup [ptr_of_token (yPtr f); ptr_of_token (uPtr f);
              ptr_of_token (vPtr f); p]) /\
  (forall img (hp : heap Hevc.HevcDecoder) p hp',
     heap_wf hp -> Hevc.extract_picture (Some img) hp = Ok (p, hp') ->
     p <> NULL ->
     exists f dy du dv,
       live hp' !! p = Some (Frame f) /\
       width f = Hevc.de265_get_image_width img 0 /\
       height f = Hevc.de265_get_image_height img 0 /\
       (chromaFormat f = 420 \/ chromaFormat f = 422 \/ chromaFormat f = 444) /\
       yPtr f <> 0 /\ uPtr f <> 0 /\ vPtr f <> 0 /\
       plane_at hp' (yPtr f) = Some dy /\
       plane_at hp' (uPtr f) = Some du /\
       plane_at hp' (vPtr f) = Some dv /\
       NoDup [ptr_of_token (yPtr f); ptr_of_token (uPtr f);
              ptr_of_token (vPtr f); p]) /\
  (forall img (hp : heap Vp9.Vp9Decoder) p hp',
     heap_wf hp -> Vp9.extract_image (Some img) hp = Ok (p, hp') ->
     p <> NULL ->
     exists f dy du dv,
       live hp' !! p = Some (Frame f) /\
       width f = Int32.wrap (Vp9.d_w img) /\
       height f = Int32.wrap (Vp9.d_h img) /\
       (chromaFormat f = 420 \/ chromaFormat f = 422 \/ chromaFormat f = 444) /\
       yPtr f <> 0 /\ uPtr f <> 0 /\ vPtr f <> 0 /\
       plane_at hp' (yPtr f) = Some dy /\
       plane_at hp' (uPtr f) = Some du /\
       plane_at hp' (vPtr f) = Some dv /\
       NoDup [ptr_of_token (yPtr f); ptr_of_token (uPtr f);
              ptr_of_token (vPtr f); p]).
Proof.
  split; [|split].
  - intros pic hp p hp' W E Hp.
    destruct (av1_extract_inv _ _ _ _ W E)
      as (_ & [[? _]|(_ & pic' & [= <-] & P)]); [contradiction|].
    destruct (populated_shape _ _ _ _ P)
      as (f & dy & du & dv & Lf & Ew & Eh & Ec & R).
    exists f, dy, du, dv. split; [exact Lf|]. split; [exact Ew|].
    split; [exact Eh|]. split; [|exact R]. rewrite Ec.
    unfold av1_geometry. geometry_fields.
    destruct (Av1.p_layout pic); cbn; auto.
  - intros img hp p hp' W E Hp.
    destruct (hevc_extract_inv _ _ _ _ W E)
      as (_ & [[? _]|(_ & img' & [= <-] & P)]); [contradiction|].
    destruct (populated_shape _ _ _ _ P)
      as (f & dy & du & dv & Lf & Ew & Eh & Ec & R).
    exists f, dy, du, dv. split; [exact Lf|]. split; [exact Ew|].
    split; [exact Eh|]. split; [|exact R]. rewrite Ec.
    unfold hevc_geometry. geometry_fields.
    destruct (Hevc.de265_get_chroma_format img); cbn; auto.
  - intros img hp p hp' W E Hp.
    destruct (vp9_extract_inv _ _ _ _ W E)
      as (_ & [[? _]|(_ & img' & [= <-] & P)]); [contradiction|].
    destruct (populated_shape _ _ _ _ P)
      as (f & dy & du & dv & Lf & Ew & Eh & Ec & R).
    exists f, dy, du, dv. split; [exact Lf|]. split; [exact Ew|].
    split; [exact Eh|]. split; [|exact R]. rewrite Ec.
    unfold vp9_geometry. geometry_fields. unfold Vp9.vpx_fmt_to_chroma.
    destruct (_ || _); [auto|]. destruct (_ || _); auto.
Qed.

(** X14: an extraction that passes the NULL guards issues exactly four
    allocation requests, whether it ends with a record or with NULL; one
    stopped by a guard issues none. *)
Theorem extraction_allocation_count :
  (forall pic (hp : heap Av1.Av1Decoder) p hp',
     heap_wf hp -> Av1.extract_picture (Some pic) hp = Ok (p, hp') ->
     allocs hp' = if is_null (Av1.data0 pic) then allocs hp
                  else drop 4 (allocs hp)) /\
  (forall img (hp : heap Hevc.HevcDecoder) p hp',
     heap_wf hp -> Hevc.extract_picture (Some img) hp = Ok (p, hp') ->
     allocs hp' =
       if is_null (Hevc.de265_get_image_plane img 0).1
          || is_null (Hevc.de265_get_image_plane img 1).1
          || is_null (Hevc.de265_get_image_plane img 2).1
       then allocs hp else drop 4 (allocs hp)) /\
  (forall img (hp : heap Vp9.Vp9Decoder) p hp',
     heap_wf hp -> Vp9.extract_image (Some img) hp = Ok (p, hp') ->
     allocs hp' = drop 4 (allocs hp)).
Proof.
  split; [|split].
  - intros pic hp p hp' W E. rewrite av1_extract_picture_eq in E.
    destruct (is_null _); [now injection E as <- <-|].
    now destruct (extract_planes_inv _ hp p hp' W E) as (_ & ? & _).
  - intros img hp p hp' W E. rewrite hevc_extract_picture_eq in E.
    change (g_ySrc (hevc_geometry img)) with (Hevc.de265_get_image_plane img 0).1 in E.
    change (g_uSrc (hevc_geometry img)) with (Hevc.de265_get_image_plane img 1).1 in E.
    change (g_vSrc (hevc_geometry img)) with (Hevc.de265_get_image_plane img 2).1 in E.
    destruct (_ || _); [now injection E as <- <-|].
    now destruct (extract_planes_inv _ hp p hp' W E) as (_ & ? & _).
  - intros img hp p hp' W E. rewrite vp9_extract_image_eq in E.
    now destruct (extract_planes_inv _ hp p hp' W E) as (_ & ? & _).
Qed.

(** ** The further properties at the sample inputs *)

Lemma created_av1_world_wf l : heap_wf (mem (created_av1_world l)).
Proof.
  split; [reflexivity|]. intros p [o Hp].
  unfold created_av1_world in Hp. cbn [mem live] in Hp.
  apply lookup_singleton_Some in Hp as [<- _]. split; reflexivity.
Defined.

Lemma created_av1_session_live l :
  live (mem (created_av1_world l)) !! ptr_of_token 16
  = Some (Session created_av1_session).
Proof. vm_compute. reflexivity. Defined.

Lemma decode_flush_record_or_nothing_witness :
  heap_wf (mem (created_av1_world [sample_av1_picture])) /\
  match Av1.av1_decode 3 16 (Some [Byte.x00]) 1 1
          (created_av1_world [sample_av1_picture]) with
  | Ok (tok, w') =>
      tok = 92 /\
      record_or_nothing (created_av1_world [sample_av1_picture]) w' tok
  | _ => False
  end.
Proof.
  split; [apply created_av1_world_wf|].
  destruct (Av1.av1_decode 3 16 (Some [Byte.x00]) 1 1
              (created_av1_world [sample_av1_picture]))
    as [[tok w']| |] eqn:E.
  - split; [vm_compute in E; congruence|].
    exact (proj1 decode_flush_record_or_nothing _ scripted_dav1d 3%nat 16
             (Some [Byte.x00]) 1 1 _ tok w' (created_av1_world_wf _)
             (or_introl E)).
  - vm_compute in E. discriminate.
  - vm_compute in E. discriminate.
Defined.

Lemma free_frame_releases_record_witness :
  match Av1.av1_decode 3 16 (Some [Byte.x00]) 1 1
          (created_av1_world [sample_av1_picture]) with
  | Ok (tok, w') =>
      tok = 92 /\
      record_or_nothing (created_av1_world [sample_av1_picture]) w' tok /\
      exists w'', Av1.free_frame tok w' = Ok (tt, w'') /\
                  live (mem w'')
                  = live (mem (created_av1_world [sample_av1_picture])) /\
                  lib w'' = lib w' /\ heap_wf (mem w'')
  | _ => False
  end.
Proof.
  destruct (Av1.av1_decode 3 16 (Some [Byte.x00]) 1 1
              (created_av1_world [sample_av1_picture]))
    as [[tok w']| |] eqn:E.
  - split; [vm_compute in E; congruence|].
    assert (R : record_or_nothing (created_av1_world [sample_av1_picture])
                  w' tok)
      by exact (av1_decode_record_or_nothing 3%nat 16 (Some [Byte.x00]) 1 1
                  _ tok w' (created_av1_world_wf _) E).
    split; [exact R|].
    exact (proj1 free_frame_releases_record _ _ w' tok R).
  - vm_compute in E. discriminate.
  - vm_compute in E. discriminate.
Defined.

Lemma create_decoder_all_or_nothing_witness :
  heap_wf (mem (sample_world (D:=Av1.Av1Decoder) [sample_av1_picture])) /\
  exists h1,
    malloc Av1.sizeof_Av1Decoder
      (mem (sample_world (D:=Av1.Av1Decoder) [sample_av1_picture]))
    = Ok (16, h1) /\
    exists tok w',
      Av1.av1_create_decoder (sample_world [sample_av1_picture])
      = Ok (tok, w') /\
      session_created
        (fun d => Av1.n_threads (Av1.settings d) = 1 /\
                  Av1.max_frame_delay (Av1.settings d) = 1)
        (sample_world [sample_av1_picture]) w' tok /\
      tok = 16 /\ tok <> 0 /\ lib w' = [sample_av1_picture] /\
      live (mem w') !! 16 = Some (Session created_av1_session).
Proof.
  split; [exact sample_heap_wf|].
  destruct (malloc Av1.sizeof_Av1Decoder
              (mem (sample_world (D:=Av1.Av1Decoder) [sample_av1_picture])))
    as [[dec h1]| |] eqn:Em; [|vm_compute in Em; discriminate..].
  assert (Hd : dec = 16) by (vm_compute in Em; congruence). subst dec.
  exists h1. split; [reflexivity|].
  exact (proj1 create_decoder_all_or_nothing _ scripted_dav1d
           (sample_world [sample_av1_picture]) 16 h1 sample_heap_wf Em).
Defined.

Lemma destroy_releases_session_witness :
  heap_wf (mem (created_av1_world [])) /\
  live (mem (created_av1_world [])) !! ptr_of_token 16
  = Some (Session created_av1_session) /\
  exists w', Av1.av1_destroy 16 (created_av1_world []) = Ok (tt, w') /\
    heap_wf (mem w') /\
    live (mem w')
    = delete (ptr_of_token 16) (live (mem (created_av1_world []))) /\
    lib w' = [].
Proof.
  split; [apply created_av1_world_wf|].
  split; [apply created_av1_session_live|].
  exact (proj1 (destroy_releases_session 16) _ scripted_dav1d
           (created_av1_world []) created_av1_session
           (created_av1_world_wf _) (created_av1_session_live _)).
Defined.

Lemma create_destroy_round_trip_witness :
  heap_wf (mem (sample_world (D:=Av1.Av1Decoder) [sample_av1_picture])) /\
  match Av1.av1_create_decoder (sample_world [sample_av1_picture]) with
  | Ok (tok, w') =>
      tok = 16 /\
      exists w'', Av1.av1_destroy tok w' = Ok (tt, w'') /\
                  heap_wf (mem w'') /\
                  live (mem w'')
                  = live (mem (sample_world (D:=Av1.Av1Decoder)
                                 [sample_av1_picture]))
  | _ => False
  end.
Proof.
  split; [exact sample_heap_wf|].
  destruct (Av1.av1_create_decoder (sample_world [sample_av1_picture]))
    as [[tok w']| |] eqn:E.
  - split; [vm_compute in E; congruence|].
    exact (proj1 create_destroy_round_trip _ scripted_dav1d
             (sample_world [sample_av1_picture]) tok w' sample_heap_wf E).
  - vm_compute in E. discriminate.
  - vm_compute in E. discriminate.
Defined.

Lemma stale_token_is_undefined_witness :
  ptr_of_token 16 <> NULL /\
  (forall d, live (mem (sample_world (D:=Av1.Av1Decoder)
                          [sample_av1_picture])) !! ptr_of_token 16
             <> Some (Session d)) /\
  Av1.av1_decode 3 16 (Some [Byte.x00]) 1 1
    (sample_world [sample_av1_picture]) = Undefined /\
  Av1.av1_flush 16 (sample_world [sample_av1_picture]) = Undefined /\
  Av1.av1_destroy 16 (sample_world [sample_av1_picture]) = Undefined.
Proof.
  assert (Hp : ptr_of_token 16 <> NULL) by (vm_compute; discriminate).
  assert (Hn : forall d,
             live (mem (sample_world (D:=Av1.Av1Decoder)
                          [sample_av1_picture])) !! ptr_of_token 16
             <> Some (Session d)).
  { intros d. unfold sample_world, sample_heap. cbn [mem live].
    rewrite lookup_empty. discriminate. }
  split; [exact Hp|]. split; [exact Hn|].
  exact (proj1 (stale_token_is_undefined 16 Hp) _ scripted_dav1d
           (sample_world [sample_av1_picture]) 3%nat (Some [Byte.x00]) 1 1
           Hn).
Defined.

Lemma release_twice_is_undefined_witness :
  heap_wf (mem (created_av1_world [sample_av1_picture])) /\
  live (mem (created_av1_world [sample_av1_picture])) !! ptr_of_token 16
  = Some (Session created_av1_session) /\
  exists w',
    Av1.av1_destroy 16 (created_av1_world [sample_av1_picture])
    = Ok (tt, w') /\
    Av1.av1_destroy 16 w' = Undefined /\
    Av1.av1_flush 16 w' = Undefined /\
    forall fuel data size k,
      Av1.av1_decode fuel 16 data size k w' = Undefined.
Proof.
  split; [apply created_av1_world_wf|].
  split; [apply created_av1_session_live|].
  exact (proj1 (release_twice_is_undefined 16) _ scripted_dav1d
           (created_av1_world [sample_av1_picture]) created_av1_session
           (created_av1_world_wf _) (created_av1_session_live _)).
Defined.

Lemma decode_sequence_keeps_blocks_witness :
  heap_wf (mem (created_av1_world [sample_av1_picture; deep_av1_picture])) /\
  match decode_all (av1_decode_call 3) sample_calls
          (created_av1_world [sample_av1_picture; deep_av1_picture]) with
  | Ok (toks, w') =>
      toks = [92; 0] /\
      keeps_blocks (created_av1_world [sample_av1_picture; deep_av1_picture])
        w' /\
      live (mem w') !! ptr_of_token 16 = Some (Session created_av1_session)
  | _ => False
  end.
Proof.
  split; [apply created_av1_world_wf|].
  destruct (decode_all (av1_decode_call 3) sample_calls
              (created_av1_world [sample_av1_picture; deep_av1_picture]))
    as [[toks w']| |] eqn:E.
  - split; [vm_compute in E; congruence|].
    destruct (proj1 (decode_sequence_keeps_blocks sample_calls) _
                scripted_dav1d 3%nat _ toks w' (created_av1_world_wf _) E)
      as (_ & K & _).
    split; [exact K|]. apply K. apply created_av1_session_live.
  - vm_compute in E. discriminate.
  - vm_compute in E. discriminate.
Defined.

Lemma hevc_configure_effects_witness :
  match Hevc.hevc_create_decoder (sample_world [sample_hevc_image]) with
  | Ok (tok, w) =>
      tok = 16 /\
      live (mem w) !! ptr_of_token 16 = Some (Session {| Hevc.ctx := 4096 |})
      /\ Hevc.hevc_configure 16 (Some [Byte.x00; Byte.x01]) 2 w = Ok (tt, w)
      /\ Hevc.hevc_configure 16 (Some [Byte.x00; Byte.x01]) 3 w = Undefined
  | _ => False
  end.
Proof.
  destruct (Hevc.hevc_create_decoder (sample_world [sample_hevc_image]))
    as [[tok w]| |] eqn:E.
  - split; [vm_compute in E; congruence|].
    assert (Ld : live (mem w) !! ptr_of_token 16
                 = Some (Session {| Hevc.ctx := 4096 |}))
      by (vm_compute in E; injection E as _ <-; vm_compute; reflexivity).
    assert (Hp : ptr_of_token 16 <> NULL) by (vm_compute; discriminate).
    assert (Hc : Hevc.ctx {| Hevc.ctx := 4096 |} <> NULL)
      by (vm_compute; discriminate).
    split; [exact Ld|]. split.
    + rewrite (proj2 (proj2 (hevc_configure_effects 16
                 (Some [Byte.x00; Byte.x01]) 2 _ scripted_de265 w))
                 _ _ Ld Hp Hc eq_refl ltac:(lia)).
      cbn. now destruct w.
    + rewrite (proj2 (proj2 (hevc_configure_effects 16
                 (Some [Byte.x00; Byte.x01]) 3 _ scripted_de265 w))
                 _ _ Ld Hp Hc eq_refl ltac:(lia)).
      reflexivity.
  - vm_compute in E. discriminate.
  - vm_compute in E. discriminate.
Defined.

Lemma av1_decode_stalls_on_eagain_witness :
  (forall c x l,
     (Av1.dav1d_send_data (Dav1d:=stalled_dav1d) c x l).1.1
     = Av1.DAV1D_ERR Av1.EAGAIN) /\
  ptr_of_token 16 <> NULL /\
  live (mem stalled_av1_world) !! ptr_of_token 16
  = Some (Session created_av1_session) /\
  Av1.ctx created_av1_session <> NULL /\
  0 < 1 <= Z.of_nat (length [Byte.x00]) /\
  (Av1.dav1d_data_create 1 (lib stalled_av1_world)).1 = true /\
  forall fuel,
    Av1.av1_decode fuel 16 (Some [Byte.x00]) 1 1 stalled_av1_world
    = OutOfFuel.
Proof.
  assert (Hs : forall c x l,
             (Av1.dav1d_send_data (Dav1d:=stalled_dav1d) c x l).1.1
             = Av1.DAV1D_ERR Av1.EAGAIN) by (intros; reflexivity).
  assert (Hp : ptr_of_token 16 <> NULL) by (vm_compute; discriminate).
  assert (Ld : live (mem stalled_av1_world) !! ptr_of_token 16
               = Some (Session created_av1_session))
    by (vm_compute; reflexivity).
  assert (Hc : Av1.ctx created_av1_session <> NULL)
    by (vm_compute; discriminate).
  assert (Hsz : 0 < 1 <= Z.of_nat (length [Byte.x00])) by (cbn; lia).
  assert (Hb : (Av1.dav1d_data_create 1 (lib stalled_av1_world)).1 = true)
    by reflexivity.
  repeat (split; [assumption|]).
  exact (av1_decode_stalls_on_eagain _ stalled_dav1d stalled_av1_world 16
           created_av1_session [Byte.x00] 1 1 Hs Hp Ld Hc Hsz Hb).
Defined.

Lemma null_plane_never_yields_record_witness :
  heap_wf (failing_heap (D:=Av1.Av1Decoder)) /\
  (Av1.data1 monochrome_av1_picture = None \/
   Av1.data2 monochrome_av1_picture = None) /\
  0 < g_chromaH (av1_geometry monochrome_av1_picture) /\
  Int32.uwrap (g_uvRowBytes (av1_geometry monochrome_av1_picture)) <> 0 /\
  Av1.extract_picture (Some monochrome_av1_picture) sample_heap = Undefined /\
  match Av1.extract_picture (Some monochrome_av1_picture) failing_heap with
  | Ok (p, hp') => p = NULL /\ live hp' = live (failing_heap (D:=Av1.Av1Decoder))
  | _ => False
  end.
Proof.
  assert (Hn : Av1.data1 monochrome_av1_picture = None \/
               Av1.data2 monochrome_av1_picture = None)
    by (left; reflexivity).
  assert (Hc : 0 < g_chromaH (av1_geometry monochrome_av1_picture))
    by (vm_compute; reflexivity).
  assert (Hb : Int32.uwrap (g_uvRowBytes (av1_geometry monochrome_av1_picture))
               <> 0)
    by (vm_compute; discriminate).
  split; [exact failing_heap_wf|]. split; [exact Hn|]. split; [exact Hc|].
  split; [exact Hb|]. split; [vm_compute; reflexivity|].
  destruct (Av1.extract_picture (Some monochrome_av1_picture) failing_heap)
    as [[p hp']| |] eqn:E.
  - exact (proj1 null_plane_never_yields_record monochrome_av1_picture
             failing_heap p hp' failing_heap_wf Hn Hc Hb E).
  - vm_compute in E. discriminate.
  - vm_compute in E. discriminate.
Defined.

(** Rows of no byte: a 0x2 monochrome picture without chroma planes is
    extracted, its two chroma rows copying nothing. *)
Example empty_rows_read_nothing :
  returned_frame
    (in_heap (L:=unit) (Av1.extract_picture (Some empty_av1_picture))
       {| mem := sample_heap; lib := tt |})
  = Ok (19, Some {| width := 0; height := 2; chromaFormat := 420;
                    bitDepth := 8; yPtr := 16; uPtr := 17; vPtr := 18;
                    ySize := 0; uvSize := 0 |}).
Proof. vm_compute. reflexivity. Qed.

Lemma returned_record_shape_witness :
  heap_wf (sample_heap (D:=Av1.Av1Decoder)) /\
  match Av1.extract_picture (Some sample_av1_picture) sample_heap with
  | Ok (p, hp') =>
      p = 28 /\
      exists f dy du dv,
        live hp' !! p = Some (Frame f) /\
        width f = 4 /\ height f = 2 /\
        (chromaFormat f = 420 \/ chromaFormat f = 422 \/
         chromaFormat f = 444) /\
        yPtr f <> 0 /\ uPtr f <> 0 /\ vPtr f <> 0 /\
        plane_at hp' (yPtr f) = Some dy /\
        plane_at hp' (uPtr f) = Some du /\
        plane_at hp' (vPtr f) = Some dv /\
        NoDup [ptr_of_token (yPtr f); ptr_of_token (uPtr f);
               ptr_of_token (vPtr f); p]
  | _ => False
  end.
Proof.
  split; [exact sample_heap_wf|].
  destruct (Av1.extract_picture (Some sample_av1_picture) sample_heap)
    as [[p hp']| |] eqn:E.
  - assert (Hp : p = 28) by (vm_compute in E; congruence).
    split; [exact Hp|].
    apply (proj1 returned_record_shape sample_av1_picture sample_heap p hp'
             sample_heap_wf E).
    rewrite Hp. discriminate.
  - vm_compute in E. discriminate.
  - vm_compute in E. discriminate.
Defined.

Lemma extraction_allocation_count_witness :
  heap_wf (failing_heap (D:=Av1.Av1Decoder)) /\
  match Av1.extract_picture (Some sample_av1_picture) failing_heap with
  | Ok (p, hp') => p = NULL /\ allocs hp' = []
  | _ => False
  end.
Proof.
  split; [exact failing_heap_wf|].
  destruct (Av1.extract_picture (Some sample_av1_picture) failing_heap)
    as [[p hp']| |] eqn:E.
  - split; [vm_compute in E; injection E as <- _; reflexivity|].
    exact (proj1 extraction_allocation_count sample_av1_picture failing_heap
             p hp' failing_heap_wf E).
  - vm_compute in E. discriminate.
  - vm_compute in E. discriminate.
Defined.

(** ** The calls a [flush] or [decode] makes into the library *)

Lemma read_chunk_Some {D L} bs size (w : world D L) c w' :
  read_chunk (Some bs) size w = Ok (c, w') ->
  w' = w /\ 0 <= size <= Z.of_nat (length bs) /\
  c = take (Z.to_nat size) bs.
Proof.
  unfold read_chunk, read_bytes.
  destruct (0 <=? size) eqn:E1; [|discriminate].
  destruct (0 + size <=? Z.of_nat (length bs)) eqn:E2; [|discriminate].
  cbn. change (Z.to_nat 0) with 0%nat. rewrite drop_0.
  intros [= <- <-]. apply Z.leb_le in E1, E2. repeat split; lia.
Qed.

Lemma world_eta {D L} (w w0 : world D L) l :
  mem w = mem w0 -> lib w = l -> w = {| mem := mem w0; lib := l |}.
Proof. destruct w. cbn. now intros -> ->. Qed.

Lemma av1_picture_tail {L} `{Av1.Dav1d L} c
    (w0 w : world Av1.Av1Decoder L) tok w' :
  mem w = mem w0 ->
  ('(r, pic) ← call (Av1.dav1d_get_picture c Av1.zero_picture);
   if r <? 0 then mret 0 else
   frame ← in_heap (Av1.extract_picture (Some pic));
   call (Av1.dav1d_picture_unref pic);;
   mret (token_of_ptr frame)) w = Ok (tok, w') ->
  let got := Av1.dav1d_get_picture c Av1.zero_picture (lib w) in
  (got.1.1 < 0 -> tok = 0 /\ w' = {| mem := mem w0; lib := got.2 |}) /\
  (0 <= got.1.1 ->
   lib w' = (Av1.dav1d_picture_unref got.1.2 got.2).2).
Proof.
  intros M0 E got. subst got.
  bind_step E rp w2 E2. destruct rp as [r pic].
  apply call_Ok in E2 as [M2 L2]. rewrite <- L2. cbn [fst snd].
  destruct (r <? 0) eqn:Er.
  - ret_step E. apply Z.ltb_lt in Er. split; [|lia]. intros _.
    split; [reflexivity|]. apply world_eta; congruence.
  - apply Z.ltb_ge in Er. split; [lia|]. intros _.
    bind_step E frame w3 E3. apply in_heap_Ok in E3 as [_ L3].
    bind_step E u2 w4 E4. apply call_Ok in E4 as [_ L4]. ret_step E.
    rewrite <- L3, <- L4. reflexivity.
Qed.

Lemma hevc_picture_tail {L} `{Hevc.De265 L} c
    (w0 w : world Hevc.HevcDecoder L) tok w' :
  mem w = mem w0 ->
  (img ← call (Hevc.de265_get_next_picture c);
   if is_null img then mret 0 else
   frame ← in_heap (Hevc.extract_picture img);
   call (Hevc.de265_release_next_picture c);;
   mret (token_of_ptr frame)) w = Ok (tok, w') ->
  let got := Hevc.de265_get_next_picture c (lib w) in
  (got.1 = None -> tok = 0 /\ w' = {| mem := mem w0; lib := got.2 |}) /\
  (got.1 <> None ->
   lib w' = (Hevc.de265_release_next_picture c got.2).2).
Proof.
  intros M0 E got. subst got.
  bind_step E img w2 E2. apply call_Ok in E2 as [M2 L2].
  rewrite <- L2. cbn [fst snd]. destruct img as [img|]; cbn [is_null] in E.
  - split; [discriminate|]. intros _.
    bind_step E frame w3 E3. apply in_heap_Ok in E3 as [_ L3].
    bind_step E u2 w4 E4. apply call_Ok in E4 as [_ L4]. ret_step E.
    rewrite <- L3, <- L4. reflexivity.
  - ret_step E. split; [|congruence]. intros _.
    split; [reflexivity|]. apply world_eta; congruence.
Qed.

Lemma vp9_picture_tail {L} `{Vp9.Vpx L} dec
    (w0 w : world Vp9.Vp9Decoder L) tok w' :
  mem w = mem w0 ->
  (img ← call (Vp9.vpx_codec_get_frame dec);
   if is_null img then mret 0 else
   frame ← in_heap (Vp9.extract_image img);
   mret (token_of_ptr frame)) w = Ok (tok, w') ->
  let got := Vp9.vpx_codec_get_frame dec (lib w) in
  lib w' = got.2 /\ (got.1 = None -> tok = 0 /\ mem w' = mem w0).
Proof.
  intros M0 E got. subst got.
  bind_step E img w2 E2. apply call_Ok in E2 as [M2 L2].
  rewrite <- L2. cbn [fst snd]. destruct img as [img|]; cbn [is_null] in E.
  - split; [|discriminate].
    bind_step E frame w3 E3. apply in_heap_Ok in E3 as [_ L3].
    now ret_step E.
  - ret_step E. split; [reflexivity|]. intros _. split; congruence.
Qed.

(** X15: what [flush] asks of the library on a live session with a
    context.  AV1: [dav1d_flush], then one [dav1d_get_picture]; HEVC:
    [de265_flush_data], [de265_decode], then one [de265_get_next_picture];
    VP9: [vpx_codec_decode] with no data, whose result is ignored, then one
    [vpx_codec_get_frame].  When no picture comes back the result is 0 and
    the heap is untouched; when one comes back AV1 and HEVC hand it back to
    the library ([dav1d_picture_unref], [de265_release_next_picture])
    before returning, also when no record could be allocated, while VP9
    makes no further call. *)
Theorem flush_library_protocol (handle : Z) :
  ptr_of_token handle <> NULL ->
  (forall L (H : Av1.Dav1d L) (w : world Av1.Av1Decoder L) d tok w',
     live (mem w) !! ptr_of_token handle = Some (Session d) ->
     Av1.ctx d <> NULL ->
     Av1.av1_flush handle w = Ok (tok, w') ->
     let got := Av1.dav1d_get_picture (Av1.ctx d) Av1.zero_picture
                  (Av1.dav1d_flush (Av1.ctx d) (lib w)).2 in
     (got.1.1 < 0 -> tok = 0 /\ w' = {| mem := mem w; lib := got.2 |}) /\
     (0 <= got.1.1 ->
      lib w' = (Av1.dav1d_picture_unref got.1.2 got.2).2)) /\
  (forall L (H : Hevc.De265 L) (w : world Hevc.HevcDecoder L) d tok w',
     live (mem w) !! ptr_of_token handle = Some (Session d) ->
     Hevc.ctx d <> NULL ->
     Hevc.hevc_flush handle w = Ok (tok, w') ->
     let got := Hevc.de265_get_next_picture (Hevc.ctx d)
                  (Hevc.de265_decode (Hevc.ctx d)
                     (Hevc.de265_flush_data (Hevc.ctx d) (lib w)).2).2 in
     (got.1 = None -> tok = 0 /\ w' = {| mem := mem w; lib := got.2 |}) /\
     (got.1 <> None ->
      lib w' = (Hevc.de265_release_next_picture (Hevc.ctx d) got.2).2)) /\
  (forall L (H : Vp9.Vpx L) (w : world Vp9.Vp9Decoder L) d tok w',
     live (mem w) !! ptr_of_token handle = Some (Session d) ->
     Vp9.initialized d <> 0 ->
     Vp9.vp9_flush handle w = Ok (tok, w') ->
     let got := Vp9.vpx_codec_get_frame (ptr_of_token handle)
                  (Vp9.vpx_codec_decode (ptr_of_token handle) None 0
                     (lib w)).2 in
     lib w' = got.2 /\ (got.1 = None -> tok = 0 /\ mem w' = mem w)).
Proof.
  intros Hp. apply Z.eqb_neq in Hp. split; [|split].
  - intros L H w d tok w' Ld Hc E. apply Z.eqb_neq in Hc.
    unfold Av1.av1_flush in E. rewrite Hp in E.
    unfold mbind at 1, M_bind at 1, bind at 1 in E.
    rewrite (in_heap_load_session w _ d Ld), Hc in E.
    bind_step E u w1 E1. apply call_Ok in E1 as [M1 L1].
    rewrite <- L1. cbn [snd].
    exact (av1_picture_tail _ w w1 tok w' M1 E).
  - intros L H w d tok w' Ld Hc E. apply Z.eqb_neq in Hc.
    unfold Hevc.hevc_flush in E. rewrite Hp in E.
    unfold mbind at 1, M_bind at 1, bind at 1 in E.
    rewrite (in_heap_load_session w _ d Ld), Hc in E.
    bind_step E u w1 E1. apply call_Ok in E1 as [M1 L1].
    bind_step E u2 w2 E2. apply call_Ok in E2 as [M2 L2].
    rewrite <- L1. cbn [snd]. rewrite <- L2. cbn [snd].
    apply (hevc_picture_tail _ w w2 tok w'); [congruence|exact E].
  - intros L H w d tok w' Ld Hc E. apply Z.eqb_neq in Hc.
    unfold Vp9.vp9_flush in E. rewrite Hp in E.
    unfold mbind at 1, M_bind at 1, bind at 1 in E.
    rewrite (in_heap_load_session w _ d Ld), Hc in E.
    bind_step E u w1 E1. apply call_Ok in E1 as [M1 L1].
    rewrite <- L1. cbn [snd].
    exact (vp9_picture_tail _ w w1 tok w' M1 E).
Qed.

(** X16: what [decode] asks of the library on a live session with a
    context, given data and a positive size.  When the call returns, the
    size was within the buffer (a larger size reads past its end) and the
    library received exactly the first [size] bytes.  HEVC: [de265_push_NAL]
    and [de265_decode], then the picture is requested, and released again
    when one came back.  VP9: when [vpx_codec_decode] reports an error the
    result is 0 and no frame is requested; otherwise one frame is
    requested.  AV1: when [dav1d_data_create] fails the result is 0 and
    nothing was sent; otherwise the resend loop ends with some result,
    which is ignored (an error other than EAGAIN included), and the picture
    is requested and handed back as in [flush]. *)
Theorem decode_library_protocol (handle : Z) (bs : bytes) (size k : Z) :
  ptr_of_token handle <> NULL -> 0 < size ->
  (forall L (H : Av1.Dav1d L) fuel (w : world Av1.Av1Decoder L) d tok w',
     live (mem w) !! ptr_of_token handle = Some (Session d) ->
     Av1.ctx d <> NULL ->
     Av1.av1_decode fuel handle (Some bs) size k w = Ok (tok, w') ->
     let made := Av1.dav1d_data_create size (lib w) in
     (made.1 = false ->
      tok = 0 /\ w' = {| mem := mem w; lib := made.2 |}) /\
     (made.1 = true ->
      size <= Z.of_nat (length bs) /\
      exists r w1,
        Av1.send_loop fuel (Av1.ctx d) (take (Z.to_nat size) bs)
          {| mem := mem w; lib := made.2 |} = Ok (r, w1) /\
        let got := Av1.dav1d_get_picture (Av1.ctx d) Av1.zero_picture
                     (lib w1) in
        (got.1.1 < 0 -> tok = 0 /\ w' = {| mem := mem w; lib := got.2 |}) /\
        (0 <= got.1.1 ->
         lib w' = (Av1.dav1d_picture_unref got.1.2 got.2).2))) /\
  (forall L (H : Hevc.De265 L) (w : world Hevc.HevcDecoder L) d tok w',
     live (mem w) !! ptr_of_token handle = Some (Session d) ->
     Hevc.ctx d <> NULL ->
     Hevc.hevc_decode handle (Some bs) size k w = Ok (tok, w') ->
     size <= Z.of_nat (length bs) /\
     let got := Hevc.de265_get_next_picture (Hevc.ctx d)
                  (Hevc.de265_decode (Hevc.ctx d)
                     (Hevc.de265_push_NAL (Hevc.ctx d)
                        (take (Z.to_nat size) bs) (lib w)).2).2 in
     (got.1 = None -> tok = 0 /\ w' = {| mem := mem w; lib := got.2 |}) /\
     (got.1 <> None ->
      lib w' = (Hevc.de265_release_next_picture (Hevc.ctx d) got.2).2)) /\
  (forall L (H : Vp9.Vpx L) (w : world Vp9.Vp9Decoder L) d tok w',
     live (mem w) !! ptr_of_token handle = Some (Session d) ->
     Vp9.initialized d <> 0 ->
     Vp9.vp9_decode handle (Some bs) size k w = Ok (tok, w') ->
     Int32.uwrap size <= Z.of_nat (length bs) /\
     let fed := Vp9.vpx_codec_decode (ptr_of_token handle)
                  (Some (take (Z.to_nat (Int32.uwrap size)) bs))
                  (Int32.uwrap size) (lib w) in
     (fed.1 <> Vp9.VPX_CODEC_OK ->
      tok = 0 /\ w' = {| mem := mem w; lib := fed.2 |}) /\
     (fed.1 = Vp9.VPX_CODEC_OK ->
      let got := Vp9.vpx_codec_get_frame (ptr_of_token handle) fed.2 in
      lib w' = got.2 /\ (got.1 = None -> tok = 0 /\ mem w' = mem w))).
Proof.
  intros Hp Hs. apply Z.eqb_neq in Hp.
  assert (Es : (size <=? 0) = false) by (apply Z.leb_gt; lia).
  split; [|split].
  - intros L H fuel w d tok w' Ld Hc E. apply Z.eqb_neq in Hc.
    unfold Av1.av1_decode in E. rewrite Hp in E.
    unfold mbind at 1, M_bind at 1, bind at 1 in E.
    rewrite (in_heap_load_session w _ d Ld), Hc, Es in E.
    cbn [is_null orb] in E.
    bind_step E b w1 E1. apply call_Ok in E1 as [M1 L1].
    intros made. subst made. rewrite <- L1. cbn [fst snd].
    destruct b; cbn [negb] in E.
    + split; [discriminate|]. intros _.
      bind_step E chunk w2 E2.
      apply read_chunk_Some in E2 as (-> & Hsz & ->).
      split; [lia|].
      bind_step E r w3 E3. exists r, w3.
      rewrite <- (world_eta w1 w (lib w1) M1 eq_refl). split; [exact E3|].
      apply send_loop_mem in E3.
      apply (av1_picture_tail _ w w3 tok w'); [congruence|exact E].
    + ret_step E. split; [|discriminate]. intros _.
      split; [reflexivity|]. now apply world_eta.
  - intros L H w d tok w' Ld Hc E. apply Z.eqb_neq in Hc.
    unfold Hevc.hevc_decode in E. rewrite Hp in E.
    unfold mbind at 1, M_bind at 1, bind at 1 in E.
    rewrite (in_heap_load_session w _ d Ld), Hc, Es in E.
    cbn [is_null orb] in E.
    bind_step E chunk w1 E1.
    apply read_chunk_Some in E1 as (-> & Hsz & ->).
    split; [lia|].
    bind_step E u w1 E1. apply call_Ok in E1 as [M1 L1].
    bind_step E u2 w2 E2. apply call_Ok in E2 as [M2 L2].
    rewrite <- L1. cbn [snd]. rewrite <- L2. cbn [snd].
    apply (hevc_picture_tail _ w w2 tok w'); [congruence|exact E].
  - intros L H w d tok w' Ld Hc E. apply Z.eqb_neq in Hc.
    unfold Vp9.vp9_decode in E. rewrite Hp in E.
    unfold mbind at 1, M_bind at 1, bind at 1 in E.
    rewrite (in_heap_load_session w _ d Ld), Hc, Es in E.
    cbn [is_null orb] in E.
    bind_step E chunk w1 E1.
    apply read_chunk_Some in E1 as (-> & Hsz & ->).
    split; [lia|].
    bind_step E r w1 E1. apply call_Ok in E1 as [M1 L1].
    intros fed. subst fed. rewrite <- L1. cbn [fst snd].
    destruct (r =? Vp9.VPX_CODEC_OK) eqn:Er; cbn [negb] in E.
    + apply Z.eqb_eq in Er. split; [congruence|]. intros _.
      exact (vp9_picture_tail _ w w1 tok w' M1 E).
    + apply Z.eqb_neq in Er. ret_step E. split; [|congruence]. intros _.
      split; [reflexivity|]. now apply world_eta.
Qed.

(** ** Tokens *)

(** X17: the token of a block is its address read as [int32_t].  On every
    32-bit address the casts are lossless: the token converts back to the
    address, it is 0 only for NULL, and an address in the upper half of the
    address space gives a negative token. *)
Theorem token_scheme (p : Z) :
  0 <= p < Int32.modulus ->
  ptr_of_token (token_of_ptr p) = p /\
  (token_of_ptr p = 0 <-> p = NULL) /\
  token_of_ptr p = (if p <? 2 ^ 31 then p else p - Int32.modulus).
Proof.
  intros Hp.
  assert (Et : token_of_ptr p
               = (if p <? 2 ^ 31 then p else p - Int32.modulus)).
  { unfold token_of_ptr, Int32.wrap, Int32.modulus in *.
    change (2 ^ 31) with 2147483648 in *.
    change (2 ^ 32) with 4294967296 in *.
    destruct (p <? 2147483648) eqn:E.
    - apply Z.ltb_lt in E. rewrite Z.mod_small by lia. lia.
    - apply Z.ltb_ge in E.
      replace (p + 2147483648) with (p - 2147483648 + 1 * 4294967296)
        by lia.
      rewrite Z_mod_plus_full, Z.mod_small by lia. lia. }
  split; [now apply token_roundtrip|]. split; [|exact Et].
  rewrite Et. unfold NULL, Int32.modulus in *.
  change (2 ^ 31) with 2147483648.
  change (2 ^ 32) with 4294967296 in *.
  destruct (p <? 2147483648) eqn:E.
  - tauto.
  - apply Z.ltb_ge in E. lia.
Qed.

Lemma flush_library_protocol_witness :
  ptr_of_token 16 <> NULL /\
  live (mem (created_av1_world [sample_av1_picture])) !! ptr_of_token 16
  = Some (Session created_av1_session) /\
  Av1.ctx created_av1_session <> NULL /\
  match Av1.av1_flush 16 (created_av1_world [sample_av1_picture]) with
  | Ok (tok, w') => tok = 92 /\ lib w' = []
  | _ => False
  end.
Proof.
  assert (Hp : ptr_of_token 16 <> NULL) by (vm_compute; discriminate).
  assert (Hc : Av1.ctx created_av1_session <> NULL)
    by (vm_compute; discriminate).
  split; [exact Hp|]. split; [apply created_av1_session_live|].
  split; [exact Hc|].
  destruct (Av1.av1_flush 16 (created_av1_world [sample_av1_picture]))
    as [[tok w']| |] eqn:E.
  - split; [vm_compute in E; congruence|].
    exact (proj2 (proj1 (flush_library_protocol 16 Hp) _ scripted_dav1d
                    (created_av1_world [sample_av1_picture])
                    created_av1_session tok w'
                    (created_av1_session_live _) Hc E)
             (Z.le_refl 0)).
  - vm_compute in E. discriminate.
  - vm_compute in E. discriminate.
Defined.

Lemma decode_library_protocol_witness :
  ptr_of_token 16 <> NULL /\ 0 < 1 /\
  live (mem (created_av1_world [sample_av1_picture])) !! ptr_of_token 16
  = Some (Session created_av1_session) /\
  Av1.ctx created_av1_session <> NULL /\
  match Av1.av1_decode 3 16 (Some [Byte.x00]) 1 1
          (created_av1_world [sample_av1_picture]) with
  | Ok (tok, w') =>
      tok = 92 /\ 1 <= Z.of_nat (length [Byte.x00]) /\ lib w' = []
  | _ => False
  end.
Proof.
  assert (Hp : ptr_of_token 16 <> NULL) by (vm_compute; discriminate).
  assert (Hs : 0 < 1) by lia.
  assert (Hc : Av1.ctx created_av1_session <> NULL)
    by (vm_compute; discriminate).
  split; [exact Hp|]. split; [exact Hs|].
  split; [apply created_av1_session_live|]. split; [exact Hc|].
  destruct (Av1.av1_decode 3 16 (Some [Byte.x00]) 1 1
              (created_av1_world [sample_av1_picture]))
    as [[tok w']| |] eqn:E.
  - split; [vm_compute in E; congruence|].
    destruct (proj2 (proj1 (decode_library_protocol 16 [Byte.x00] 1 1 Hp Hs)
                       _ scripted_dav1d 3%nat
                       (created_av1_world [sample_av1_picture])
                       created_av1_session tok w'
                       (created_av1_session_live _) Hc E) eq_refl)
      as (Hsz & r & w1 & Es & _ & Hl).
    split; [exact Hsz|].
    vm_compute in Es. injection Es as <- <-.
    exact (Hl (Z.le_refl 0)).
  - vm_compute in E. discriminate.
  - vm_compute in E. discriminate.
Defined.

Lemma token_scheme_witness :
  0 <= 2147483664 < Int32.modulus /\
  ptr_of_token (token_of_ptr 2147483664) = 2147483664 /\
  token_of_ptr 2147483664 = -2147483632.
Proof.
  assert (Hp : 0 <= 2147483664 < Int32.modulus) by (vm_compute; split; congruence).
  split; [exact Hp|].
  destruct (token_scheme 2147483664 Hp) as (R & _ & T).
  split; [exact R|exact T].
Defined.
